(** * Register sequencing and device state of the OV2710 sensor, the TF700T
      panel and the TF700T MIPI bridge drivers

    A shallow embedding of
      - drivers/media/i2c/ov2710.c        (module [Ov2710]),
      - the WUXGA panel driver            (module [Wuxga]),
      - the DSI-to-LVDS bridge driver     (module [Bridge]).

    Driver functions are state-passing programs over a [board]: the I2C
    adapter with the outcome of its upcoming transfers, the sensor's
    register file, the regulators, the reset line and the clock, and a
    trace of everything the drivers asked the kernel to do.  A function
    that also updates [struct ov2710_dev] takes the record and returns it
    next to its return code.  The power sequencing of the panel and of the
    bridge runs over a [Rig.rig]: a board together with the levels of the
    GPIO lines, the enable counts of the single regulators and one history
    that orders line changes, regulator calls, delays and bus traffic.

    Integers are [Z]; the conversions C performs on the way ([u8], [u16],
    [u32]) are written out.  Left out: the device lock (one caller at a
    time is assumed), dev_err/pr_info logging, device-tree parsing and the
    registration with the V4L2 and DRM cores. *)

From Stdlib Require Import ZArith List Bool Lia String.
Import ListNotations.
Local Open Scope Z_scope.

(** ** Kernel error numbers (include/uapi/asm-generic/errno-base.h) *)

Definition EIO    : Z := 5.
Definition EBUSY  : Z := 16.
Definition ENODEV : Z := 19.
Definition EINVAL : Z := 22.

Definition BIT (n : Z) : Z := Z.shiftl 1 n.

(** C integer conversions used by the drivers. *)
Definition u8  (x : Z) : Z := x mod 256.
Definition u16 (x : Z) : Z := x mod 65536.
Definition u32 (x : Z) : Z := x mod 4294967296.

(** [!!x] of C. *)
Definition notnot (x : Z) : bool := negb (x =? 0).

(** ** The board: what lies below the drivers *)

(** Outcome the adapter will give to a transfer: [Full] is the complete
    count the caller asked for, [Code r] any other return value (a negative
    errno, or a short count). *)
Inductive reply :=
| Full
| Code (r : Z).

Record i2c_msg := {
  msg_flags : Z;          (* 0 = write, I2C_M_RD = read *)
  msg_len   : Z;
  msg_buf   : list Z      (* bytes sent; empty for a read message *)
}.

Definition I2C_M_RD : Z := 1.

Inductive event :=
| EvI2cSend (buf : list Z) (ret : Z)          (* i2c_master_send *)
| EvI2cTransfer (msgs : list i2c_msg) (ret : Z) (* i2c_transfer *)
| EvUsleepRange (min max : Z)
| EvMsleep (ms : Z)
| EvGpiodSet (line : string) (value : Z)
| EvRegulatorBulkEnable (ret : Z)
| EvRegulatorBulkDisable
| EvClkPrepareEnable (ret : Z)
| EvClkDisableUnprepare.

Record board := {
  regs              : Z -> Z;      (* sensor register file, one byte per address *)
  i2c_replies       : list reply;  (* outcomes of the upcoming I2C transfers;
                                      when none is left the transfer succeeds *)
  regulator_replies : list Z;      (* return codes of the upcoming
                                      regulator_bulk_enable calls; none left = 0 *)
  clk_replies       : list Z;      (* same for clk_prepare_enable *)
  supplies_on       : Z;           (* enable count held on the supply set *)
  xvclk_on          : Z;           (* enable count held on xvclk *)
  reset_line        : Z;           (* logical level last driven on the reset GPIO *)
  trace             : list event   (* oldest first *)
}.

Definition emit (e : event) (b : board) : board :=
  {| regs := regs b; i2c_replies := i2c_replies b;
     regulator_replies := regulator_replies b; clk_replies := clk_replies b;
     supplies_on := supplies_on b; xvclk_on := xvclk_on b;
     reset_line := reset_line b; trace := trace b ++ [e] |}.

Definition set_regs (r : Z -> Z) (b : board) : board :=
  {| regs := r; i2c_replies := i2c_replies b;
     regulator_replies := regulator_replies b; clk_replies := clk_replies b;
     supplies_on := supplies_on b; xvclk_on := xvclk_on b;
     reset_line := reset_line b; trace := trace b |}.

Definition set_i2c_replies (l : list reply) (b : board) : board :=
  {| regs := regs b; i2c_replies := l;
     regulator_replies := regulator_replies b; clk_replies := clk_replies b;
     supplies_on := supplies_on b; xvclk_on := xvclk_on b;
     reset_line := reset_line b; trace := trace b |}.

Definition set_regulator_replies (l : list Z) (b : board) : board :=
  {| regs := regs b; i2c_replies := i2c_replies b;
     regulator_replies := l; clk_replies := clk_replies b;
     supplies_on := supplies_on b; xvclk_on := xvclk_on b;
     reset_line := reset_line b; trace := trace b |}.

Definition set_clk_replies (l : list Z) (b : board) : board :=
  {| regs := regs b; i2c_replies := i2c_replies b;
     regulator_replies := regulator_replies b; clk_replies := l;
     supplies_on := supplies_on b; xvclk_on := xvclk_on b;
     reset_line := reset_line b; trace := trace b |}.

Definition set_supplies_on (n : Z) (b : board) : board :=
  {| regs := regs b; i2c_replies := i2c_replies b;
     regulator_replies := regulator_replies b; clk_replies := clk_replies b;
     supplies_on := n; xvclk_on := xvclk_on b;
     reset_line := reset_line b; trace := trace b |}.

Definition set_xvclk_on (n : Z) (b : board) : board :=
  {| regs := regs b; i2c_replies := i2c_replies b;
     regulator_replies := regulator_replies b; clk_replies := clk_replies b;
     supplies_on := supplies_on b; xvclk_on := n;
     reset_line := reset_line b; trace := trace b |}.

Definition set_reset_line (v : Z) (b : board) : board :=
  {| regs := regs b; i2c_replies := i2c_replies b;
     regulator_replies := regulator_replies b; clk_replies := clk_replies b;
     supplies_on := supplies_on b; xvclk_on := xvclk_on b;
     reset_line := v; trace := trace b |}.

(** A board at rest: nothing enabled, nothing logged, every call succeeds. *)
Definition quiet_board : board :=
  {| regs := fun _ => 0; i2c_replies := []; regulator_replies := [];
     clk_replies := []; supplies_on := 0; xvclk_on := 0; reset_line := 1;
     trace := [] |}.

(** ** Driver code as state-passing programs *)

Definition M (A : Type) : Type := board -> A * board.

Definition Ret {A} (a : A) : M A := fun b => (a, b).

Definition Bind {A B} (m : M A) (k : A -> M B) : M B :=
  fun b => let (a, b') := m b in k a b'.

Declare Scope drv_scope.
Delimit Scope drv_scope with drv.
Notation "x <- c ;; k" := (Bind c (fun x => k))
  (at level 61, c at next level, right associativity) : drv_scope.
Notation "c ;; k" := (Bind c (fun _ => k))
  (at level 61, right associativity) : drv_scope.
Notation "' pat <- c ;; k" := (Bind c (fun x => let 'pat := x in k))
  (at level 61, pat pattern, c at next level, right associativity) : drv_scope.
Local Open Scope drv_scope.

Definition log (e : event) : M unit := fun b => (tt, emit e b).

(** ** Kernel services *)

Definition reply_value (count : Z) (r : reply) : Z :=
  match r with Full => count | Code r => r end.

Definition next_reply (count : Z) (b : board) : Z :=
  match i2c_replies b with
  | [] => count
  | r :: _ => reply_value count r
  end.

(** Big-endian helpers of asm/unaligned.h. *)
Definition put_unaligned_be16 (v : Z) : list Z :=
  [u8 (Z.shiftr v 8); u8 v].

Definition put_unaligned_be32 (v : Z) : list Z :=
  [u8 (Z.shiftr v 24); u8 (Z.shiftr v 16); u8 (Z.shiftr v 8); u8 v].

Definition get_unaligned_be (bytes : list Z) : Z :=
  fold_left (fun acc x => acc * 256 + x) bytes 0.

(** The sensor latches an acknowledged write: the first two bytes are the
    register address, the payload goes to consecutive registers. *)
Fixpoint store_bytes (addr : Z) (payload : list Z) (r : Z -> Z) : Z -> Z :=
  match payload with
  | [] => r
  | x :: rest =>
      store_bytes (addr + 1) rest (fun a => if a =? addr then x else r a)
  end.

Definition latch (buf : list Z) (r : Z -> Z) : Z -> Z :=
  match buf with
  | hi :: lo :: payload => store_bytes (hi * 256 + lo) payload r
  | _ => r
  end.

Fixpoint fetch_bytes (n : nat) (addr : Z) (r : Z -> Z) : list Z :=
  match n with
  | O => []
  | S n' => u8 (r addr) :: fetch_bytes n' (addr + 1) r
  end.

(** [i2c_master_send(client, buf, count)]: returns [count] when the whole
    buffer went out. *)
Definition i2c_master_send (buf : list Z) (count : Z) : M Z :=
  fun b =>
    let out := firstn (Z.to_nat count) buf in
    let r := next_reply count b in
    let b1 := set_i2c_replies (tl (i2c_replies b)) b in
    let b2 := if r =? count then set_regs (latch out (regs b1)) b1 else b1 in
    (r, emit (EvI2cSend out r) b2).

(** [i2c_transfer(adapter, msgs, num)]: returns [num] when every message was
    transferred.  The second component is what the read messages brought
    back (a write of a 2-byte register address followed by a read of [len]
    bytes, the only read the drivers issue), empty otherwise. *)
Definition i2c_transfer (msgs : list i2c_msg) : M (Z * list Z) :=
  fun b =>
    let num := Z.of_nat (List.length msgs) in
    let r := next_reply num b in
    let data :=
      match msgs with
      | [w; rd] =>
          match msg_buf w with
          | [hi; lo] =>
              if (r =? num) && (msg_flags rd =? I2C_M_RD)
              then fetch_bytes (Z.to_nat (msg_len rd)) (hi * 256 + lo) (regs b)
              else []
          | _ => []
          end
      | _ => []
      end in
    ((r, data), emit (EvI2cTransfer msgs r)
                     (set_i2c_replies (tl (i2c_replies b)) b)).

Definition usleep_range (min max : Z) : M unit := log (EvUsleepRange min max).
Definition msleep (ms : Z) : M unit := log (EvMsleep ms).

Definition gpiod_set_value (line : string) (value : Z) : M unit :=
  fun b => (tt, emit (EvGpiodSet line value) (set_reset_line value b)).

(** [regulator_bulk_enable] enables every supply of the set or none: on
    failure it has already disabled the ones it had enabled. *)
Definition regulator_bulk_enable : M Z :=
  fun b =>
    let r := hd 0 (regulator_replies b) in
    let b1 := set_regulator_replies (tl (regulator_replies b)) b in
    let b2 := if r =? 0 then set_supplies_on (supplies_on b1 + 1) b1 else b1 in
    (r, emit (EvRegulatorBulkEnable r) b2).

Definition regulator_bulk_disable : M unit :=
  fun b => (tt, emit EvRegulatorBulkDisable
                     (set_supplies_on (supplies_on b - 1) b)).

Definition clk_prepare_enable : M Z :=
  fun b =>
    let r := hd 0 (clk_replies b) in
    let b1 := set_clk_replies (tl (clk_replies b)) b in
    let b2 := if r =? 0 then set_xvclk_on (xvclk_on b1 + 1) b1 else b1 in
    (r, emit (EvClkPrepareEnable r) b2).

Definition clk_disable_unprepare : M unit :=
  fun b => (tt, emit EvClkDisableUnprepare (set_xvclk_on (xvclk_on b - 1) b)).

(** * drivers/media/i2c/ov2710.c *)

Module Ov2710.

(** The file mixes the OV2680_ and OV2710_ spellings of its macros; both
    name the one constant defined at the top of the file. *)
Definition OV2710_REG_STREAM_CTRL       : Z := 0x3008.
Definition OV2710_REG_STREAM_CTRL_RESET : Z := BIT 7.
Definition OV2710_REG_STREAM_CTRL_SLEEP : Z := BIT 6.
Definition OV2710_REG_R_MANUAL          : Z := 0x3503.
Definition OV2710_REG_GAIN_PK           : Z := 0x350a.
Definition OV2710_REG_EXPOSURE_PK_HIGH  : Z := 0x3500.
Definition OV2710_REG_FORMAT1           : Z := 0x3820.
Definition OV2710_REG_FORMAT2           : Z := 0x3821.
Definition OV2710_REG_ISP_CTRL00        : Z := 0x5080.
Definition OV2710_FRAME_RATE            : Z := 30.
Definition OV2710_REG_VALUE_8BIT        : Z := 1.
Definition OV2710_REG_VALUE_16BIT       : Z := 2.
Definition OV2710_REG_VALUE_24BIT       : Z := 3.

Inductive ov2710_mode_id :=
| OV2710_MODE_720P_1280_720
| OV2710_MODE_HD_1920_1080.

Record reg_value := RV {
  reg_addr : Z;   (* u16 *)
  val      : Z    (* u8 *)
}.

Record ov2710_mode_info := {
  name          : string;
  id            : ov2710_mode_id;
  width         : Z;
  height        : Z;
  reg_data      : list reg_value;
  reg_data_size : Z
}.

(** The fields of [struct v4l2_ctrl] the driver reads. *)
Record v4l2_ctrl := {
  cval   : Z;      (* ctrl->val *)
  is_new : bool
}.

Record ov2710_ctrls := {
  auto_exp     : v4l2_ctrl;
  exposure     : v4l2_ctrl;
  auto_gain    : v4l2_ctrl;
  gain         : v4l2_ctrl;
  hflip        : v4l2_ctrl;
  vflip        : v4l2_ctrl;
  test_pattern : v4l2_ctrl
}.

Record v4l2_mbus_framefmt := {
  fmt_width  : Z;
  fmt_height : Z;
  code       : Z;
  field      : Z;
  colorspace : Z
}.

Record v4l2_fract := {
  numerator   : Z;
  denominator : Z
}.

Record ov2710_dev := {
  reset_gpio           : option string;   (* NULL when the board has none *)
  mode_pending_changes : bool;
  is_enabled           : bool;
  is_streaming         : bool;
  ctrls                : ov2710_ctrls;
  fmt                  : v4l2_mbus_framefmt;
  frame_interval       : v4l2_fract;
  current_mode         : ov2710_mode_info
}.

Definition set_mode_pending_changes (v : bool) (s : ov2710_dev) : ov2710_dev :=
  {| reset_gpio := reset_gpio s; mode_pending_changes := v;
     is_enabled := is_enabled s; is_streaming := is_streaming s;
     ctrls := ctrls s; fmt := fmt s; frame_interval := frame_interval s;
     current_mode := current_mode s |}.

Definition set_is_enabled (v : bool) (s : ov2710_dev) : ov2710_dev :=
  {| reset_gpio := reset_gpio s; mode_pending_changes := mode_pending_changes s;
     is_enabled := v; is_streaming := is_streaming s;
     ctrls := ctrls s; fmt := fmt s; frame_interval := frame_interval s;
     current_mode := current_mode s |}.

Definition set_is_streaming (v : bool) (s : ov2710_dev) : ov2710_dev :=
  {| reset_gpio := reset_gpio s; mode_pending_changes := mode_pending_changes s;
     is_enabled := is_enabled s; is_streaming := v;
     ctrls := ctrls s; fmt := fmt s; frame_interval := frame_interval s;
     current_mode := current_mode s |}.

Definition set_fmt_field (f : v4l2_mbus_framefmt) (s : ov2710_dev) : ov2710_dev :=
  {| reset_gpio := reset_gpio s; mode_pending_changes := mode_pending_changes s;
     is_enabled := is_enabled s; is_streaming := is_streaming s;
     ctrls := ctrls s; fmt := f; frame_interval := frame_interval s;
     current_mode := current_mode s |}.

Definition set_current_mode (m : ov2710_mode_info) (s : ov2710_dev) : ov2710_dev :=
  {| reset_gpio := reset_gpio s; mode_pending_changes := mode_pending_changes s;
     is_enabled := is_enabled s; is_streaming := is_streaming s;
     ctrls := ctrls s; fmt := fmt s; frame_interval := frame_interval s;
     current_mode := m |}.

Definition set_code (c : Z) (f : v4l2_mbus_framefmt) : v4l2_mbus_framefmt :=
  {| fmt_width := fmt_width f; fmt_height := fmt_height f; code := c;
     field := field f; colorspace := colorspace f |}.

(** include/uapi/linux/media-bus-format.h *)
Definition MEDIA_BUS_FMT_SBGGR10_1X10 : Z := 0x3007.
Definition MEDIA_BUS_FMT_SGBRG10_1X10 : Z := 0x300e.
Definition MEDIA_BUS_FMT_SGRBG10_1X10 : Z := 0x300a.
Definition MEDIA_BUS_FMT_SRGGB10_1X10 : Z := 0x300f.

Definition ov2710_hv_flip_bayer_order : list Z :=
  [MEDIA_BUS_FMT_SBGGR10_1X10; MEDIA_BUS_FMT_SGRBG10_1X10;
   MEDIA_BUS_FMT_SGBRG10_1X10; MEDIA_BUS_FMT_SRGGB10_1X10].

Definition ov2710_setting_60fps_720P_1280_720 : list reg_value :=
  [RV 0x3103 0x93; RV 0x3008 0x82; RV 0x3008 0x42; RV 0x3017 0x7f;
   RV 0x3018 0xfc; RV 0x3706 0x61; RV 0x3712 0x0c; RV 0x3630 0x6d;
   RV 0x3801 0xb4; RV 0x3621 0x04; RV 0x3604 0x60; RV 0x3603 0xa7;
   RV 0x3631 0x26; RV 0x3600 0x04; RV 0x3620 0x37; RV 0x3623 0x00;
   RV 0x3702 0x9e; RV 0x3703 0x5c; RV 0x3704 0x40; RV 0x370d 0x0f;
   RV 0x3713 0x9f; RV 0x3714 0x4c; RV 0x3710 0x9e; RV 0x3801 0xc4;
   RV 0x3605 0x05; RV 0x3606 0x3f; RV 0x302d 0x90; RV 0x370b 0x40;
   RV 0x3716 0x31; RV 0x3707 0x52; RV 0x380d 0x74; RV 0x5181 0x20;
   RV 0x518f 0x00; RV 0x4301 0xff; RV 0x4303 0x00; RV 0x3a00 0x78;
   RV 0x300f 0x88; RV 0x3011 0x28; RV 0x3a1a 0x06; RV 0x3a18 0x00;
   RV 0x3a19 0x7a; RV 0x3a13 0x54; RV 0x382e 0x0f; RV 0x381a 0x1a;
   RV 0x401d 0x02; RV 0x381c 0x10; RV 0x381d 0xb0; RV 0x381e 0x02;
   RV 0x381f 0xec; RV 0x3800 0x01; RV 0x3820 0x0a; RV 0x3821 0x2a;
   RV 0x3804 0x05; RV 0x3805 0x10; RV 0x3802 0x00; RV 0x3803 0x04;
   RV 0x3806 0x02; RV 0x3807 0xe0; RV 0x3808 0x05; RV 0x3809 0x10;
   RV 0x380a 0x02; RV 0x380b 0xe0; RV 0x380e 0x02; RV 0x380f 0xf0;
   RV 0x380c 0x07; RV 0x380d 0x00; RV 0x3810 0x10; RV 0x3811 0x06;
   RV 0x5688 0x03; RV 0x5684 0x05; RV 0x5685 0x00; RV 0x5686 0x02;
   RV 0x5687 0xd0; RV 0x3a08 0x1b; RV 0x3a09 0xe6; RV 0x3a0a 0x17;
   RV 0x3a0b 0x40; RV 0x3a0e 0x01; RV 0x3a0d 0x02; RV 0x3011 0x0a;
   RV 0x300f 0x8a; RV 0x3017 0x00; RV 0x3018 0x00; RV 0x4800 0x24;
   RV 0x300e 0x04; RV 0x4801 0x0f; RV 0x300f 0xc3; RV 0x3a0f 0x40;
   RV 0x3a10 0x38; RV 0x3a1b 0x48; RV 0x3a1e 0x30; RV 0x3a11 0x90;
   RV 0x3a1f 0x10; RV 0x3010 0x10; RV 0x3a0e 0x02; RV 0x3a0d 0x03;
   RV 0x3a08 0x0d; RV 0x3a09 0xf3; RV 0x3a0a 0x0b; RV 0x3a0b 0xa0;
   RV 0x300f 0xc3; RV 0x3011 0x0e; RV 0x3012 0x02; RV 0x380c 0x07;
   RV 0x380d 0x6a; RV 0x3703 0x5c; RV 0x3704 0x40; RV 0x3801 0xbc;
   RV 0x3503 0x17; RV 0x3500 0x00; RV 0x3501 0x00; RV 0x3502 0x00;
   RV 0x350a 0x00; RV 0x350b 0x00; RV 0x5001 0x4e; RV 0x5000 0x5f;
   RV 0x3008 0x02].

Definition ov2710_setting_30fps_HD_1920_1080 : list reg_value :=
  [RV 0x3103 0x93; RV 0x3008 0x82; RV 0x3008 0x42; RV 0x3017 0x7f;
   RV 0x3018 0xfc; RV 0x3706 0x61; RV 0x3712 0x0c; RV 0x3630 0x6d;
   RV 0x3801 0xb4; RV 0x3621 0x04; RV 0x3604 0x60; RV 0x3603 0xa7;
   RV 0x3631 0x26; RV 0x3600 0x04; RV 0x3620 0x37; RV 0x3623 0x00;
   RV 0x3702 0x9e; RV 0x3703 0x5c; RV 0x3704 0x40; RV 0x370d 0x0f;
   RV 0x3713 0x9f; RV 0x3714 0x4c; RV 0x3710 0x9e; RV 0x3801 0xc4;
   RV 0x3605 0x05; RV 0x3606 0x3f; RV 0x302d 0x90; RV 0x370b 0x40;
   RV 0x3716 0x31; RV 0x3707 0x52; RV 0x380d 0x74; RV 0x5181 0x20;
   RV 0x518f 0x00; RV 0x4301 0xff; RV 0x4303 0x00; RV 0x3a00 0x78;
   RV 0x300f 0x88; RV 0x3011 0x28; RV 0x3a1a 0x06; RV 0x3a18 0x00;
   RV 0x3a19 0x7a; RV 0x3a13 0x54; RV 0x382e 0x0f; RV 0x381a 0x1a;
   RV 0x401d 0x02; RV 0x381c 0x00; RV 0x381d 0x02; RV 0x381e 0x04;
   RV 0x381f 0x38; RV 0x3820 0x00; RV 0x3821 0x98; RV 0x3800 0x01;
   RV 0x3802 0x00; RV 0x3803 0x0a; RV 0x3804 0x07; RV 0x3805 0x90;
   RV 0x3806 0x04; RV 0x3807 0x40; RV 0x3808 0x07; RV 0x3809 0x90;
   RV 0x380a 0x04; RV 0x380b 0x40; RV 0x380e 0x04; RV 0x380f 0x50;
   RV 0x380c 0x09; RV 0x380d 0x74; RV 0x3810 0x08; RV 0x3811 0x02;
   RV 0x5688 0x03; RV 0x5684 0x07; RV 0x5685 0xa0; RV 0x5686 0x04;
   RV 0x5687 0x43; RV 0x3011 0x0a; RV 0x300f 0x8a; RV 0x3017 0x00;
   RV 0x3018 0x00; RV 0x4800 0x24; RV 0x300e 0x04; RV 0x4801 0x0f;
   RV 0x300f 0xc3; RV 0x3010 0x00; RV 0x3011 0x0a; RV 0x3012 0x01;
   RV 0x3a0f 0x40; RV 0x3a10 0x38; RV 0x3a1b 0x48; RV 0x3a1e 0x30;
   RV 0x3a11 0x90; RV 0x3a1f 0x10; RV 0x3a0e 0x03; RV 0x3a0d 0x04;
   RV 0x3a08 0x14; RV 0x3a09 0xc0; RV 0x3a0a 0x11; RV 0x3a0b 0x40;
   RV 0x300f 0xc3; RV 0x3010 0x00; RV 0x3011 0x0e; RV 0x3012 0x02;
   RV 0x380c 0x09; RV 0x380d 0xec; RV 0x3703 0x61; RV 0x3704 0x44;
   RV 0x3801 0xd2; RV 0x3503 0x17; RV 0x3500 0x00; RV 0x3501 0x00;
   RV 0x3502 0x00; RV 0x350a 0x00; RV 0x350b 0x00; RV 0x5001 0x4e;
   RV 0x5000 0x5f; RV 0x3008 0x02].

Definition ARRAY_SIZE {A} (l : list A) : Z := Z.of_nat (List.length l).

Definition ov2710_mode_init_data : ov2710_mode_info :=
  {| name := "mode_hd_1920_1080"; id := OV2710_MODE_HD_1920_1080;
     width := 1920; height := 1080;
     reg_data := ov2710_setting_30fps_HD_1920_1080;
     reg_data_size := ARRAY_SIZE ov2710_setting_30fps_HD_1920_1080 |}.

(** The second entry names its table ..._1920_1090 in the source; the only
    table of that shape in the file is ..._1920_1080. *)
Definition ov2710_mode_data : list ov2710_mode_info :=
  [ {| name := "mode_720p_1280_720"; id := OV2710_MODE_720P_1280_720;
       width := 1280; height := 720;
       reg_data := ov2710_setting_60fps_720P_1280_720;
       reg_data_size := ARRAY_SIZE ov2710_setting_60fps_720P_1280_720 |};
    {| name := "mode_hd_1920_1080"; id := OV2710_MODE_HD_1920_1080;
       width := 1920; height := 1080;
       reg_data := ov2710_setting_30fps_HD_1920_1080;
       reg_data_size := ARRAY_SIZE ov2710_setting_30fps_HD_1920_1080 |} ].

(** ** Register access *)

Definition __ov2710_write_reg (reg len val : Z) : M Z :=
  if 4 <? len then Ret (- EINVAL)
  else
    let buf := put_unaligned_be16 (u16 reg)
               ++ put_unaligned_be32 (u32 (Z.shiftl (u32 val) (8 * (4 - len)))) in
    ret <- i2c_master_send buf (len + 2) ;;
    if negb (ret =? len + 2) then Ret (- EIO) else Ret 0.

Definition ov2710_write_reg (r v : Z) : M Z :=
  __ov2710_write_reg r OV2710_REG_VALUE_8BIT v.
Definition ov2710_write_reg16 (r v : Z) : M Z :=
  __ov2710_write_reg r OV2710_REG_VALUE_16BIT v.
Definition ov2710_write_reg24 (r v : Z) : M Z :=
  __ov2710_write_reg r OV2710_REG_VALUE_24BIT v.

(** Returns the return code and the content of [*val]; [*val] is written
    only on success, and no caller reads it after a failure (0 stands for
    it then). *)
Definition __ov2710_read_reg (reg len : Z) : M (Z * Z) :=
  if 4 <? len then Ret (- EINVAL, 0)
  else
    let addr_buf := [u8 (Z.shiftr (u16 reg) 8); Z.land (u16 reg) 0xff] in
    let msgs :=
      [ {| msg_flags := 0; msg_len := ARRAY_SIZE addr_buf; msg_buf := addr_buf |};
        {| msg_flags := I2C_M_RD; msg_len := len; msg_buf := [] |} ] in
    '(ret, data_buf) <- i2c_transfer msgs ;;
    if negb (ret =? ARRAY_SIZE msgs) then Ret (- EIO, 0)
    else Ret (0, get_unaligned_be data_buf).

Definition ov2710_read_reg (r : Z) : M (Z * Z) :=
  __ov2710_read_reg r OV2710_REG_VALUE_8BIT.
Definition ov2710_read_reg16 (r : Z) : M (Z * Z) :=
  __ov2710_read_reg r OV2710_REG_VALUE_16BIT.
Definition ov2710_read_reg24 (r : Z) : M (Z * Z) :=
  __ov2710_read_reg r OV2710_REG_VALUE_24BIT.

(** [mask] and [val] are [u8] parameters: the call truncates them. *)
Definition ov2710_mod_reg (reg mask val : Z) : M Z :=
  let mask := u8 mask in
  let val := u8 val in
  '(ret, readval) <- ov2710_read_reg reg ;;
  if ret <? 0 then Ret ret
  else
    let readval := u32 (Z.land readval (Z.lnot mask)) in
    let val := u8 (Z.land val mask) in
    let val := u8 (Z.lor val readval) in
    ov2710_write_reg reg val.

(** The body of the [for] loop of [ov2710_load_regs], entry by entry:
    [ret] is the result of the last write, the loop leaves at the first
    write that does not return 0. *)
Fixpoint load_regs_from (regs : list reg_value) (ret : Z) : M Z :=
  match regs with
  | [] => Ret ret
  | r :: rest =>
      ret <- ov2710_write_reg (reg_addr r) (val r) ;;
      if negb (ret =? 0) then Ret ret else load_regs_from rest ret
  end.

Definition ov2710_load_regs (mode : ov2710_mode_info) : M Z :=
  load_regs_from (firstn (Z.to_nat (reg_data_size mode)) (reg_data mode)) 0.

(** ** Reset line, flips, test pattern *)

Definition ov2710_power_up (sensor : ov2710_dev) : M unit :=
  match reset_gpio sensor with
  | None => Ret tt
  | Some line => gpiod_set_value line 0 ;; usleep_range 5000 10000
  end.

Definition ov2710_power_down (sensor : ov2710_dev) : M unit :=
  match reset_gpio sensor with
  | None => Ret tt
  | Some line => gpiod_set_value line 1 ;; usleep_range 5000 10000
  end.

Section BayerOrder.

(** [hv_flip] indexes the four-entry array [ov2710_hv_flip_bayer_order]; the
    source computes it as [(format2 & BIT(2) << 1) | (format1 & BIT(2))],
    which can be 4, 8 or 12.  Reading past the array is undefined in C: the
    compiled code takes the [int] the kernel image holds at that place.
    [beyond_table] stands for that [int], by index; nothing is assumed
    about it. *)
Variable beyond_table : Z -> Z.

Definition ov2710_bayer_order (sensor : ov2710_dev) : M (Z * ov2710_dev) :=
  '(ret, format1) <- ov2710_read_reg OV2710_REG_FORMAT1 ;;
  if ret <? 0 then Ret (ret, sensor)
  else
    '(ret, format2) <- ov2710_read_reg OV2710_REG_FORMAT2 ;;
    if ret <? 0 then Ret (ret, sensor)
    else
      let hv_flip := Z.lor (Z.land format2 (Z.shiftl (BIT 2) 1))
                           (Z.land format1 (BIT 2)) in
      let c := match nth_error ov2710_hv_flip_bayer_order (Z.to_nat hv_flip) with
               | Some c => c
               | None => beyond_table hv_flip
               end in
      Ret (0, set_fmt_field (set_code c (fmt sensor)) sensor).

Definition ov2710_vflip_enable (sensor : ov2710_dev) : M (Z * ov2710_dev) :=
  ret <- ov2710_mod_reg OV2710_REG_FORMAT1 (BIT 2) (BIT 2) ;;
  if ret <? 0 then Ret (ret, sensor) else ov2710_bayer_order sensor.

Definition ov2710_vflip_disable (sensor : ov2710_dev) : M (Z * ov2710_dev) :=
  ret <- ov2710_mod_reg OV2710_REG_FORMAT1 (BIT 2) (BIT 0) ;;
  if ret <? 0 then Ret (ret, sensor) else ov2710_bayer_order sensor.

Definition ov2710_hflip_enable (sensor : ov2710_dev) : M (Z * ov2710_dev) :=
  ret <- ov2710_mod_reg OV2710_REG_FORMAT2 (BIT 2) (BIT 2) ;;
  if ret <? 0 then Ret (ret, sensor) else ov2710_bayer_order sensor.

Definition ov2710_hflip_disable (sensor : ov2710_dev) : M (Z * ov2710_dev) :=
  ret <- ov2710_mod_reg OV2710_REG_FORMAT2 (BIT 2) (BIT 0) ;;
  if ret <? 0 then Ret (ret, sensor) else ov2710_bayer_order sensor.

End BayerOrder.

Definition ov2710_test_pattern_set (value : Z) : M Z :=
  if value =? 0 then ov2710_mod_reg OV2710_REG_ISP_CTRL00 (BIT 7) 0
  else
    ret <- ov2710_mod_reg OV2710_REG_ISP_CTRL00 0x03 (value - 1) ;;
    if ret <? 0 then Ret ret
    else
      ret <- ov2710_mod_reg OV2710_REG_ISP_CTRL00 (BIT 7) (BIT 7) ;;
      if ret <? 0 then Ret ret else Ret 0.

(** ** Gain and exposure *)

Definition ov2710_gain_set (sensor : ov2710_dev) (auto_gain : bool) : M Z :=
  ret <- ov2710_mod_reg OV2710_REG_R_MANUAL (BIT 1)
                        (if auto_gain then 0 else BIT 1) ;;
  if ret <? 0 then Ret ret
  else if auto_gain || negb (is_new (gain (ctrls sensor))) then Ret 0
  else
    let gain := u32 (cval (gain (ctrls sensor))) in
    ret <- ov2710_write_reg16 OV2710_REG_GAIN_PK gain ;;
    Ret 0.

Definition ov2710_gain_get : M Z :=
  '(ret, gain) <- ov2710_read_reg16 OV2710_REG_GAIN_PK ;;
  if negb (ret =? 0) then Ret ret else Ret gain.

Definition ov2710_exposure_set (sensor : ov2710_dev) (auto_exp : bool) : M Z :=
  ret <- ov2710_mod_reg OV2710_REG_R_MANUAL (BIT 0)
                        (if auto_exp then 0 else BIT 0) ;;
  if ret <? 0 then Ret ret
  else if auto_exp || negb (is_new (exposure (ctrls sensor))) then Ret 0
  else
    let exp := u32 (cval (exposure (ctrls sensor))) in
    let exp := u32 (Z.shiftl exp 4) in
    ov2710_write_reg24 OV2710_REG_EXPOSURE_PK_HIGH exp.

Definition ov2710_exposure_get : M Z :=
  '(ret, exp) <- ov2710_read_reg24 OV2710_REG_EXPOSURE_PK_HIGH ;;
  if negb (ret =? 0) then Ret ret else Ret (Z.shiftr exp 4).

(** ** Streaming and mode *)

Definition ov2710_stream_enable : M Z :=
  ov2710_write_reg OV2710_REG_STREAM_CTRL (Z.lnot OV2710_REG_STREAM_CTRL_SLEEP).

Definition ov2710_stream_disable : M Z :=
  ov2710_write_reg OV2710_REG_STREAM_CTRL OV2710_REG_STREAM_CTRL_SLEEP.

Definition V4L2_EXPOSURE_AUTO   : Z := 0.
Definition V4L2_EXPOSURE_MANUAL : Z := 1.

Definition ov2710_mode_set (sensor : ov2710_dev) : M (Z * ov2710_dev) :=
  ret <- ov2710_gain_set sensor false ;;
  if ret <? 0 then Ret (ret, sensor)
  else
    ret <- ov2710_exposure_set sensor false ;;
    if ret <? 0 then Ret (ret, sensor)
    else
      ret <- ov2710_load_regs (current_mode sensor) ;;
      if ret <? 0 then Ret (ret, sensor)
      else
        ret <- (if negb (cval (auto_gain (ctrls sensor)) =? 0)
                then ov2710_gain_set sensor true else Ret ret) ;;
        if ret <? 0 then Ret (ret, sensor)
        else
          ret <- (if cval (auto_exp (ctrls sensor)) =? V4L2_EXPOSURE_AUTO
                  then ov2710_exposure_set sensor true else Ret ret) ;;
          if ret <? 0 then Ret (ret, sensor)
          else Ret (0, set_mode_pending_changes false sensor).

Definition ov2710_mode_restore (sensor : ov2710_dev) : M (Z * ov2710_dev) :=
  ret <- ov2710_load_regs ov2710_mode_init_data ;;
  if ret <? 0 then Ret (ret, sensor) else ov2710_mode_set sensor.

(** ** Power *)

Definition ov2710_power_off (sensor : ov2710_dev) : M (Z * ov2710_dev) :=
  if negb (is_enabled sensor) then Ret (0, sensor)
  else
    clk_disable_unprepare ;;
    ov2710_power_down sensor ;;
    regulator_bulk_disable ;;
    Ret (0, set_is_enabled false sensor).

Definition ov2710_power_on (sensor : ov2710_dev) : M (Z * ov2710_dev) :=
  if is_enabled sensor then Ret (0, sensor)
  else
    ret <- regulator_bulk_enable ;;
    if ret <? 0 then Ret (ret, sensor)
    else
      (* the rest of the function, from clk_prepare_enable on: both
         branches of the reset test run into it *)
      let start_clock : M (Z * ov2710_dev) :=
        ret <- clk_prepare_enable ;;
        if ret <? 0 then Ret (ret, sensor)
        else
          let sensor := set_is_enabled true sensor in
          (* Set clock lane into LP-11 state *)
          ov2710_stream_enable ;;
          usleep_range 1000 2000 ;;
          ov2710_stream_disable ;;
          Ret (0, sensor) in
      match reset_gpio sensor with
      | None =>
          ret <- ov2710_write_reg OV2710_REG_STREAM_CTRL
                                  OV2710_REG_STREAM_CTRL_RESET ;;
          if negb (ret =? 0) then Ret (ret, sensor)
          else usleep_range 1000 2000 ;; start_clock
      | Some _ =>
          ov2710_power_down sensor ;;
          ov2710_power_up sensor ;;
          start_clock
      end.

(** ** Subdev operations *)

Definition ov2710_s_stream (sensor : ov2710_dev) (enable : Z)
  : M (Z * ov2710_dev) :=
  if Bool.eqb (is_streaming sensor) (notnot enable) then Ret (0, sensor)
  else
    '(ret, sensor) <- (if notnot enable && mode_pending_changes sensor
                       then ov2710_mode_set sensor else Ret (0, sensor)) ;;
    if ret <? 0 then Ret (ret, sensor)
    else
      ret <- (if notnot enable then ov2710_stream_enable
              else ov2710_stream_disable) ;;
      Ret (ret, set_is_streaming (notnot enable) sensor).

Definition ov2710_suspend (sensor : ov2710_dev) : M Z :=
  (if is_streaming sensor then ov2710_stream_disable else Ret 0) ;;
  Ret 0.

Definition ov2710_resume (sensor : ov2710_dev) : M (Z * ov2710_dev) :=
  ret <- (if is_streaming sensor then ov2710_stream_enable else Ret 0) ;;
  if ret <? 0 then
    ov2710_stream_disable ;;
    Ret (ret, set_is_streaming false sensor)
  else Ret (0, sensor).

Definition V4L2_SUBDEV_FORMAT_TRY    : Z := 0.
Definition V4L2_SUBDEV_FORMAT_ACTIVE : Z := 1.

Record v4l2_subdev_format := {
  which  : Z;
  pad    : Z;
  format : v4l2_mbus_framefmt
}.

Record v4l2_subdev_pad_config := {
  try_fmt : v4l2_mbus_framefmt
}.

Section SetFmt.

(** Supplied by the V4L2 core and the kernel configuration. *)
Variable CONFIG_VIDEO_V4L2_SUBDEV_API : bool.
Variable v4l2_find_nearest_size :
  list ov2710_mode_info -> Z -> Z -> option ov2710_mode_info.

(** [req] is the caller's [*format]; returns the return code, the sensor
    and [*format] as the call leaves them. *)
Definition ov2710_set_fmt (sensor : ov2710_dev)
    (cfg : v4l2_subdev_pad_config) (req : v4l2_subdev_format)
  : Z * ov2710_dev * v4l2_subdev_format :=
  if negb (pad req =? 0) then (- EINVAL, sensor, req)
  else if is_streaming sensor then (- EBUSY, sensor, req)
  else
    match v4l2_find_nearest_size ov2710_mode_data
            (fmt_width (format req)) (fmt_height (format req)) with
    | None => (- EINVAL, sensor, req)
    | Some mode =>
        if which req =? V4L2_SUBDEV_FORMAT_TRY then
          if CONFIG_VIDEO_V4L2_SUBDEV_API
          then (0, sensor, {| which := which req; pad := pad req;
                              format := try_fmt cfg |})
          else (0, sensor, req)
        else
          let f := {| fmt_width := width mode; fmt_height := height mode;
                      code := code (fmt sensor);
                      field := field (format req);
                      colorspace := colorspace (fmt sensor) |} in
          let sensor := set_current_mode mode sensor in
          let sensor := set_fmt_field f sensor in
          let sensor := set_mode_pending_changes true sensor in
          (0, sensor, {| which := which req; pad := pad req;
                         format := f |})
    end.

End SetFmt.

(** ** Controls *)

Inductive v4l2_cid :=
| V4L2_CID_AUTOGAIN
| V4L2_CID_GAIN
| V4L2_CID_EXPOSURE_AUTO
| V4L2_CID_EXPOSURE
| V4L2_CID_VFLIP
| V4L2_CID_HFLIP
| V4L2_CID_TEST_PATTERN
| V4L2_CID_other (n : Z).

Section Controls.

(** What lies past the Bayer-order table, as in [ov2710_bayer_order]. *)
Variable beyond_table : Z -> Z.

(** [ctrl->id] and [ctrl->val] of the control being set. *)
Definition ov2710_s_ctrl (sensor : ov2710_dev) (ctrl_id : v4l2_cid)
    (ctrl_val : Z) : M (Z * ov2710_dev) :=
  if negb (is_enabled sensor) then Ret (0, sensor)
  else
    match ctrl_id with
    | V4L2_CID_AUTOGAIN =>
        ret <- ov2710_gain_set sensor (notnot ctrl_val) ;; Ret (ret, sensor)
    | V4L2_CID_GAIN =>
        ret <- ov2710_gain_set sensor (notnot (cval (auto_gain (ctrls sensor)))) ;;
        Ret (ret, sensor)
    | V4L2_CID_EXPOSURE_AUTO =>
        ret <- ov2710_exposure_set sensor (notnot ctrl_val) ;; Ret (ret, sensor)
    | V4L2_CID_EXPOSURE =>
        ret <- ov2710_exposure_set sensor
                 (notnot (cval (auto_exp (ctrls sensor)))) ;;
        Ret (ret, sensor)
    | V4L2_CID_VFLIP =>
        if is_streaming sensor then Ret (- EBUSY, sensor)
        else if negb (ctrl_val =? 0) then ov2710_vflip_enable beyond_table sensor
        else ov2710_vflip_disable beyond_table sensor
    | V4L2_CID_HFLIP =>
        if is_streaming sensor then Ret (- EBUSY, sensor)
        else if negb (ctrl_val =? 0) then ov2710_hflip_enable beyond_table sensor
        else ov2710_hflip_disable beyond_table sensor
    | V4L2_CID_TEST_PATTERN =>
        ret <- ov2710_test_pattern_set ctrl_val ;; Ret (ret, sensor)
    | V4L2_CID_other _ => Ret (- EINVAL, sensor)
    end.

End Controls.

(** ** Reading controls back, formats, frame sizes *)

Definition set_ctrls (c : ov2710_ctrls) (s : ov2710_dev) : ov2710_dev :=
  {| reset_gpio := reset_gpio s; mode_pending_changes := mode_pending_changes s;
     is_enabled := is_enabled s; is_streaming := is_streaming s;
     ctrls := c; fmt := fmt s; frame_interval := frame_interval s;
     current_mode := current_mode s |}.

(** [ctrls->gain->val = v] and [ctrls->exposure->val = v]. *)
Definition set_gain_val (v : Z) (c : ov2710_ctrls) : ov2710_ctrls :=
  {| auto_exp := auto_exp c; exposure := exposure c; auto_gain := auto_gain c;
     gain := {| cval := v; is_new := is_new (gain c) |};
     hflip := hflip c; vflip := vflip c; test_pattern := test_pattern c |}.

Definition set_exposure_val (v : Z) (c : ov2710_ctrls) : ov2710_ctrls :=
  {| auto_exp := auto_exp c;
     exposure := {| cval := v; is_new := is_new (exposure c) |};
     auto_gain := auto_gain c; gain := gain c;
     hflip := hflip c; vflip := vflip c; test_pattern := test_pattern c |}.

(** [ctrl->id] of the control being refreshed. *)
Definition ov2710_g_volatile_ctrl (sensor : ov2710_dev) (ctrl_id : v4l2_cid)
  : M (Z * ov2710_dev) :=
  if negb (is_enabled sensor) then Ret (0, sensor)
  else
    match ctrl_id with
    | V4L2_CID_GAIN =>
        val <- ov2710_gain_get ;;
        if val <? 0 then Ret (val, sensor)
        else Ret (0, set_ctrls (set_gain_val val (ctrls sensor)) sensor)
    | V4L2_CID_EXPOSURE =>
        val <- ov2710_exposure_get ;;
        if val <? 0 then Ret (val, sensor)
        else Ret (0, set_ctrls (set_exposure_val val (ctrls sensor)) sensor)
    | _ => Ret (0, sensor)
    end.

(** [api] is CONFIG_VIDEO_V4L2_SUBDEV_API; returns the return code and
    [*format] as the call leaves it. *)
Definition ov2710_get_fmt (api : bool) (sensor : ov2710_dev)
    (cfg : v4l2_subdev_pad_config) (req : v4l2_subdev_format)
  : Z * v4l2_subdev_format :=
  if negb (pad req =? 0) then (- EINVAL, req)
  else if which req =? V4L2_SUBDEV_FORMAT_TRY then
    if api
    then (0, {| which := which req; pad := pad req; format := try_fmt cfg |})
    else (- EINVAL, req)
  else (0, {| which := which req; pad := pad req; format := fmt sensor |}).

Definition ov2710_enum_mbus_code (sensor : ov2710_dev) (code_pad code_index : Z)
  : Z * option Z :=
  if negb (code_pad =? 0) || negb (code_index =? 0) then (- EINVAL, None)
  else (0, Some (code (fmt sensor))).

Definition OV2710_MODE_MAX : Z := 2.

(** [int index = fse->index]: the conversion of the [u32] field to [int]. *)
Definition s32 (x : Z) : Z := (x + 2147483648) mod 4294967296 - 2147483648.

Record v4l2_subdev_frame_size_enum := {
  fse_index  : Z;   (* u32 *)
  min_width  : Z;
  max_width  : Z;
  min_height : Z;
  max_height : Z
}.

Definition ov2710_enum_frame_size (fse : v4l2_subdev_frame_size_enum)
  : Z * v4l2_subdev_frame_size_enum :=
  let index := s32 (fse_index fse) in
  if (OV2710_MODE_MAX <=? index) || (index <? 0) then (- EINVAL, fse)
  else
    match nth_error ov2710_mode_data (Z.to_nat index) with
    | Some m =>
        (0, {| fse_index := fse_index fse;
               min_width := width m; max_width := width m;
               min_height := height m; max_height := height m |})
    | None => (- EINVAL, fse)   (* not reached: the array has OV2710_MODE_MAX entries *)
    end.

Section SPower.

(** [v4l2_ctrl_handler_setup] belongs to the V4L2 control framework: it
    applies the stored control values through [ov2710_s_ctrl]. *)
Variable v4l2_ctrl_handler_setup : ov2710_dev -> M (Z * ov2710_dev).

Definition ov2710_s_power (sensor : ov2710_dev) (on : Z) : M (Z * ov2710_dev) :=
  '(ret, sensor) <- (if negb (on =? 0) then ov2710_power_on sensor
                     else ov2710_power_off sensor) ;;
  if negb (on =? 0) && (ret =? 0) then
    '(ret, sensor) <- v4l2_ctrl_handler_setup sensor ;;
    if ret <? 0 then Ret (ret, sensor)
    else ov2710_mode_restore sensor
  else Ret (ret, sensor).

End SPower.

(** ** Probe *)

(** [ov2710_check_id] switches the sensor on and reads nothing: the result
    of [ov2710_power_on] is dropped. *)
Definition ov2710_check_id (sensor : ov2710_dev) : M (Z * ov2710_dev) :=
  '(_, sensor) <- ov2710_power_on sensor ;;
  Ret (0, sensor).

End Ov2710.

(** The part of [struct i2c_client] the panel and bridge drivers test.  The
    slave address, the same in every message of a driver, is left out of
    the messages. *)
Record i2c_client := {
  adapter : bool    (* client->adapter is not NULL *)
}.

(** * Lines, regulators and delays of the display path *)

(** The panel and the bridge drive named GPIO lines and single regulators
    and wait between the steps.  A rig is a board together with the level
    of every line, the enable count of every regulator, and a history that
    holds, in the order they happened, what was done to the lines and
    regulators, the delays, and everything the bus programs logged on the
    board. *)
Module Rig.

Inductive rig_event :=
| Bus (e : event)                                    (* what a bus program logged *)
| PinSet (line : string) (value : Z)                 (* gpiod_set_value[_cansleep] *)
| PinDirectionOutput (line : string) (value ret : Z) (* gpiod_direction_output *)
| SupplyEnable (supply : string) (ret : Z)           (* regulator_enable *)
| SupplyDisable (supply : string)                    (* regulator_disable *)
| Mdelay (ms : Z)
| Msleep (ms : Z).

Record rig := {
  bus               : board;
  level             : string -> Z;   (* logical level last driven on a line *)
  held              : string -> Z;   (* enable count held on a regulator *)
  enable_replies    : list Z;        (* return codes of the upcoming
                                        regulator_enable calls; none left = 0 *)
  direction_replies : list Z;        (* same for gpiod_direction_output *)
  history           : list rig_event (* oldest first *)
}.

Definition note (e : rig_event) (r : rig) : rig :=
  {| bus := bus r; level := level r; held := held r;
     enable_replies := enable_replies r;
     direction_replies := direction_replies r; history := history r ++ [e] |}.

(** The rig once a bus program has left the board as [b]: the events the
    program added to the board's trace are entered in the history. *)
Definition heard (b : board) (r : rig) : rig :=
  {| bus := b; level := level r; held := held r;
     enable_replies := enable_replies r;
     direction_replies := direction_replies r;
     history := history r
                ++ map Bus (skipn (List.length (trace (bus r))) (trace b)) |}.

Definition set_level (line : string) (v : Z) (r : rig) : rig :=
  {| bus := bus r;
     level := fun l => if String.eqb l line then v else level r l;
     held := held r; enable_replies := enable_replies r;
     direction_replies := direction_replies r; history := history r |}.

Definition add_held (supply : string) (n : Z) (r : rig) : rig :=
  {| bus := bus r; level := level r;
     held := fun s => if String.eqb s supply then held r s + n else held r s;
     enable_replies := enable_replies r;
     direction_replies := direction_replies r; history := history r |}.

Definition set_enable_replies (l : list Z) (r : rig) : rig :=
  {| bus := bus r; level := level r; held := held r; enable_replies := l;
     direction_replies := direction_replies r; history := history r |}.

Definition set_direction_replies (l : list Z) (r : rig) : rig :=
  {| bus := bus r; level := level r; held := held r;
     enable_replies := enable_replies r;
     direction_replies := l; history := history r |}.

(** Programs over a rig. *)
Definition R (A : Type) : Type := rig -> A * rig.

Definition Pure {A} (a : A) : R A := fun r => (a, r).

Definition Then {A B} (m : R A) (k : A -> R B) : R B :=
  fun r => let (a, r') := m r in k a r'.

(** A bus program run on the rig's board. *)
Definition on_bus {A} (m : M A) : R A :=
  fun r => let (a, b) := m (bus r) in (a, heard b r).

Definition gpiod_set_value (line : string) (value : Z) : R unit :=
  fun r => (tt, note (PinSet line value) (set_level line value r)).

Definition gpiod_set_value_cansleep (line : string) (value : Z) : R unit :=
  gpiod_set_value line value.

Definition gpiod_direction_output (line : string) (value : Z) : R Z :=
  fun r =>
    let ret := hd 0 (direction_replies r) in
    let r1 := set_direction_replies (tl (direction_replies r)) r in
    let r2 := if ret =? 0 then set_level line value r1 else r1 in
    (ret, note (PinDirectionOutput line value ret) r2).

Definition regulator_enable (supply : string) : R Z :=
  fun r =>
    let ret := hd 0 (enable_replies r) in
    let r1 := set_enable_replies (tl (enable_replies r)) r in
    let r2 := if ret =? 0 then add_held supply 1 r1 else r1 in
    (ret, note (SupplyEnable supply ret) r2).

(** The drivers use the return code of [regulator_disable] for a log
    message only. *)
Definition regulator_disable (supply : string) : R unit :=
  fun r => (tt, note (SupplyDisable supply) (add_held supply (-1) r)).

Definition mdelay (ms : Z) : R unit := fun r => (tt, note (Mdelay ms) r).
Definition msleep (ms : Z) : R unit := fun r => (tt, note (Msleep ms) r).

End Rig.

Declare Scope rig_scope.
Delimit Scope rig_scope with rig.
Notation "x <- c ;; k" := (Rig.Then c (fun x => k))
  (at level 61, c at next level, right associativity) : rig_scope.
Notation "c ;; k" := (Rig.Then c (fun _ => k))
  (at level 61, right associativity) : rig_scope.

(** * The WUXGA panel driver *)

Module Wuxga.

(* Maximum count for I2C access retries *)
Definition DISPLAY_MAX_RETRIES : Z := 3.

(** Modelled from the spec: [struct wuxga_register_set], declared in
    panel-asus-tf700t.h, which is not among the sources.  A register entry
    is an (address, value) pair; the driver reads its [addr] and [data]
    members and passes them on as [u16]. *)
Record wuxga_register_set := RS {
  addr : Z;
  data : Z
}.

Definition write_msg (addr data : Z) : list i2c_msg :=
  let addr := u16 addr in
  let data := u16 data in
  let buf := [u8 (Z.shiftr addr 8); u8 (Z.land addr 0xFF);
              u8 (Z.shiftr data 8); u8 (Z.land data 0xFF)] in
  [ {| msg_flags := 0; msg_len := Z.of_nat (List.length buf); msg_buf := buf |} ].

(** The [do ... while (retry <= DISPLAY_MAX_RETRIES)] loop of
    [wuxga_write_reg], one pass per unfolding; [retry] is the counter as
    the pass finds it.  [more] bounds the passes still to come, so that the
    recursion is structural: started with [DISPLAY_MAX_RETRIES] it is never
    what ends the loop ([wuxga_transfer_loop_acked] below). *)
Fixpoint transfer_loop (more : nat) (retry : Z) (msg : list i2c_msg) : M Z :=
  '(err, _) <- i2c_transfer msg ;;
  if err <? 0 then Ret err
  else
    let retry := retry + 1 in
    if retry <=? DISPLAY_MAX_RETRIES then
      match more with
      | S more' => transfer_loop more' retry msg
      | O => Ret 0
      end
    else Ret 0.

Definition wuxga_write_reg (client : i2c_client) (addr data : Z) : M Z :=
  let retry := 0 in
  if negb (adapter client) then Ret (- ENODEV)
  else transfer_loop (Z.to_nat DISPLAY_MAX_RETRIES) retry (write_msg addr data).

Section WriteTable.

(** Defined in panel-asus-tf700t.h, which is not among the sources: the
    address that marks a delay entry.  The player is taken for any value
    of it. *)
Variable DISPLAY_WAIT_MS : Z.

(** The [for] loop of [wuxga_write_table] from entry [regs] on; [err] is
    the current value of the local. *)
Fixpoint write_table_from (client : i2c_client)
    (regs : list wuxga_register_set) (err : Z) : M Z :=
  match regs with
  | [] => Ret err
  | r :: rest =>
      err <- wuxga_write_reg client (addr r) (data r) ;;
      if negb (err =? 0) then Ret err
      else
        (if addr r =? DISPLAY_WAIT_MS then msleep (data r)
         else Ret tt) ;;
        write_table_from client rest err
  end.

(** [err] is declared without initialiser: [err0] is whatever it holds
    when the table is empty. *)
Definition wuxga_write_table (client : i2c_client)
    (regs : list wuxga_register_set) (nregs : Z) (err0 : Z) : M Z :=
  write_table_from client (firstn (Z.to_nat nregs) regs) err0.

End WriteTable.

(** ** Power sequencing *)

Inductive wuxga_gpios :=
| TEGRA_GPIO_PI6
| TEGRA_GPIO_PH3
| TEGRA_GPIO_PU5
| TEGRA_GPIO_PBB3
| TEGRA_GPIO_PC6
| TEGRA_GPIO_PX0
| TEGRA_GPIO_PD2.

(** The fields of [struct wuxga_data] the power functions use.  [gpios]
    gives the line behind each descriptor; [supply] is never NULL once the
    probe has succeeded, so the test of it in [wuxga_drm_unprepare] always
    passes. *)
Record wuxga_data := {
  client     : i2c_client;
  gpios      : wuxga_gpios -> string;
  suspended  : bool;
  init_regs  : list wuxga_register_set;
  ninit_regs : Z;
  supply     : string;
  prepared   : bool;
  enabled    : bool
}.

Definition set_suspended (v : bool) (d : wuxga_data) : wuxga_data :=
  {| client := client d; gpios := gpios d; suspended := v;
     init_regs := init_regs d; ninit_regs := ninit_regs d; supply := supply d;
     prepared := prepared d; enabled := enabled d |}.

Definition set_prepared (v : bool) (d : wuxga_data) : wuxga_data :=
  {| client := client d; gpios := gpios d; suspended := suspended d;
     init_regs := init_regs d; ninit_regs := ninit_regs d; supply := supply d;
     prepared := v; enabled := enabled d |}.

Definition set_enabled (v : bool) (d : wuxga_data) : wuxga_data :=
  {| client := client d; gpios := gpios d; suspended := suspended d;
     init_regs := init_regs d; ninit_regs := ninit_regs d; supply := supply d;
     prepared := prepared d; enabled := v |}.

(** The two messages [wuxga_resume] and [mipi_bridge_enable] send before
    the table: a write of two zero bytes, then a read of two bytes. *)
Definition wake_msgs : list i2c_msg :=
  [ {| msg_flags := 0; msg_len := 2; msg_buf := [0; 0] |};
    {| msg_flags := 1; msg_len := 2; msg_buf := [] |} ].

Section PowerSequence.

Variable DISPLAY_WAIT_MS : Z.

(** What the uninitialised [err] of [wuxga_write_table] holds; the callers
    here drop the result. *)
Variable err0 : Z.

Definition wuxga_suspend (d : wuxga_data) : Rig.R wuxga_data :=
  (if suspended d then Rig.Pure d
   else
     Rig.gpiod_set_value (gpios d TEGRA_GPIO_PD2) 0 ;;
     Rig.gpiod_set_value (gpios d TEGRA_GPIO_PX0) 0 ;;
     Rig.gpiod_set_value (gpios d TEGRA_GPIO_PC6) 0 ;;
     Rig.gpiod_set_value (gpios d TEGRA_GPIO_PBB3) 0 ;;
     Rig.msleep 85 ;;
     Rig.Pure (set_suspended true d))%rig.

Definition wuxga_resume_gpios (d : wuxga_data) : Rig.R unit :=
  (Rig.gpiod_set_value (gpios d TEGRA_GPIO_PBB3) 1 ;;
   Rig.gpiod_set_value (gpios d TEGRA_GPIO_PC6) 1 ;;
   Rig.mdelay 10 ;;
   Rig.gpiod_set_value (gpios d TEGRA_GPIO_PX0) 1 ;;
   Rig.mdelay 10 ;;
   Rig.gpiod_set_value (gpios d TEGRA_GPIO_PD2) 1 ;;
   Rig.msleep 10)%rig.

Definition wuxga_resume (d : wuxga_data) : Rig.R wuxga_data :=
  (if negb (suspended d) then Rig.Pure d
   else
     wuxga_resume_gpios d ;;
     Rig.on_bus (i2c_transfer wake_msgs) ;;
     Rig.on_bus (wuxga_write_table DISPLAY_WAIT_MS (client d) (init_regs d)
                                   (ninit_regs d) err0) ;;
     Rig.mdelay 35 ;;
     Rig.Pure (set_suspended false d))%rig.

Definition wuxga_drm_disable (d : wuxga_data) : Rig.R (Z * wuxga_data) :=
  (if negb (enabled d) then Rig.Pure (0, d)
   else
     d <- wuxga_suspend d ;;
     Rig.Pure (0, set_enabled false d))%rig.

Definition wuxga_drm_unprepare (d : wuxga_data) : Rig.R (Z * wuxga_data) :=
  (if negb (prepared d) then Rig.Pure (0, d)
   else
     Rig.regulator_disable (supply d) ;;
     Rig.gpiod_set_value (gpios d TEGRA_GPIO_PU5) 0 ;;
     Rig.Pure (0, set_prepared false d))%rig.

Definition wuxga_drm_prepare (d : wuxga_data) : Rig.R (Z * wuxga_data) :=
  (if prepared d then Rig.Pure (0, d)
   else
     err <- Rig.gpiod_direction_output (gpios d TEGRA_GPIO_PU5) 1 ;;
     if err <? 0 then Rig.Pure (err, d)
     else
       Rig.mdelay 5 ;;
       err <- Rig.regulator_enable (supply d) ;;
       if err <? 0 then Rig.Pure (err, d)
       else
         Rig.msleep 20 ;;
         Rig.Pure (0, set_prepared true d))%rig.

Definition wuxga_drm_enable (d : wuxga_data) : Rig.R (Z * wuxga_data) :=
  (if enabled d then Rig.Pure (0, d)
   else
     d <- wuxga_resume d ;;
     Rig.Pure (0, set_enabled true d))%rig.

End PowerSequence.

End Wuxga.

(** * The MIPI bridge driver *)

Module Bridge.

Definition DISPLAY_MAX_RETRIES : Z := 3. (* max counter for retry I2C access *)

Record bridge_register_set := RS {
  addr : Z;   (* uint16_t *)
  data : Z    (* uint16_t *)
}.

Definition display_table : list bridge_register_set :=
  [RS 0x0002 0x0001; RS 0x0000 0x0005; RS 0x0002 0x0000; RS 0x0016 0x309F;
   RS 0x0018 0x0203; RS 0x0000 0x0005; RS 0x0018 0x0213; RS 0x0006 0x012C;
   RS 0x0140 0x0000; RS 0x0142 0x0000; RS 0x0144 0x0000; RS 0x0146 0x0000;
   RS 0x0148 0x0000; RS 0x014A 0x0000; RS 0x014C 0x0000; RS 0x014E 0x0000;
   RS 0x0150 0x0000; RS 0x0152 0x0000; RS 0x0100 0x0203; RS 0x0102 0x0000;
   RS 0x0104 0x0203; RS 0x0106 0x0000; RS 0x0108 0x0203; RS 0x010A 0x0000;
   RS 0x010C 0x0203; RS 0x010E 0x0000; RS 0x0110 0x0203; RS 0x0112 0x0000;
   RS 0x0210 0x1964; RS 0x0212 0x0000; RS 0x0214 0x0005; RS 0x0216 0x0000;
   RS 0x0218 0x2801; RS 0x021A 0x0000; RS 0x021C 0x0000; RS 0x021E 0x0000;
   RS 0x0220 0x0C06; RS 0x0222 0x0000; RS 0x0224 0x4E20; RS 0x0226 0x0000;
   RS 0x0228 0x000B; RS 0x022A 0x0000; RS 0x022C 0x0005; RS 0x022E 0x0000;
   RS 0x0230 0x0005; RS 0x0232 0x0000; RS 0x0234 0x001F; RS 0x0236 0x0000;
   RS 0x0238 0x0001; RS 0x023A 0x0000; RS 0x023C 0x0005; RS 0x023E 0x0005;
   RS 0x0204 0x0001; RS 0x0206 0x0000; RS 0x0620 0x0001; RS 0x0622 0x0020;
   RS 0x0624 0x001A; RS 0x0626 0x04B0; RS 0x0628 0x015E; RS 0x062A 0x00FA;
   RS 0x062C 0x1680; RS 0x0518 0x0001; RS 0x051A 0x0000; RS 0x0500 0x0086;
   RS 0x0502 0xA300; RS 0x0500 0x8000; RS 0x0502 0xC300; RS 0x0008 0x0037;
   RS 0x0050 0x003E; RS 0x0032 0x0001; RS 0x0004 0x0064].

Definition write_msg (addr data : Z) : list i2c_msg :=
  let addr := u16 addr in
  let data := u16 data in
  let buf := [u8 (Z.shiftr addr 8); u8 (Z.land addr 0xFF);
              u8 (Z.shiftr data 8); u8 (Z.land data 0xFF)] in
  [ {| msg_flags := 0; msg_len := Z.of_nat (List.length buf); msg_buf := buf |} ].

(** The [do ... while (retry <= DISPLAY_MAX_RETRIES)] loop of
    [bridge_write_reg], one pass per unfolding; [retry] is the counter as
    the pass finds it, [more] bounds the passes still to come and keeps the
    recursion structural. *)
Fixpoint transfer_loop (more : nat) (retry : Z) (msg : list i2c_msg) : M Z :=
  '(err, _) <- i2c_transfer msg ;;
  if err <? 0 then Ret err
  else
    let retry := retry + 1 in
    if retry <=? DISPLAY_MAX_RETRIES then
      match more with
      | S more' => transfer_loop more' retry msg
      | O => Ret 0
      end
    else Ret 0.

Definition bridge_write_reg (client : i2c_client) (addr data : Z) : M Z :=
  let retry := 0 in
  if negb (adapter client) then Ret (- ENODEV)
  else transfer_loop (Z.to_nat DISPLAY_MAX_RETRIES) retry (write_msg addr data).

Fixpoint write_table_from (client : i2c_client)
    (regs : list bridge_register_set) (err : Z) : M Z :=
  match regs with
  | [] => Ret err
  | r :: rest =>
      (if addr r =? 0 then msleep (data r) else Ret tt) ;;
      err <- bridge_write_reg client (addr r) (data r) ;;
      if negb (err =? 0) then Ret err
      else write_table_from client rest err
  end.

(** [err] is declared without initialiser: [err0] is whatever it holds when
    the table is empty. *)
Definition bridge_write_table (client : i2c_client)
    (regs : list bridge_register_set) (nregs : Z) (err0 : Z) : M Z :=
  write_table_from client (firstn (Z.to_nat nregs) regs) err0.

(** ** Power sequencing *)

(** The fields of [struct bridge_data] the enable and disable functions
    use; an optional line the board does not have is [None]. *)
Record bridge_data := {
  client     : i2c_client;
  vdd        : string;
  vddio      : string;
  power_gpio : option string;
  lvds_gpio  : option string;
  ldo_gpio   : option string;
  init_regs  : list bridge_register_set;
  ninit_regs : Z
}.

Definition wake_msgs : list i2c_msg :=
  [ {| msg_flags := 0; msg_len := 2; msg_buf := [0; 0] |};
    {| msg_flags := 1; msg_len := 2; msg_buf := [] |} ].

(** [if (desc) gpiod_set_value_cansleep(desc, value);] *)
Definition set_if_present (desc : option string) (value : Z) : Rig.R unit :=
  match desc with
  | Some line => Rig.gpiod_set_value_cansleep line value
  | None => Rig.Pure tt
  end.

(** [err0] is what the uninitialised [err] of [bridge_write_table] holds;
    the result is dropped. *)
Definition mipi_bridge_enable (err0 : Z) (d : bridge_data) : Rig.R unit :=
  ((* Used by Panasonic panel *)
   set_if_present (ldo_gpio d) 1 ;;
   Rig.mdelay 20 ;;
   (* Check power on/off for bridge IC *)
   ret <- Rig.regulator_enable (vdd d) ;;
   if negb (ret =? 0) then Rig.Pure tt
   else
     ret <- Rig.regulator_enable (vddio d) ;;
     if negb (ret =? 0) then Rig.Pure tt
     else
       Rig.mdelay 10 ;;
       set_if_present (lvds_gpio d) 1 ;;
       set_if_present (power_gpio d) 1 ;;
       Rig.mdelay 10 ;;
       Rig.on_bus (i2c_transfer wake_msgs) ;;
       Rig.on_bus (bridge_write_table (client d) (init_regs d) (ninit_regs d)
                                      err0) ;;
       Rig.mdelay 35)%rig.

Definition mipi_bridge_disable (d : bridge_data) : Rig.R unit :=
  (set_if_present (lvds_gpio d) 0 ;;
   set_if_present (power_gpio d) 0 ;;
   Rig.regulator_disable (vddio d) ;;
   Rig.regulator_disable (vdd d) ;;
   Rig.msleep 85 ;;
   set_if_present (ldo_gpio d) 0)%rig.

End Bridge.

(** * Observations and sample inputs *)

Import Ov2710.

(** The two messages of a register read: the address, then [len] bytes
    back. *)
Definition read_msgs (reg len : Z) : list i2c_msg :=
  [ {| msg_flags := 0; msg_len := 2;
       msg_buf := [u8 (Z.shiftr (u16 reg) 8); Z.land (u16 reg) 0xff] |};
    {| msg_flags := I2C_M_RD; msg_len := len; msg_buf := [] |} ].

(** The byte [ov2710_mod_reg] writes back, given the byte it read. *)
Definition merged (old mask val : Z) : Z :=
  u8 (Z.lor (u8 (Z.land (u8 val) (u8 mask)))
            (u32 (Z.land old (Z.lnot (u8 mask))))).

(** A control at 0 with nothing new to apply. *)
Definition idle_ctrl : v4l2_ctrl := {| cval := 0; is_new := false |}.

(** The controls as [ov2710_v4l2_register] creates them: auto exposure and
    auto gain on, no manual value pending. *)
Definition probe_ctrls : ov2710_ctrls :=
  {| auto_exp := {| cval := V4L2_EXPOSURE_AUTO; is_new := false |};
     exposure := idle_ctrl;
     auto_gain := {| cval := 1; is_new := false |};
     gain := idle_ctrl;
     hflip := idle_ctrl; vflip := idle_ctrl; test_pattern := idle_ctrl |}.

(** The sensor as [ov2710_mode_init] leaves it, on a board without reset
    GPIO. *)
Definition probed_sensor : ov2710_dev :=
  {| reset_gpio := None;
     mode_pending_changes := true;
     is_enabled := false;
     is_streaming := false;
     ctrls := probe_ctrls;
     fmt := {| fmt_width := 1920; fmt_height := 1080;
               code := MEDIA_BUS_FMT_SBGGR10_1X10; field := 1; colorspace := 8 |};
     frame_interval := {| numerator := 1; denominator := OV2710_FRAME_RATE |};
     current_mode := ov2710_mode_init_data |}.

(** The same sensor once powered, and once streaming with its mode
    committed. *)
Definition powered_sensor : ov2710_dev := set_is_enabled true probed_sensor.

Definition streaming_sensor : ov2710_dev :=
  set_is_streaming true (set_mode_pending_changes false powered_sensor).

(** A sensor in manual gain with a new gain value to apply. *)
Definition manual_gain_sensor : ov2710_dev :=
  {| reset_gpio := None;
     mode_pending_changes := false;
     is_enabled := true;
     is_streaming := false;
     ctrls := {| auto_exp := {| cval := V4L2_EXPOSURE_AUTO; is_new := false |};
                 exposure := idle_ctrl;
                 auto_gain := {| cval := 0; is_new := true |};
                 gain := {| cval := 0x123; is_new := true |};
                 hflip := idle_ctrl; vflip := idle_ctrl;
                 test_pattern := idle_ctrl |};
     fmt := fmt probed_sensor;
     frame_interval := frame_interval probed_sensor;
     current_mode := ov2710_mode_init_data |}.

(** A stand-in for v4l2_find_nearest_size (the first catalog entry), a
    format request for 1280x720 on a given pad, and a pad configuration. *)
Definition first_mode (l : list ov2710_mode_info) (w h : Z)
  : option ov2710_mode_info := hd_error l.

Definition wanted_720p (on_pad : Z) : v4l2_subdev_format :=
  {| which := V4L2_SUBDEV_FORMAT_ACTIVE; pad := on_pad;
     format := {| fmt_width := 1280; fmt_height := 720; code := 0;
                  field := 1; colorspace := 8 |} |}.

Definition no_try : v4l2_subdev_pad_config :=
  {| try_fmt := fmt probed_sensor |}.

(** A bus that acknowledges [n] transfers and refuses the next one. *)
Definition nak_after (n : nat) : board :=
  set_i2c_replies (repeat Full n ++ [Code (- EIO)]) quiet_board.

(** A client bound to an adapter. *)
Definition wired : i2c_client := {| adapter := true |}.

(** The transfer [ov2710_write_reg] issues for a table entry, with the
    adapter's answer. *)
Definition reg_write_event (r : reg_value) (ret : Z) : event :=
  EvI2cSend [u8 (Z.shiftr (u16 (reg_addr r)) 8); u8 (u16 (reg_addr r));
             u8 (val r)] ret.

(** What the bus and the clock see of one table entry when every transfer
    is acknowledged: the panel transmits the entry and then sleeps if it is
    a delay entry, the bridge sleeps first. *)
Definition wuxga_entry_events (wait : Z) (r : Wuxga.wuxga_register_set)
  : list event :=
  repeat (EvI2cTransfer (Wuxga.write_msg (Wuxga.addr r) (Wuxga.data r)) 1) 4
  ++ (if Wuxga.addr r =? wait then [EvMsleep (Wuxga.data r)] else []).

Definition bridge_entry_events (r : Bridge.bridge_register_set) : list event :=
  (if Bridge.addr r =? 0 then [EvMsleep (Bridge.data r)] else [])
  ++ repeat (EvI2cTransfer (Bridge.write_msg (Bridge.addr r) (Bridge.data r)) 1) 4.

(** The [n] low bytes of [v], most significant first: what a register
    access of [n] bytes carries on the wire. *)
Fixpoint be_bytes (n : nat) (v : Z) : list Z :=
  match n with
  | O => []
  | S n' => u8 (Z.shiftr v (8 * Z.of_nat n')) :: be_bytes n' v
  end.

(** The register file once the entries of [l] have been written in order
    over [r]. *)
Fixpoint written (l : list reg_value) (r : Z -> Z) (a : Z) : Z :=
  match l with
  | [] => r a
  | e :: rest =>
      written rest (fun x => if x =? u16 (reg_addr e) then u8 (val e) else r x) a
  end.

(** The index [ov2710_bayer_order] computes from the two format bytes it
    has read. *)
Definition hv_flip (format1 format2 : Z) : Z :=
  Z.lor (Z.land format2 (Z.shiftl (BIT 2) 1)) (Z.land format1 (BIT 2)).

(** What [ov2710_bayer_order] takes for index [idx]: the table's entry, or
    past the table what lies there. *)
Definition bayer_code (beyond : Z -> Z) (idx : Z) : Z :=
  match nth_error ov2710_hv_flip_bayer_order (Z.to_nat idx) with
  | Some c => c
  | None => beyond idx
  end.

(** A powered sensor in manual exposure with a new exposure value to
    apply. *)
Definition manual_exposure_sensor : ov2710_dev :=
  {| reset_gpio := None;
     mode_pending_changes := false;
     is_enabled := true;
     is_streaming := false;
     ctrls := {| auto_exp := {| cval := V4L2_EXPOSURE_MANUAL; is_new := true |};
                 exposure := {| cval := 0x2a5; is_new := true |};
                 auto_gain := {| cval := 1; is_new := false |};
                 gain := idle_ctrl;
                 hflip := idle_ctrl; vflip := idle_ctrl;
                 test_pattern := idle_ctrl |};
     fmt := fmt probed_sensor;
     frame_interval := frame_interval probed_sensor;
     current_mode := ov2710_mode_init_data |}.

(** The lines behind the panel's descriptors, by the names of
    [wuxga_gpio_init_table], and the panel as [wuxga_i2c_probe] leaves it:
    nothing enabled, nothing prepared, [suspended] false. *)
Definition panel_lines (id : Wuxga.wuxga_gpios) : string :=
  match id with
  | Wuxga.TEGRA_GPIO_PI6 => "panel-type"
  | Wuxga.TEGRA_GPIO_PH3 => "en-vdd-bl"
  | Wuxga.TEGRA_GPIO_PU5 => "ldo-en"
  | Wuxga.TEGRA_GPIO_PBB3 => "mipi-1v2"
  | Wuxga.TEGRA_GPIO_PC6 => "mipi-1v8"
  | Wuxga.TEGRA_GPIO_PX0 => "i2c-switch"
  | Wuxga.TEGRA_GPIO_PD2 => "osc-gate"
  end.

Definition probed_panel (table : list Wuxga.wuxga_register_set)
  : Wuxga.wuxga_data :=
  {| Wuxga.client := wired; Wuxga.gpios := panel_lines;
     Wuxga.suspended := false;
     Wuxga.init_regs := table; Wuxga.ninit_regs := ARRAY_SIZE table;
     Wuxga.supply := "power";
     Wuxga.prepared := false; Wuxga.enabled := false |}.

(** The panel in use: prepared and enabled. *)
Definition lit_panel (table : list Wuxga.wuxga_register_set)
  : Wuxga.wuxga_data :=
  Wuxga.set_enabled true (Wuxga.set_prepared true (probed_panel table)).

(** The bridge as [bridge_i2c_probe] leaves it on a board with the three
    optional lines. *)
Definition probed_bridge : Bridge.bridge_data :=
  {| Bridge.client := wired; Bridge.vdd := "vdd"; Bridge.vddio := "vddio";
     Bridge.power_gpio := Some "power"%string;
     Bridge.lvds_gpio := Some "lvds"%string;
     Bridge.ldo_gpio := Some "ldo"%string;
     Bridge.init_regs := Bridge.display_table;
     Bridge.ninit_regs := ARRAY_SIZE Bridge.display_table |}.

(** A rig at rest on a given board: every line low, no regulator held,
    every call succeeds. *)
Definition rig_on (b : board) : Rig.rig :=
  {| Rig.bus := b; Rig.level := fun _ => 0; Rig.held := fun _ => 0;
     Rig.enable_replies := []; Rig.direction_replies := [];
     Rig.history := [] |}.

(** The four lines [wuxga_suspend] and [wuxga_resume_gpios] drive. *)
Definition panel_power_lines : list Wuxga.wuxga_gpios :=
  [Wuxga.TEGRA_GPIO_PD2; Wuxga.TEGRA_GPIO_PX0; Wuxga.TEGRA_GPIO_PC6;
   Wuxga.TEGRA_GPIO_PBB3].

(** The optional lines of a bridge. *)
Definition bridge_lines (d : Bridge.bridge_data) : list (option string) :=
  [Bridge.ldo_gpio d; Bridge.lvds_gpio d; Bridge.power_gpio d].

(** What [set_if_present] adds to the history. *)
Definition pin_events (desc : option string) (value : Z) : list Rig.rig_event :=
  match desc with
  | Some line => [Rig.PinSet line value]
  | None => []
  end.

(** A client that is not bound to an adapter. *)
Definition unwired : i2c_client := {| adapter := false |}.

(** * Properties *)

(** ** Bookkeeping on boards and bytes *)

Lemma trace_emit e b : trace (emit e b) = trace b ++ [e].
Proof. reflexivity. Qed.

Lemma u16_range x : 0 <= u16 x < 65536.
Proof. unfold u16. apply Z.mod_pos_bound. lia. Qed.

Lemma u8_range x : 0 <= u8 x < 256.
Proof. unfold u8. apply Z.mod_pos_bound. lia. Qed.

Lemma u8_small x : 0 <= x < 256 -> u8 x = x.
Proof. intros H. unfold u8. apply Z.mod_small. exact H. Qed.

Lemma u8_testbit x i : 0 <= i < 8 -> Z.testbit (u8 x) i = Z.testbit x i.
Proof.
  intros H. unfold u8. change 256 with (2 ^ 8).
  rewrite Z.mod_pow2_bits_low by lia. reflexivity.
Qed.

Lemma u32_testbit x i : 0 <= i < 32 -> Z.testbit (u32 x) i = Z.testbit x i.
Proof.
  intros H. unfold u32. change 4294967296 with (2 ^ 32).
  rewrite Z.mod_pow2_bits_low by lia. reflexivity.
Qed.

(** The two address bytes of a transfer name the register again. *)
Lemma addr_bytes_join r :
  0 <= r < 65536 -> u8 (Z.shiftr r 8) * 256 + Z.land r 0xff = r.
Proof.
  intros H. rewrite Z.shiftr_div_pow2 by lia.
  change 0xff with (Z.ones 8). rewrite Z.land_ones by lia.
  change (2 ^ 8) with 256.
  rewrite u8_small by (split; [apply Z.div_pos; lia | apply Z.div_lt_upper_bound; lia]).
  pose proof (Z.div_mod r 256). lia.
Qed.

(** The byte of a left-aligned 32-bit payload found [t] bits up is the byte
    of the value found [t - s] bits up. *)
Lemma payload_byte v s t :
  0 <= s <= t -> t <= 24 ->
  u8 (Z.shiftr (u32 (Z.shiftl (u32 v) s)) t) = u8 (Z.shiftr v (t - s)).
Proof.
  intros Hs Ht. apply Z.bits_inj'. intros i Hi.
  destruct (Z.ltb_spec i 8) as [Hlt | Hge].
  - rewrite !u8_testbit by lia.
    rewrite !Z.shiftr_spec by lia. rewrite u32_testbit by lia.
    rewrite Z.shiftl_spec by lia. rewrite u32_testbit by lia.
    f_equal. lia.
  - unfold u8. change 256 with (2 ^ 8).
    rewrite !Z.mod_pow2_bits_high by lia. reflexivity.
Qed.

(** ** Register writes and reads of the sensor *)

(** What an 8-bit register write puts on the wire and returns. *)
Lemma ov2710_write_reg_run reg v b :
  let buf := [u8 (Z.shiftr (u16 reg) 8); u8 (u16 reg); u8 v] in
  let r := next_reply 3 b in
  let b1 := set_i2c_replies (tl (i2c_replies b)) b in
  ov2710_write_reg reg v b =
    (if r =? 3 then 0 else - EIO,
     emit (EvI2cSend buf r) (if r =? 3 then set_regs (latch buf (regs b1)) b1 else b1)).
Proof.
  unfold ov2710_write_reg, __ov2710_write_reg, OV2710_REG_VALUE_8BIT.
  cbv [Bind Ret i2c_master_send].
  change (4 <? 1) with false. change (1 + 2) with 3. change (8 * (4 - 1)) with 24.
  change (Z.to_nat 3) with 3%nat. cbv iota.
  cbn [put_unaligned_be16 put_unaligned_be32 app firstn].
  rewrite (payload_byte v 24 24) by lia.
  change (24 - 24) with 0. rewrite Z.shiftr_0_r.
  destruct (next_reply 3 b =? 3); reflexivity.
Qed.

Lemma ov2710_write_reg_ret reg v b :
  fst (ov2710_write_reg reg v b) = 0 \/ fst (ov2710_write_reg reg v b) = - EIO.
Proof.
  rewrite ov2710_write_reg_run. cbn. destruct (next_reply 3 b =? 3); auto.
Qed.

(** What an 8-bit register read puts on the wire and brings back. *)
Lemma ov2710_read_reg_run reg b :
  let r := next_reply 2 b in
  ov2710_read_reg reg b =
    (if r =? 2 then (0, u8 (regs b (u16 reg))) else (- EIO, 0),
     emit (EvI2cTransfer (read_msgs reg 1) r)
          (set_i2c_replies (tl (i2c_replies b)) b)).
Proof.
  unfold ov2710_read_reg, __ov2710_read_reg, OV2710_REG_VALUE_8BIT, read_msgs.
  cbv [Bind Ret i2c_transfer ARRAY_SIZE List.length msg_buf msg_flags msg_len].
  change (Z.of_nat 2) with 2. change (4 <? 1) with false. cbv iota beta.
  change (I2C_M_RD =? I2C_M_RD) with true.
  change (Z.to_nat 1) with 1%nat. cbn [fetch_bytes].
  rewrite addr_bytes_join by apply u16_range.
  destruct (next_reply 2 b =? 2); cbn [negb andb get_unaligned_be fold_left];
    [ rewrite Z.mul_0_l, Z.add_0_l | ]; reflexivity.
Qed.

Lemma merged_bits old mask val i :
  0 <= i < 8 ->
  Z.testbit (merged old mask val) i =
    if Z.testbit mask i then Z.testbit val i else Z.testbit old i.
Proof.
  intros Hi. unfold merged.
  rewrite u8_testbit, Z.lor_spec, u8_testbit, u32_testbit by lia.
  rewrite !Z.land_spec, Z.lnot_spec, !u8_testbit by lia.
  destruct (Z.testbit mask i), (Z.testbit val i), (Z.testbit old i); reflexivity.
Qed.

Lemma ov2710_mod_reg_run reg mask val b :
  let r := next_reply 2 b in
  let b1 := emit (EvI2cTransfer (read_msgs reg 1) r)
                 (set_i2c_replies (tl (i2c_replies b)) b) in
  ov2710_mod_reg reg mask val b =
    if r =? 2
    then ov2710_write_reg reg (merged (u8 (regs b (u16 reg))) mask val) b1
    else (- EIO, b1).
Proof.
  unfold ov2710_mod_reg. cbv [Bind]. rewrite ov2710_read_reg_run.
  cbv zeta. destruct (next_reply 2 b =? 2); reflexivity.
Qed.

Lemma u8_land_ff r : Z.land r 0xff = u8 r.
Proof. change 0xff with (Z.ones 8). rewrite Z.land_ones by lia. reflexivity. Qed.

Lemma merged_range old mask val : 0 <= merged old mask val < 256.
Proof. apply u8_range. Qed.



(** ** Power *)


(** ** Streaming *)

(** C7: [ov2710_s_stream] asked for the state the sensor is already in -
    start while streaming, stop while not streaming - returns 0, issues
    nothing on the bus and changes neither the sensor nor the board. *)
Theorem ov2710_s_stream_idempotent sensor enable b :
  (enable <> 0 -> is_streaming sensor = true ->
   ov2710_s_stream sensor enable b = (0, sensor, b)) /\
  (is_streaming sensor = false ->
   ov2710_s_stream sensor 0 b = (0, sensor, b)).
Proof.
  split.
  - intros He Hs. unfold ov2710_s_stream, notnot. rewrite Hs.
    destruct (Z.eqb_spec enable 0); [contradiction | reflexivity].
  - intros Hs. unfold ov2710_s_stream, notnot. rewrite Hs. reflexivity.
Qed.

Lemma ov2710_s_stream_idempotent_witness :
  (1 <> 0 /\ is_streaming streaming_sensor = true /\
   ov2710_s_stream streaming_sensor 1 quiet_board
     = (0, streaming_sensor, quiet_board)) /\
  (is_streaming powered_sensor = false /\
   ov2710_s_stream powered_sensor 0 quiet_board
     = (0, powered_sensor, quiet_board)).
Proof.
  split.
  - split; [lia | split; [reflexivity | ]].
    apply (proj1 (ov2710_s_stream_idempotent streaming_sensor 1 quiet_board));
      [lia | reflexivity].
  - split; [reflexivity | ].
    apply (proj2 (ov2710_s_stream_idempotent powered_sensor 0 quiet_board)).
    reflexivity.
Defined.

(** ** Gain *)

(** What a 16-bit register write puts on the wire and returns. *)
Lemma ov2710_write_reg16_run reg v b :
  let buf := [u8 (Z.shiftr (u16 reg) 8); u8 (u16 reg); u8 (Z.shiftr v 8); u8 v] in
  let r := next_reply 4 b in
  let b1 := set_i2c_replies (tl (i2c_replies b)) b in
  ov2710_write_reg16 reg v b =
    (if r =? 4 then 0 else - EIO,
     emit (EvI2cSend buf r) (if r =? 4 then set_regs (latch buf (regs b1)) b1 else b1)).
Proof.
  unfold ov2710_write_reg16, __ov2710_write_reg, OV2710_REG_VALUE_16BIT.
  cbv [Bind Ret i2c_master_send].
  change (4 <? 2) with false. change (2 + 2) with 4. change (8 * (4 - 2)) with 16.
  change (Z.to_nat 4) with 4%nat. cbv iota.
  cbn [put_unaligned_be16 put_unaligned_be32 app firstn].
  rewrite (payload_byte v 16 24), (payload_byte v 16 16) by lia.
  change (24 - 16) with 8. change (16 - 16) with 0. rewrite Z.shiftr_0_r.
  destruct (next_reply 4 b =? 4); reflexivity.
Qed.

(** C10: with auto gain off and a new manual gain pending, once the manual
    bit of R_MANUAL has been updated [ov2710_gain_set] sends the 16-bit gain
    value to OV2710_REG_GAIN_PK and returns 0 whatever that write returned;
    so does [ov2710_s_ctrl] for V4L2_CID_GAIN on a powered sensor, even when
    the write itself reported -EIO. *)
Theorem ov2710_gain_set_hides_gain_write_error sensor b ret b1 :
  is_new (gain (ctrls sensor)) = true ->
  ov2710_mod_reg OV2710_REG_R_MANUAL (BIT 1) (BIT 1) b = (ret, b1) ->
  0 <= ret ->
  exists wret b2,
    ov2710_write_reg16 OV2710_REG_GAIN_PK (u32 (cval (gain (ctrls sensor)))) b1
      = (wret, b2) /\
    (next_reply 4 b1 <> 4 -> wret = - EIO) /\
    trace b2 =
      trace b1 ++ [EvI2cSend [0x35; 0x0a;
                              u8 (Z.shiftr (u32 (cval (gain (ctrls sensor)))) 8);
                              u8 (u32 (cval (gain (ctrls sensor))))]
                             (next_reply 4 b1)] /\
    ov2710_gain_set sensor false b = (0, b2) /\
    (is_enabled sensor = true -> cval (auto_gain (ctrls sensor)) = 0 ->
     forall beyond v, ov2710_s_ctrl beyond sensor V4L2_CID_GAIN v b = (0, sensor, b2)).
Proof.
  intros Hnew Hmod Hret.
  assert (Hset : ov2710_gain_set sensor false b =
                 (0, snd (ov2710_write_reg16 OV2710_REG_GAIN_PK
                            (u32 (cval (gain (ctrls sensor)))) b1))).
  { unfold ov2710_gain_set. cbv [Bind Ret]. rewrite Hmod.
    destruct (Z.ltb_spec ret 0); [lia | ].
    rewrite Hnew. cbn [negb orb].
    destruct (ov2710_write_reg16 _ _ b1). reflexivity. }
  destruct (ov2710_write_reg16 OV2710_REG_GAIN_PK
              (u32 (cval (gain (ctrls sensor)))) b1) as [wret b2] eqn:Hw.
  exists wret, b2. rewrite ov2710_write_reg16_run in Hw. cbv zeta in Hw.
  injection Hw as Hwret Hb2.
  repeat split.
  - intros Hnak. rewrite <- Hwret.
    destruct (Z.eqb_spec (next_reply 4 b1) 4); [contradiction | reflexivity].
  - rewrite <- Hb2, trace_emit. destruct (_ =? 4); reflexivity.
  - exact Hset.
  - intros Hen Hauto beyond v. unfold ov2710_s_ctrl. rewrite Hen, Hauto. cbn [negb notnot Z.eqb].
    cbv [Bind Ret]. rewrite Hset. reflexivity.
Qed.

Lemma ov2710_gain_set_hides_gain_write_error_witness :
  let b := set_i2c_replies [Full; Full; Code (- EIO)] quiet_board in
  let m := ov2710_mod_reg OV2710_REG_R_MANUAL (BIT 1) (BIT 1) b in
  is_new (gain (ctrls manual_gain_sensor)) = true /\
  0 <= fst m /\
  next_reply 4 (snd m) <> 4 /\
  exists wret b2,
    ov2710_write_reg16 OV2710_REG_GAIN_PK
      (u32 (cval (gain (ctrls manual_gain_sensor)))) (snd m) = (wret, b2) /\
    (next_reply 4 (snd m) <> 4 -> wret = - EIO) /\
    trace b2 =
      trace (snd m)
      ++ [EvI2cSend [0x35; 0x0a;
                     u8 (Z.shiftr (u32 (cval (gain (ctrls manual_gain_sensor)))) 8);
                     u8 (u32 (cval (gain (ctrls manual_gain_sensor))))]
                    (next_reply 4 (snd m))] /\
    ov2710_gain_set manual_gain_sensor false b = (0, b2) /\
    (is_enabled manual_gain_sensor = true ->
     cval (auto_gain (ctrls manual_gain_sensor)) = 0 ->
     forall beyond v, ov2710_s_ctrl beyond manual_gain_sensor V4L2_CID_GAIN v b
               = (0, manual_gain_sensor, b2)).
Proof.
  cbv zeta.
  split; [reflexivity | ].
  split; [vm_compute; discriminate | ].
  split; [vm_compute; discriminate | ].
  apply (ov2710_gain_set_hides_gain_write_error manual_gain_sensor
           (set_i2c_replies [Full; Full; Code (- EIO)] quiet_board)
           (fst (ov2710_mod_reg OV2710_REG_R_MANUAL (BIT 1) (BIT 1)
                   (set_i2c_replies [Full; Full; Code (- EIO)] quiet_board)))
           (snd (ov2710_mod_reg OV2710_REG_R_MANUAL (BIT 1) (BIT 1)
                   (set_i2c_replies [Full; Full; Code (- EIO)] quiet_board)))).
  - reflexivity.
  - apply surjective_pairing.
  - vm_compute; discriminate.
Defined.

(** ** Stopping the stream *)

(** C5, as the code has it: [ov2710_s_stream] with [enable = 0] on a
    streaming sensor issues the stream-disable write and always leaves the
    sensor not streaming; what it returns is the result of that write, 0
    when the bus acknowledged it and -EIO when it did not. *)
Theorem ov2710_s_stream_stop_clears_streaming sensor b :
  is_streaming sensor = true ->
  let r := ov2710_s_stream sensor 0 b in
  r = (fst (ov2710_stream_disable b), set_is_streaming false sensor,
       snd (ov2710_stream_disable b)) /\
  is_streaming (snd (fst r)) = false /\
  trace (snd r) = trace b ++ [EvI2cSend [0x30; 0x08; 0x40] (next_reply 3 b)] /\
  (next_reply 3 b = 3 -> fst (fst r) = 0) /\
  (next_reply 3 b <> 3 -> fst (fst r) = - EIO).
Proof.
  intros Hs. cbv zeta.
  assert (Hrun : ov2710_s_stream sensor 0 b =
                 (fst (ov2710_stream_disable b), set_is_streaming false sensor,
                  snd (ov2710_stream_disable b))).
  { unfold ov2710_s_stream, notnot. rewrite Hs. cbn [Z.eqb negb Bool.eqb andb].
    cbv [Bind Ret]. cbn [Z.ltb Z.compare].
    destruct (ov2710_stream_disable b). reflexivity. }
  rewrite Hrun. cbn [fst snd].
  unfold ov2710_stream_disable. rewrite ov2710_write_reg_run. cbv zeta. cbn [fst snd].
  rewrite trace_emit.
  repeat split.
  - destruct (_ =? 3); reflexivity.
  - intros H. rewrite H. reflexivity.
  - intros H. destruct (Z.eqb_spec (next_reply 3 b) 3); [contradiction | reflexivity].
Qed.

Lemma ov2710_s_stream_stop_clears_streaming_witness :
  let b := set_i2c_replies [Code (- EIO)] quiet_board in
  let r := ov2710_s_stream streaming_sensor 0 b in
  is_streaming streaming_sensor = true /\
  r = (fst (ov2710_stream_disable b), set_is_streaming false streaming_sensor,
       snd (ov2710_stream_disable b)) /\
  is_streaming (snd (fst r)) = false /\
  trace (snd r) = trace b ++ [EvI2cSend [0x30; 0x08; 0x40] (next_reply 3 b)] /\
  (next_reply 3 b = 3 -> fst (fst r) = 0) /\
  (next_reply 3 b <> 3 -> fst (fst r) = - EIO).
Proof.
  cbv zeta. split; [reflexivity | ].
  apply (ov2710_s_stream_stop_clears_streaming streaming_sensor
           (set_i2c_replies [Code (- EIO)] quiet_board)).
  reflexivity.
Defined.

(** C5 as stated fails: the stream-disable write is refused by the bus and
    [ov2710_s_stream] hands -EIO to its caller. *)
Lemma ov2710_s_stream_stop_returns_bus_error :
  is_streaming streaming_sensor = true /\
  fst (fst (ov2710_s_stream streaming_sensor 0
              (set_i2c_replies [Code (- EIO)] quiet_board))) = - EIO /\
  - EIO <> 0.
Proof. repeat split. discriminate. Qed.

(** ** Format and flips while streaming *)

(** C6, as the code has it: while the sensor is streaming, [ov2710_set_fmt]
    on pad 0 returns -EBUSY (on another pad, -EINVAL) and a write of the
    hflip or vflip control to a powered sensor returns -EBUSY (to an
    unpowered one, 0); and whatever these calls return while streaming,
    they leave the sensor (current mode, pending flag, format), the
    caller's format and the board (the flip registers included) untouched. *)
Theorem ov2710_streaming_rejects_fmt_and_flip sensor :
  is_streaming sensor = true ->
  (forall api find cfg req,
     (pad req = 0 ->
      ov2710_set_fmt api find sensor cfg req = (- EBUSY, sensor, req)) /\
     (pad req <> 0 ->
      ov2710_set_fmt api find sensor cfg req = (- EINVAL, sensor, req)) /\
     snd (fst (ov2710_set_fmt api find sensor cfg req)) = sensor /\
     snd (ov2710_set_fmt api find sensor cfg req) = req) /\
  (forall beyond ctrl_id ctrl_val b,
     ctrl_id = V4L2_CID_HFLIP \/ ctrl_id = V4L2_CID_VFLIP ->
     (is_enabled sensor = true ->
      ov2710_s_ctrl beyond sensor ctrl_id ctrl_val b = (- EBUSY, sensor, b)) /\
     (is_enabled sensor = false ->
      ov2710_s_ctrl beyond sensor ctrl_id ctrl_val b = (0, sensor, b)) /\
     snd (fst (ov2710_s_ctrl beyond sensor ctrl_id ctrl_val b)) = sensor /\
     snd (ov2710_s_ctrl beyond sensor ctrl_id ctrl_val b) = b).
Proof.
  intros Hs. split.
  - intros api find cfg req. unfold ov2710_set_fmt. rewrite Hs.
    destruct (Z.eqb_spec (pad req) 0) as [Hp | Hp]; cbn [negb fst snd].
    + split; [reflexivity | split; [contradiction | split; reflexivity] ].
    + split; [contradiction | split; [reflexivity | split; reflexivity] ].
  - intros beyond ctrl_id ctrl_val b Hid. unfold ov2710_s_ctrl.
    destruct (is_enabled sensor); cbn [negb];
      destruct Hid as [-> | ->]; rewrite ?Hs; cbv [Ret]; cbn [fst snd];
      (split; [ | split; [ | split ] ]);
      first [ reflexivity | discriminate ].
Qed.

Lemma ov2710_streaming_rejects_fmt_and_flip_witness :
  is_streaming streaming_sensor = true /\
  (forall api find cfg req,
     (pad req = 0 ->
      ov2710_set_fmt api find streaming_sensor cfg req
        = (- EBUSY, streaming_sensor, req)) /\
     (pad req <> 0 ->
      ov2710_set_fmt api find streaming_sensor cfg req
        = (- EINVAL, streaming_sensor, req)) /\
     snd (fst (ov2710_set_fmt api find streaming_sensor cfg req))
       = streaming_sensor /\
     snd (ov2710_set_fmt api find streaming_sensor cfg req) = req) /\
  (forall beyond ctrl_id ctrl_val b,
     ctrl_id = V4L2_CID_HFLIP \/ ctrl_id = V4L2_CID_VFLIP ->
     (is_enabled streaming_sensor = true ->
      ov2710_s_ctrl beyond streaming_sensor ctrl_id ctrl_val b
        = (- EBUSY, streaming_sensor, b)) /\
     (is_enabled streaming_sensor = false ->
      ov2710_s_ctrl beyond streaming_sensor ctrl_id ctrl_val b
        = (0, streaming_sensor, b)) /\
     snd (fst (ov2710_s_ctrl beyond streaming_sensor ctrl_id ctrl_val b))
       = streaming_sensor /\
     snd (ov2710_s_ctrl beyond streaming_sensor ctrl_id ctrl_val b) = b).
Proof.
  split; [reflexivity | ].
  apply (ov2710_streaming_rejects_fmt_and_flip streaming_sensor). reflexivity.
Defined.

(** C6 as stated fails twice over: a format set on a pad other than 0 is
    answered -EINVAL before the streaming test, and a flip written after
    [ov2710_power_off] has run on a streaming sensor (which leaves
    [is_streaming] set) is answered 0. *)
Lemma ov2710_streaming_not_always_ebusy :
  is_streaming streaming_sensor = true /\
  fst (fst (ov2710_set_fmt true first_mode streaming_sensor no_try
              (wanted_720p 1))) = - EINVAL /\
  (let off := snd (fst (ov2710_power_off streaming_sensor quiet_board)) in
   is_streaming off = true /\
   fst (fst (ov2710_s_ctrl (fun _ => 0) off V4L2_CID_HFLIP 1 quiet_board)) = 0) /\
  - EINVAL <> - EBUSY /\ 0 <> - EBUSY.
Proof. repeat split; discriminate. Qed.

(** ** Starting the stream *)

(** A mode commit that reports an error has not touched the sensor; one
    that does not has returned 0 and cleared the pending flag. *)
Lemma ov2710_mode_set_result sensor b :
  let r := ov2710_mode_set sensor b in
  (fst (fst r) < 0 /\ snd (fst r) = sensor) \/
  (fst (fst r) = 0 /\ snd (fst r) = set_mode_pending_changes false sensor).
Proof.
  cbv zeta. unfold ov2710_mode_set. cbv [Bind Ret].
  repeat match goal with
         | |- context [let (_, _) := ?m ?x in _] =>
             let E := fresh "E" in destruct (m x) eqn:E
         | |- context [if ?c <? 0 then _ else _] =>
             destruct (Z.ltb_spec c 0)
         | |- context [if ?c then _ else _] =>
             let E := fresh "E" in destruct c eqn:E
         | H : (_, _) = (_, _) |- _ => injection H as ? ?; subst
         end;
    cbn [fst snd]; auto.
Qed.

(** A table playback that fails in the middle of a mode commit is what
    [ov2710_mode_set] returns, with the sensor record as it was. *)
Lemma ov2710_mode_set_table_failure sensor b r1 b1 r2 b2 :
  ov2710_gain_set sensor false b = (r1, b1) -> 0 <= r1 ->
  ov2710_exposure_set sensor false b1 = (r2, b2) -> 0 <= r2 ->
  fst (ov2710_load_regs (current_mode sensor) b2) < 0 ->
  ov2710_mode_set sensor b =
    (fst (ov2710_load_regs (current_mode sensor) b2), sensor,
     snd (ov2710_load_regs (current_mode sensor) b2)).
Proof.
  intros Hg H1 He H2 Ht. unfold ov2710_mode_set. cbv [Bind Ret].
  rewrite Hg. destruct (Z.ltb_spec r1 0); [lia | ].
  rewrite He. destruct (Z.ltb_spec r2 0); [lia | ].
  destruct (ov2710_load_regs (current_mode sensor) b2) as [r3 b3].
  cbn [fst snd] in *. destruct (Z.ltb_spec r3 0); [reflexivity | lia].
Qed.

(** C2, as the code has it: on a sensor that is not streaming and has a
    mode change pending, a start whose mode commit ([ov2710_mode_set]:
    manual gain and exposure, the mode's register table, auto gain and
    exposure) reports an error returns that error and leaves the sensor
    exactly as it was - not streaming, change still pending - so that the
    next start runs the whole commit again and, the commit done, writes
    stream-enable.  When the commit succeeds and only the stream-enable
    write fails, the start returns -EIO with the pending flag cleared. *)
Theorem ov2710_s_stream_start_commit_failure sensor enable b :
  enable <> 0 ->
  is_streaming sensor = false ->
  mode_pending_changes sensor = true ->
  let commit := ov2710_mode_set sensor b in
  let r := ov2710_s_stream sensor enable b in
  (fst (fst commit) < 0 ->
   r = (fst (fst commit), sensor, snd commit) /\
   is_streaming (snd (fst r)) = false /\
   mode_pending_changes (snd (fst r)) = true /\
   forall b2,
     let retry := ov2710_mode_set (snd (fst r)) b2 in
     fst (fst retry) = 0 ->
     ov2710_s_stream (snd (fst r)) enable b2 =
       (fst (ov2710_stream_enable (snd retry)),
        set_is_streaming true (set_mode_pending_changes false sensor),
        snd (ov2710_stream_enable (snd retry)))) /\
  (fst (fst commit) = 0 -> next_reply 3 (snd commit) <> 3 ->
   fst (fst r) = - EIO /\ mode_pending_changes (snd (fst r)) = false).
Proof.
  intros He Hs Hp. cbv zeta.
  assert (Hrun : forall b0,
    ov2710_s_stream sensor enable b0 =
      let '(ret, s1, b1) := ov2710_mode_set sensor b0 in
      if ret <? 0 then (ret, s1, b1)
      else (fst (ov2710_stream_enable b1), set_is_streaming true s1,
            snd (ov2710_stream_enable b1))).
  { intros b0. unfold ov2710_s_stream, notnot. rewrite Hs, Hp.
    destruct (Z.eqb_spec enable 0); [contradiction | ].
    cbn [negb Bool.eqb andb]. cbv [Bind Ret].
    destruct (ov2710_mode_set sensor b0) as [[ret s1] b1].
    destruct (ret <? 0); [reflexivity | ].
    destruct (ov2710_stream_enable b1). reflexivity. }
  split.
  - intros Hfail. rewrite (Hrun b).
    pose proof (ov2710_mode_set_result sensor b) as Hres. cbv zeta in Hres.
    destruct (ov2710_mode_set sensor b) as [[ret s1] b1]. cbn [fst snd] in *.
    destruct Hres as [[_ Hsame] | [H0 _]]; [subst s1 | lia].
    destruct (Z.ltb_spec ret 0); [ | lia]. cbn [fst snd].
    repeat split; try assumption.
    intros b2 Hok. rewrite (Hrun b2).
    pose proof (ov2710_mode_set_result sensor b2) as Hres2. cbv zeta in Hres2.
    destruct (ov2710_mode_set sensor b2) as [[ret2 s2] b3]. cbn [fst snd] in *.
    destruct Hres2 as [[Hneg _] | [_ Hset]]; [lia | subst s2].
    destruct (Z.ltb_spec ret2 0); [lia | reflexivity].
  - intros Hok Hnak. rewrite (Hrun b).
    pose proof (ov2710_mode_set_result sensor b) as Hres. cbv zeta in Hres.
    destruct (ov2710_mode_set sensor b) as [[ret s1] b1]. cbn [fst snd] in *.
    destruct Hres as [[Hneg _] | [_ Hset]]; [lia | subst s1].
    destruct (Z.ltb_spec ret 0); [lia | ]. cbn [fst snd].
    unfold ov2710_stream_enable. rewrite ov2710_write_reg_run. cbv zeta. cbn [fst].
    destruct (Z.eqb_spec (next_reply 3 b1) 3); [contradiction | ].
    split; reflexivity.
Qed.

Lemma ov2710_s_stream_start_commit_failure_witness :
  let b := nak_after 10 in
  let commit := ov2710_mode_set powered_sensor b in
  let r := ov2710_s_stream powered_sensor 1 b in
  (1 <> 0 /\ is_streaming powered_sensor = false /\
   mode_pending_changes powered_sensor = true /\
   fst (fst commit) = - EIO) /\
  (fst (fst commit) < 0 ->
   r = (fst (fst commit), powered_sensor, snd commit) /\
   is_streaming (snd (fst r)) = false /\
   mode_pending_changes (snd (fst r)) = true /\
   forall b2,
     let retry := ov2710_mode_set (snd (fst r)) b2 in
     fst (fst retry) = 0 ->
     ov2710_s_stream (snd (fst r)) 1 b2 =
       (fst (ov2710_stream_enable (snd retry)),
        set_is_streaming true (set_mode_pending_changes false powered_sensor),
        snd (ov2710_stream_enable (snd retry)))) /\
  (fst (fst commit) = 0 -> next_reply 3 (snd commit) <> 3 ->
   fst (fst r) = - EIO /\ mode_pending_changes (snd (fst r)) = false).
Proof.
  cbv zeta. split.
  - split; [lia | ]. split; [reflexivity | ]. split; [reflexivity | ].
    vm_compute. reflexivity.
  - apply (ov2710_s_stream_start_commit_failure powered_sensor 1 (nak_after 10));
      [lia | reflexivity | reflexivity].
Defined.

(** C2 as stated fails when the step that fails is the last one: the mode
    commit goes through (122 transfers), the stream-enable write is refused,
    and the sensor comes back marked streaming with nothing pending, so that
    a further start returns 0 without touching the bus. *)
Lemma ov2710_s_stream_enable_failure_marks_streaming :
  let r := ov2710_s_stream powered_sensor 1 (nak_after 122) in
  (is_enabled powered_sensor = true /\ is_streaming powered_sensor = false /\
   mode_pending_changes powered_sensor = true) /\
  fst (fst r) = - EIO /\
  last (trace (snd r)) (EvMsleep 0) = EvI2cSend [0x30; 0x08; 0xbf] (- EIO) /\
  List.length (trace (snd r)) = 123%nat /\
  is_streaming (snd (fst r)) = true /\
  mode_pending_changes (snd (fst r)) = false /\
  ov2710_s_stream (snd (fst r)) 1 quiet_board = (0, snd (fst r), quiet_board).
Proof. vm_compute. repeat split; reflexivity. Qed.

(** ** Power-on failures *)

Lemma ov2710_write_reg_supplies reg v b :
  supplies_on (snd (ov2710_write_reg reg v b)) = supplies_on b.
Proof.
  rewrite ov2710_write_reg_run. cbv zeta. cbn [snd].
  destruct (_ =? 3); reflexivity.
Qed.

(** [ov2710_power_on] on an unpowered sensor either returns 0 with
    [is_enabled] set, or a negative error with the sensor record untouched. *)
Lemma ov2710_power_on_result sensor b :
  is_enabled sensor = false ->
  let r := ov2710_power_on sensor b in
  (fst (fst r) = 0 /\ snd (fst r) = set_is_enabled true sensor) \/
  (fst (fst r) < 0 /\ snd (fst r) = sensor).
Proof.
  intros Hen. cbv zeta.
  pose (P := fun r : Z * ov2710_dev * board =>
               (fst (fst r) = 0 /\ snd (fst r) = set_is_enabled true sensor) \/
               (fst (fst r) < 0 /\ snd (fst r) = sensor)).
  change (P (ov2710_power_on sensor b)).
  assert (Hclk : forall b2,
    P ((ret <- clk_prepare_enable ;;
        if ret <? 0 then Ret (ret, sensor)
        else
          ov2710_stream_enable ;;
          usleep_range 1000 2000 ;;
          ov2710_stream_disable ;;
          Ret (0, set_is_enabled true sensor)) b2)).
  { intros b2. cbv [Bind Ret].
    destruct (clk_prepare_enable b2) as [ret b3].
    destruct (Z.ltb_spec ret 0); [right; split; [assumption | reflexivity] | ].
    destruct (ov2710_stream_enable b3) as [? b4].
    destruct (usleep_range 1000 2000 b4) as [? b5].
    destruct (ov2710_stream_disable b5).
    left. split; reflexivity. }
  unfold ov2710_power_on. rewrite Hen. cbv zeta.
  unfold Bind at 1.
  destruct (regulator_bulk_enable b) as [ret0 b0].
  destruct (Z.ltb_spec ret0 0); [right; split; [assumption | reflexivity] | ].
  unfold ov2710_power_down, ov2710_power_up.
  destruct (reset_gpio sensor) as [line | ].
  - unfold Bind at 1. unfold Bind at 1.
    destruct (gpiod_set_value line 1 b0) as [? b1].
    destruct (usleep_range 5000 10000 b1) as [? b2].
    unfold Bind at 1. unfold Bind at 1.
    destruct (gpiod_set_value line 0 b2) as [? b3].
    destruct (usleep_range 5000 10000 b3) as [? b4].
    apply Hclk.
  - unfold Bind at 1.
    pose proof (ov2710_write_reg_ret OV2710_REG_STREAM_CTRL
                  OV2710_REG_STREAM_CTRL_RESET b0) as Hw.
    destruct (ov2710_write_reg _ _ b0) as [ret b1]. cbn [fst] in Hw.
    destruct (Z.eqb_spec ret 0) as [H0 | Hn]; cbn [negb].
    + unfold Bind at 1. destruct (usleep_range 1000 2000 b1) as [? b2].
      apply Hclk.
    + right. cbv [Ret]. cbn [fst snd]. split; [ | reflexivity].
      destruct Hw as [Hw | Hw]; [contradiction | rewrite Hw; reflexivity].
Qed.

(** Once the regulators are up, nothing in [ov2710_power_on] takes them
    down again, whichever way the call ends. *)
Lemma ov2710_power_on_keeps_supplies sensor b :
  is_enabled sensor = false ->
  hd 0 (regulator_replies b) = 0 ->
  supplies_on (snd (ov2710_power_on sensor b)) = supplies_on b + 1.
Proof.
  intros Hen Hreg.
  assert (Hclk : forall b2, supplies_on b2 = supplies_on b + 1 ->
    supplies_on (snd
      ((ret <- clk_prepare_enable ;;
        if ret <? 0 then Ret (ret, sensor)
        else
          ov2710_stream_enable ;;
          usleep_range 1000 2000 ;;
          ov2710_stream_disable ;;
          Ret (0, set_is_enabled true sensor)) b2)) = supplies_on b + 1).
  { intros b2 Hb2. cbv [Bind Ret clk_prepare_enable].
    destruct (hd 0 (clk_replies b2) <? 0); [destruct (_ =? 0); exact Hb2 | ].
    unfold ov2710_stream_enable, ov2710_stream_disable.
    match goal with |- context [ov2710_write_reg ?r ?v ?x] =>
      pose proof (ov2710_write_reg_supplies r v x) as H1;
      destruct (ov2710_write_reg r v x) as [? b3] end.
    cbv [usleep_range log].
    match goal with |- context [ov2710_write_reg ?r ?v ?x] =>
      pose proof (ov2710_write_reg_supplies r v x) as H2;
      destruct (ov2710_write_reg r v x) as [? b4] end.
    cbn [snd] in *. rewrite H2. cbn [supplies_on emit]. rewrite H1.
    destruct (_ =? 0); exact Hb2. }
  unfold ov2710_power_on. rewrite Hen. cbv zeta.
  unfold Bind at 1. unfold regulator_bulk_enable at 1. rewrite Hreg.
  cbn [Z.ltb Z.eqb Z.compare].
  set (b1 := emit _ _).
  assert (Hb1 : supplies_on b1 = supplies_on b + 1) by reflexivity.
  clearbody b1.
  unfold ov2710_power_down, ov2710_power_up.
  destruct (reset_gpio sensor) as [line | ].
  - unfold Bind at 1. unfold Bind at 1. cbv [gpiod_set_value usleep_range log].
    unfold Bind at 1. unfold Bind at 1.
    apply Hclk. exact Hb1.
  - unfold Bind at 1.
    pose proof (ov2710_write_reg_supplies OV2710_REG_STREAM_CTRL
                  OV2710_REG_STREAM_CTRL_RESET b1) as Hw.
    destruct (ov2710_write_reg _ _ b1) as [ret b2]. cbn [snd] in Hw.
    destruct (ret =? 0); cbn [negb].
    + unfold Bind at 1. cbv [usleep_range log]. apply Hclk.
      cbn [supplies_on emit]. congruence.
    + cbv [Ret]. cbn [snd]. congruence.
Qed.

(** C1, as the code has it: a failing [ov2710_power_on] on an unpowered
    sensor returns a negative error and leaves the sensor record as it was,
    [is_enabled] false; and when it is regulator_bulk_enable that fails,
    the call returns its error having touched nothing else: no supply and
    no clock is left enabled by it, nothing went out on the bus. *)
Theorem ov2710_power_on_failure_stays_unpowered sensor b :
  is_enabled sensor = false ->
  let r := ov2710_power_on sensor b in
  (fst (fst r) <> 0 ->
   fst (fst r) < 0 /\ snd (fst r) = sensor /\ is_enabled (snd (fst r)) = false) /\
  (hd 0 (regulator_replies b) < 0 ->
   fst (fst r) = hd 0 (regulator_replies b) /\
   supplies_on (snd r) = supplies_on b /\
   xvclk_on (snd r) = xvclk_on b /\
   trace (snd r) = trace b ++ [EvRegulatorBulkEnable (hd 0 (regulator_replies b))]).
Proof.
  intros Hen. cbv zeta. split.
  - intros Hfail.
    pose proof (ov2710_power_on_result sensor b Hen) as H. cbv zeta in H.
    destruct H as [[H0 _] | [Hneg Hs]]; [contradiction | ].
    rewrite Hs. auto.
  - intros Hreg. unfold ov2710_power_on. rewrite Hen.
    cbv [Bind Ret regulator_bulk_enable].
    destruct (Z.ltb_spec (hd 0 (regulator_replies b)) 0); [ | lia].
    destruct (Z.eqb_spec (hd 0 (regulator_replies b)) 0); [lia | ].
    cbn. auto.
Qed.

Lemma ov2710_power_on_failure_stays_unpowered_witness :
  let b := set_regulator_replies [- EIO] quiet_board in
  let r := ov2710_power_on probed_sensor b in
  is_enabled probed_sensor = false /\
  (fst (fst r) <> 0 ->
   fst (fst r) < 0 /\ snd (fst r) = probed_sensor /\
   is_enabled (snd (fst r)) = false) /\
  (hd 0 (regulator_replies b) < 0 ->
   fst (fst r) = hd 0 (regulator_replies b) /\
   supplies_on (snd r) = supplies_on b /\
   xvclk_on (snd r) = xvclk_on b /\
   trace (snd r) = trace b ++ [EvRegulatorBulkEnable (hd 0 (regulator_replies b))]).
Proof.
  cbv zeta. split; [reflexivity | ].
  apply (ov2710_power_on_failure_stays_unpowered probed_sensor
           (set_regulator_replies [- EIO] quiet_board)).
  reflexivity.
Defined.

(** C1 as stated fails: on a board without reset GPIO whose bus refuses
    the soft-reset write, and on one whose clock fails to start,
    [ov2710_power_on] returns the error with [is_enabled] still false, but
    the supply set enabled at the start of the call is still enabled and
    the trace holds no regulator_bulk_disable. *)
Lemma ov2710_power_on_failure_leaves_supplies_on :
  (let b := set_i2c_replies [Code (- EIO)] quiet_board in
   let r := ov2710_power_on probed_sensor b in
   fst (fst r) = - EIO /\ is_enabled (snd (fst r)) = false /\
   supplies_on b = 0 /\ supplies_on (snd r) = 1 /\
   trace (snd r) = [EvRegulatorBulkEnable 0;
                    EvI2cSend [0x30; 0x08; 0x80] (- EIO)]) /\
  (let b := set_clk_replies [- EINVAL] quiet_board in
   let r := ov2710_power_on probed_sensor b in
   fst (fst r) = - EINVAL /\ is_enabled (snd (fst r)) = false /\
   supplies_on b = 0 /\ supplies_on (snd r) = 1 /\
   trace (snd r) = [EvRegulatorBulkEnable 0;
                    EvI2cSend [0x30; 0x08; 0x80] 3;
                    EvUsleepRange 1000 2000;
                    EvClkPrepareEnable (- EINVAL)]).
Proof. vm_compute. repeat split; reflexivity. Qed.

(** ** Panel and bridge: one register write *)

(** A refused transfer ends the loop at once, whatever the counter says. *)
Lemma wuxga_transfer_loop_refused more retry msg b :
  next_reply (Z.of_nat (List.length msg)) b < 0 ->
  Wuxga.transfer_loop more retry msg b =
    (next_reply (Z.of_nat (List.length msg)) b,
     emit (EvI2cTransfer msg (next_reply (Z.of_nat (List.length msg)) b))
          (set_i2c_replies (tl (i2c_replies b)) b)).
Proof.
  intros H. destruct more; cbn [Wuxga.transfer_loop]; cbv [Bind Ret i2c_transfer];
    destruct (Z.ltb_spec (next_reply (Z.of_nat (List.length msg)) b) 0);
    try lia; reflexivity.
Qed.

(** On a bus that acknowledges everything the loop transfers the message
    until the counter has passed [DISPLAY_MAX_RETRIES]: once for each
    value of the counter from [retry] to the bound.  The bound on the
    passes is not reached first. *)
Lemma wuxga_transfer_loop_acked more : forall retry msg b,
  i2c_replies b = [] ->
  0 <= retry <= Wuxga.DISPLAY_MAX_RETRIES ->
  (Z.to_nat (Wuxga.DISPLAY_MAX_RETRIES - retry) <= more)%nat ->
  let n := Z.of_nat (List.length msg) in
  fst (Wuxga.transfer_loop more retry msg b) = 0 /\
  i2c_replies (snd (Wuxga.transfer_loop more retry msg b)) = [] /\
  trace (snd (Wuxga.transfer_loop more retry msg b)) =
    trace b ++ repeat (EvI2cTransfer msg n)
                      (S (Z.to_nat (Wuxga.DISPLAY_MAX_RETRIES - retry))).
Proof.
  cbv zeta.
  assert (Hstep : forall retry msg b, i2c_replies b = [] ->
    forall more,
    Wuxga.transfer_loop more retry msg b =
      let b1 := emit (EvI2cTransfer msg (Z.of_nat (List.length msg)))
                     (set_i2c_replies [] b) in
      if retry + 1 <=? Wuxga.DISPLAY_MAX_RETRIES then
        match more with
        | S more' => Wuxga.transfer_loop more' (retry + 1) msg b1
        | O => (0, b1)
        end
      else (0, b1)).
  { intros retry msg b Hb more0.
    destruct more0; cbn [Wuxga.transfer_loop];
      cbv [Bind Ret i2c_transfer next_reply]; rewrite Hb;
      (destruct (Z.ltb_spec (Z.of_nat (List.length msg)) 0); [lia | ]);
      cbn [tl]; cbv zeta; destruct (_ <=? _); reflexivity. }
  induction more as [ | more IH]; intros retry msg b Hb Hretry Hmore.
  - rewrite (Hstep retry msg b Hb 0%nat). cbv zeta.
    assert (retry = Wuxga.DISPLAY_MAX_RETRIES) by lia. subst retry.
    destruct (Z.leb_spec (Wuxga.DISPLAY_MAX_RETRIES + 1) Wuxga.DISPLAY_MAX_RETRIES);
      [lia | ].
    rewrite Z.sub_diag. cbn. auto.
  - rewrite (Hstep retry msg b Hb (S more)). cbv zeta.
    destruct (Z.leb_spec (retry + 1) Wuxga.DISPLAY_MAX_RETRIES) as [Hle | Hgt].
    + set (b1 := emit _ _).
      assert (Hb1 : i2c_replies b1 = []) by reflexivity.
      assert (Ht1 : trace b1 =
                    trace b ++ [EvI2cTransfer msg (Z.of_nat (List.length msg))])
        by reflexivity.
      clearbody b1.
      destruct (IH (retry + 1) msg b1 Hb1) as (H1 & H2 & H3); [lia | lia | ].
      split; [exact H1 | split; [exact H2 | ] ].
      rewrite H3, Ht1, <- app_assoc.
      replace (Wuxga.DISPLAY_MAX_RETRIES - retry)
        with (Z.succ (Wuxga.DISPLAY_MAX_RETRIES - (retry + 1))) by lia.
      rewrite Z2Nat.inj_succ by lia. reflexivity.
    + assert (retry = Wuxga.DISPLAY_MAX_RETRIES) by lia. subst retry.
      rewrite Z.sub_diag. cbn. auto.
Qed.

(** [bridge_write_reg] is [wuxga_write_reg] under another name: same
    message, same loop, same bound. *)
Lemma bridge_write_reg_same :
  Bridge.transfer_loop = Wuxga.transfer_loop /\
  Bridge.write_msg = Wuxga.write_msg /\
  Bridge.bridge_write_reg = Wuxga.wuxga_write_reg.
Proof. repeat split. Qed.

Lemma bridge_transfer_loop_refused more retry msg b :
  next_reply (Z.of_nat (List.length msg)) b < 0 ->
  Bridge.transfer_loop more retry msg b =
    (next_reply (Z.of_nat (List.length msg)) b,
     emit (EvI2cTransfer msg (next_reply (Z.of_nat (List.length msg)) b))
          (set_i2c_replies (tl (i2c_replies b)) b)).
Proof.
  destruct bridge_write_reg_same as (-> & _ & _).
  apply wuxga_transfer_loop_refused.
Qed.

Lemma bridge_transfer_loop_acked more retry msg b :
  i2c_replies b = [] ->
  0 <= retry <= Bridge.DISPLAY_MAX_RETRIES ->
  (Z.to_nat (Bridge.DISPLAY_MAX_RETRIES - retry) <= more)%nat ->
  let n := Z.of_nat (List.length msg) in
  fst (Bridge.transfer_loop more retry msg b) = 0 /\
  i2c_replies (snd (Bridge.transfer_loop more retry msg b)) = [] /\
  trace (snd (Bridge.transfer_loop more retry msg b)) =
    trace b ++ repeat (EvI2cTransfer msg n)
                      (S (Z.to_nat (Bridge.DISPLAY_MAX_RETRIES - retry))).
Proof.
  destruct bridge_write_reg_same as (-> & _ & _).
  apply wuxga_transfer_loop_acked.
Qed.

(** The whole register write on an acknowledging bus: four transfers. *)
Lemma wuxga_write_reg_acked a d b :
  i2c_replies b = [] ->
  fst (Wuxga.wuxga_write_reg wired a d b) = 0 /\
  i2c_replies (snd (Wuxga.wuxga_write_reg wired a d b)) = [] /\
  trace (snd (Wuxga.wuxga_write_reg wired a d b)) =
    trace b ++ repeat (EvI2cTransfer (Wuxga.write_msg a d) 1) 4.
Proof.
  intros Hb. unfold Wuxga.wuxga_write_reg. cbv zeta. cbn [wired adapter negb].
  change (Z.to_nat Wuxga.DISPLAY_MAX_RETRIES) with 3%nat.
  apply (wuxga_transfer_loop_acked 3 0 (Wuxga.write_msg a d) b Hb);
    [unfold Wuxga.DISPLAY_MAX_RETRIES; lia | cbn; lia].
Qed.

Lemma bridge_write_reg_acked a d b :
  i2c_replies b = [] ->
  fst (Bridge.bridge_write_reg wired a d b) = 0 /\
  i2c_replies (snd (Bridge.bridge_write_reg wired a d b)) = [] /\
  trace (snd (Bridge.bridge_write_reg wired a d b)) =
    trace b ++ repeat (EvI2cTransfer (Bridge.write_msg a d) 1) 4.
Proof.
  destruct bridge_write_reg_same as (_ & -> & ->).
  apply wuxga_write_reg_acked.
Qed.

(** The whole register write when the first transfer is refused: that one
    transfer, and its error. *)
Lemma wuxga_write_reg_refused a d b :
  next_reply 1 b < 0 ->
  Wuxga.wuxga_write_reg wired a d b =
    (next_reply 1 b,
     emit (EvI2cTransfer (Wuxga.write_msg a d) (next_reply 1 b))
          (set_i2c_replies (tl (i2c_replies b)) b)).
Proof.
  intros H. unfold Wuxga.wuxga_write_reg. cbv zeta. cbn [wired adapter negb].
  apply wuxga_transfer_loop_refused. exact H.
Qed.

(** C4 fails on the code, in both drivers and for every register and
    value: a transfer the bus refuses is not repeated - one transfer, and
    its error is returned - while on a bus that acknowledges everything the
    same message is transferred four times before 0 is returned. *)
Theorem write_reg_repeats_success_not_failure addr data :
  (let r := Wuxga.wuxga_write_reg wired addr data (nak_after 0) in
   fst r = - EIO /\
   trace (snd r) = [EvI2cTransfer (Wuxga.write_msg addr data) (- EIO)]) /\
  (let r := Wuxga.wuxga_write_reg wired addr data quiet_board in
   fst r = 0 /\
   trace (snd r) = repeat (EvI2cTransfer (Wuxga.write_msg addr data) 1) 4) /\
  (let r := Bridge.bridge_write_reg wired addr data (nak_after 0) in
   fst r = - EIO /\
   trace (snd r) = [EvI2cTransfer (Bridge.write_msg addr data) (- EIO)]) /\
  (let r := Bridge.bridge_write_reg wired addr data quiet_board in
   fst r = 0 /\
   trace (snd r) = repeat (EvI2cTransfer (Bridge.write_msg addr data) 1) 4).
Proof.
  cbv zeta. destruct bridge_write_reg_same as (_ & -> & ->).
  assert (Hnak : Wuxga.wuxga_write_reg wired addr data (nak_after 0) =
                 (- EIO, emit (EvI2cTransfer (Wuxga.write_msg addr data) (- EIO))
                              (set_i2c_replies [] (nak_after 0)))).
  { apply (wuxga_write_reg_refused addr data (nak_after 0)). cbn. lia. }
  destruct (wuxga_write_reg_acked addr data quiet_board eq_refl) as (H1 & _ & H3).
  rewrite Hnak. cbn [fst snd].
  split; [ | split; [ | split ] ];
    first [ split; [reflexivity | reflexivity] | split; [exact H1 | exact H3] ].
Qed.

(** ** Panel and bridge: playing a table *)

(** C3 fails on the code for delay entries.  On a bus that acknowledges
    everything, the panel's player transmits a one-entry table made of a
    delay entry (four transfers, as every write) and then sleeps; the
    bridge's player sleeps and then transmits it; and in the bridge's own
    [display_table] the entry [{0x0000, 0x0005}] ("Delay time") comes out
    as a 5 ms sleep followed by four transfers of bytes 00 00 00 05. *)
Theorem write_table_transmits_delay_entries wait ms err0 :
  (let r := Wuxga.wuxga_write_table wait wired [Wuxga.RS wait ms] 1 err0
              quiet_board in
   fst r = 0 /\
   trace (snd r) =
     repeat (EvI2cTransfer (Wuxga.write_msg wait ms) 1) 4 ++ [EvMsleep ms]) /\
  (let r := Bridge.bridge_write_table wired [Bridge.RS 0 ms] 1 err0
              quiet_board in
   fst r = 0 /\
   trace (snd r) =
     EvMsleep ms :: repeat (EvI2cTransfer (Bridge.write_msg 0 ms) 1) 4) /\
  (let r := Bridge.bridge_write_table wired Bridge.display_table
              (Z.of_nat (List.length Bridge.display_table)) err0 quiet_board in
   fst r = 0 /\
   nth_error Bridge.display_table 1 = Some (Bridge.RS 0x0000 0x0005) /\
   firstn 5 (skipn 4 (trace (snd r))) =
     EvMsleep 5 :: repeat (EvI2cTransfer (Bridge.write_msg 0 5) 1) 4).
Proof.
  cbv zeta. split; [ | split ].
  - unfold Wuxga.wuxga_write_table. change (Z.to_nat 1) with 1%nat.
    cbn [firstn Wuxga.write_table_from Wuxga.addr Wuxga.data].
    destruct (wuxga_write_reg_acked wait ms quiet_board eq_refl) as (H1 & _ & H3).
    rewrite Z.eqb_refl. cbv [Bind Ret msleep log].
    destruct (Wuxga.wuxga_write_reg wired wait ms quiet_board) as [err b1].
    cbn [fst snd] in H1, H3. subst err. cbn [Z.eqb negb fst snd].
    rewrite trace_emit, H3. split; reflexivity.
  - unfold Bridge.bridge_write_table. change (Z.to_nat 1) with 1%nat.
    cbn [firstn Bridge.write_table_from Bridge.addr Bridge.data Z.eqb].
    cbv [Bind msleep log].
    destruct (bridge_write_reg_acked 0 ms (emit (EvMsleep ms) quiet_board) eq_refl)
      as (H1 & _ & H3).
    destruct (Bridge.bridge_write_reg wired 0 ms (emit (EvMsleep ms) quiet_board))
      as [err b1].
    cbn [fst snd] in H1, H3. subst err. cbn [Z.eqb negb].
    cbv [Ret]. cbn [fst snd]. rewrite H3. split; reflexivity.
  - vm_compute. repeat split; reflexivity.
Qed.

(** ** The sensor's table loader *)

Lemma ov2710_write_reg_replies reg v b :
  i2c_replies (snd (ov2710_write_reg reg v b)) = tl (i2c_replies b).
Proof.
  rewrite ov2710_write_reg_run. cbv zeta. cbn [snd].
  destruct (_ =? 3); reflexivity.
Qed.

Lemma ov2710_write_reg_trace reg v b :
  trace (snd (ov2710_write_reg reg v b)) =
    trace b ++ [EvI2cSend [u8 (Z.shiftr (u16 reg) 8); u8 (u16 reg); u8 v]
                          (next_reply 3 b)].
Proof.
  rewrite ov2710_write_reg_run. cbv zeta. cbn [snd]. rewrite trace_emit.
  destruct (_ =? 3); reflexivity.
Qed.

Lemma ov2710_write_reg_fst reg v b :
  fst (ov2710_write_reg reg v b) = if next_reply 3 b =? 3 then 0 else - EIO.
Proof. rewrite ov2710_write_reg_run. reflexivity. Qed.

(** Runs the register write the goal is waiting for: names its result and
    records what it returned, what it left of the adapter's replies and
    what it added to the trace. *)
Ltac run_write_reg ret b1 Hf Hr Ht :=
  match goal with
  | |- context [ov2710_write_reg ?reg ?v ?b] =>
      pose proof (ov2710_write_reg_fst reg v b) as Hf;
      pose proof (ov2710_write_reg_replies reg v b) as Hr;
      pose proof (ov2710_write_reg_trace reg v b) as Ht;
      destruct (ov2710_write_reg reg v b) as [ret b1];
      cbn [fst snd] in Hf, Hr, Ht
  end.

(** On a bus that acknowledges everything, the loader sends exactly one
    write per entry, in the order of the table, and returns 0. *)
Lemma load_regs_from_acked l : forall ret0 b,
  i2c_replies b = [] ->
  fst (load_regs_from l ret0 b) = match l with [] => ret0 | _ => 0 end /\
  i2c_replies (snd (load_regs_from l ret0 b)) = [] /\
  trace (snd (load_regs_from l ret0 b)) =
    trace b ++ map (fun r => reg_write_event r 3) l.
Proof.
  induction l as [ | r rest IH]; intros ret0 b Hb.
  - cbn. rewrite app_nil_r. auto.
  - cbn [load_regs_from map]. unfold Bind at 1 2 3.
    run_write_reg ret b1 Hf Hr Ht.
    unfold next_reply in Hf, Ht. rewrite Hb in Hf, Hr, Ht. cbn in Hf, Hr.
    subst ret. cbn [Z.eqb negb].
    destruct (IH 0 b1 Hr) as (H1 & H2 & H3).
    split; [ | split].
    + rewrite H1. destruct rest; reflexivity.
    + exact H2.
    + rewrite H3, Ht, <- app_assoc. reflexivity.
Qed.

(** The loader stops at the first write the bus refuses: the entries
    before it have been written in order, the refused one has been tried
    once, -EIO is returned and no later entry is touched. *)
Lemma load_regs_from_stops l1 : forall e l2 c rest ret0 b,
  c <> 3 ->
  i2c_replies b = repeat Full (List.length l1) ++ Code c :: rest ->
  fst (load_regs_from (l1 ++ e :: l2) ret0 b) = - EIO /\
  i2c_replies (snd (load_regs_from (l1 ++ e :: l2) ret0 b)) = rest /\
  trace (snd (load_regs_from (l1 ++ e :: l2) ret0 b)) =
    trace b ++ map (fun r => reg_write_event r 3) l1 ++ [reg_write_event e c].
Proof.
  induction l1 as [ | r l1 IH]; intros e l2 c rest ret0 b Hc Hb.
  - cbn [app load_regs_from map]. unfold Bind at 1 2 3.
    run_write_reg ret b1 Hf Hr Ht.
    unfold next_reply in Hf, Ht. rewrite Hb in Hf, Hr, Ht.
    cbn [repeat List.length app reply_value tl] in Hf, Hr, Ht.
    destruct (Z.eqb_spec c 3); [contradiction | ].
    subst ret. cbv [Ret]. cbn [fst snd]. auto.
  - cbn [app load_regs_from map]. unfold Bind at 1 2 3.
    run_write_reg ret b1 Hf Hr Ht.
    unfold next_reply in Hf, Ht. rewrite Hb in Hf, Hr, Ht.
    cbn [repeat List.length app reply_value tl] in Hf, Hr, Ht.
    subst ret. cbn [Z.eqb negb].
    destruct (IH e l2 c rest 0 b1 Hc Hr) as (H1 & H2 & H3).
    split; [exact H1 | split; [exact H2 | ] ].
    etransitivity; [exact H3 | ].
    rewrite Ht, <- app_assoc. reflexivity.
Qed.

(** ** The panel's and the bridge's table players *)

(** One pass of each player's loop. *)
Lemma wuxga_write_table_from_cons wait client r rest err b :
  Wuxga.write_table_from wait client (r :: rest) err b =
    let (e, b1) := Wuxga.wuxga_write_reg client (Wuxga.addr r) (Wuxga.data r) b in
    if negb (e =? 0) then (e, b1)
    else Wuxga.write_table_from wait client rest e
           (if Wuxga.addr r =? wait then emit (EvMsleep (Wuxga.data r)) b1
            else b1).
Proof.
  cbn [Wuxga.write_table_from]. cbv [Bind Ret msleep log].
  destruct (Wuxga.wuxga_write_reg client (Wuxga.addr r) (Wuxga.data r) b)
    as [e b1].
  destruct (negb (e =? 0)); [reflexivity | ].
  destruct (Wuxga.addr r =? wait); reflexivity.
Qed.

Lemma bridge_write_table_from_cons client r rest err b :
  Bridge.write_table_from client (r :: rest) err b =
    let b0 := if Bridge.addr r =? 0 then emit (EvMsleep (Bridge.data r)) b
              else b in
    let (e, b1) :=
      Bridge.bridge_write_reg client (Bridge.addr r) (Bridge.data r) b0 in
    if negb (e =? 0) then (e, b1)
    else Bridge.write_table_from client rest e b1.
Proof.
  cbn [Bridge.write_table_from]. cbv [Bind Ret msleep log].
  destruct (Bridge.addr r =? 0);
    match goal with |- context [Bridge.bridge_write_reg ?c ?a ?d ?x] =>
      destruct (Bridge.bridge_write_reg c a d x) as [e b1] end;
    destruct (negb (e =? 0)); reflexivity.
Qed.

(** On a bus that acknowledges everything the panel's player goes through
    the table in order; every entry, delay entries included, is
    transmitted, and a delay entry is followed by its sleep. *)
Lemma wuxga_write_table_from_acked wait l : forall err b,
  i2c_replies b = [] ->
  fst (Wuxga.write_table_from wait wired l err b)
    = match l with [] => err | _ => 0 end /\
  i2c_replies (snd (Wuxga.write_table_from wait wired l err b)) = [] /\
  trace (snd (Wuxga.write_table_from wait wired l err b)) =
    trace b ++ flat_map (wuxga_entry_events wait) l.
Proof.
  induction l as [ | r rest IH]; intros err b Hb.
  - cbn. rewrite app_nil_r. auto.
  - rewrite wuxga_write_table_from_cons. cbn [flat_map].
    destruct (wuxga_write_reg_acked (Wuxga.addr r) (Wuxga.data r) b Hb)
      as (Hf & Hr & Ht).
    destruct (Wuxga.wuxga_write_reg wired (Wuxga.addr r) (Wuxga.data r) b)
      as [e b1].
    cbn [fst snd] in Hf, Hr, Ht. subst e. cbn [Z.eqb negb].
    unfold wuxga_entry_events.
    set (b2 := if Wuxga.addr r =? wait then _ else b1).
    assert (Hr2 : i2c_replies b2 = [])
      by (subst b2; destruct (_ =? wait); exact Hr).
    assert (Ht2 : trace b2 = trace b1 ++
              (if Wuxga.addr r =? wait then [EvMsleep (Wuxga.data r)] else []))
      by (subst b2; destruct (_ =? wait);
          [reflexivity | rewrite app_nil_r; reflexivity]).
    clearbody b2.
    destruct (IH 0 b2 Hr2) as (H1 & H2 & H3).
    split; [ | split].
    + rewrite H1. destruct rest; reflexivity.
    + exact H2.
    + rewrite H3, Ht2, Ht, <- !app_assoc. reflexivity.
Qed.

(** The same for the bridge's player, which sleeps before it transmits a
    delay entry. *)
Lemma bridge_write_table_from_acked l : forall err b,
  i2c_replies b = [] ->
  fst (Bridge.write_table_from wired l err b)
    = match l with [] => err | _ => 0 end /\
  i2c_replies (snd (Bridge.write_table_from wired l err b)) = [] /\
  trace (snd (Bridge.write_table_from wired l err b)) =
    trace b ++ flat_map bridge_entry_events l.
Proof.
  induction l as [ | r rest IH]; intros err b Hb.
  - cbn. rewrite app_nil_r. auto.
  - rewrite bridge_write_table_from_cons. cbv zeta. cbn [flat_map].
    unfold bridge_entry_events.
    set (b0 := if Bridge.addr r =? 0 then _ else b).
    assert (Hr0 : i2c_replies b0 = [])
      by (subst b0; destruct (_ =? 0); exact Hb).
    assert (Ht0 : trace b0 = trace b ++
              (if Bridge.addr r =? 0 then [EvMsleep (Bridge.data r)] else []))
      by (subst b0; destruct (_ =? 0);
          [reflexivity | rewrite app_nil_r; reflexivity]).
    clearbody b0.
    destruct (bridge_write_reg_acked (Bridge.addr r) (Bridge.data r) b0 Hr0)
      as (Hf & Hr & Ht).
    destruct (Bridge.bridge_write_reg wired (Bridge.addr r) (Bridge.data r) b0)
      as [e b1].
    cbn [fst snd] in Hf, Hr, Ht. subst e. cbn [Z.eqb negb].
    destruct (IH 0 b1 Hr) as (H1 & H2 & H3).
    split; [ | split].
    + rewrite H1. destruct rest; reflexivity.
    + exact H2.
    + rewrite H3, Ht, Ht0, <- !app_assoc. reflexivity.
Qed.

(** Both players give up at the entry whose write fails: its error is
    returned and the rest of the table is not played. *)
Lemma write_table_from_stops_at_failure :
  (forall wait client r rest err b,
     fst (Wuxga.wuxga_write_reg client (Wuxga.addr r) (Wuxga.data r) b) <> 0 ->
     Wuxga.write_table_from wait client (r :: rest) err b =
       Wuxga.wuxga_write_reg client (Wuxga.addr r) (Wuxga.data r) b) /\
  (forall client r rest err b,
     Bridge.addr r <> 0 ->
     fst (Bridge.bridge_write_reg client (Bridge.addr r) (Bridge.data r) b) <> 0 ->
     Bridge.write_table_from client (r :: rest) err b =
       Bridge.bridge_write_reg client (Bridge.addr r) (Bridge.data r) b).
Proof.
  split.
  - intros wait client r rest err b Hf. rewrite wuxga_write_table_from_cons.
    destruct (Wuxga.wuxga_write_reg client (Wuxga.addr r) (Wuxga.data r) b)
      as [e b1].
    cbn [fst] in Hf. destruct (Z.eqb_spec e 0); [contradiction | reflexivity].
  - intros client r rest err b Ha Hf. rewrite bridge_write_table_from_cons.
    cbv zeta. destruct (Z.eqb_spec (Bridge.addr r) 0); [contradiction | ].
    destruct (Bridge.bridge_write_reg client (Bridge.addr r) (Bridge.data r) b)
      as [e b1].
    cbn [fst] in Hf. destruct (Z.eqb_spec e 0); [contradiction | reflexivity].
Qed.

(** ** The loader and the resume path, at the level of the driver's functions *)

Lemma firstn_array_size {A} (l : list A) : firstn (Z.to_nat (ARRAY_SIZE l)) l = l.
Proof. unfold ARRAY_SIZE. rewrite Nat2Z.id. apply firstn_all. Qed.

(** X1: on a bus that acknowledges every transfer, [ov2710_load_regs] sends
    exactly one 8-bit register write per entry of the mode's table, in the
    order of the table, and returns 0. *)
Theorem ov2710_load_regs_in_order mode b :
  reg_data_size mode = ARRAY_SIZE (reg_data mode) ->
  i2c_replies b = [] ->
  fst (ov2710_load_regs mode b) = 0 /\
  trace (snd (ov2710_load_regs mode b)) =
    trace b ++ map (fun r => reg_write_event r 3) (reg_data mode).
Proof.
  intros Hsize Hb. unfold ov2710_load_regs. rewrite Hsize, firstn_array_size.
  destruct (load_regs_from_acked (reg_data mode) 0 b Hb) as (H1 & _ & H3).
  split; [ | exact H3].
  rewrite H1. destruct (reg_data mode); reflexivity.
Qed.

Lemma ov2710_load_regs_in_order_witness :
  reg_data_size ov2710_mode_init_data
    = ARRAY_SIZE (reg_data ov2710_mode_init_data) /\
  i2c_replies quiet_board = [] /\
  fst (ov2710_load_regs ov2710_mode_init_data quiet_board) = 0 /\
  trace (snd (ov2710_load_regs ov2710_mode_init_data quiet_board)) =
    trace quiet_board
    ++ map (fun r => reg_write_event r 3) (reg_data ov2710_mode_init_data).
Proof.
  split; [reflexivity | ]. split; [reflexivity | ].
  apply (ov2710_load_regs_in_order ov2710_mode_init_data quiet_board);
    reflexivity.
Defined.

(** X2: [ov2710_load_regs] stops at the first write the bus refuses: the
    entries before it have each been written once, in order, the refused
    one has been tried once, -EIO is returned, and no later entry is sent. *)
Theorem ov2710_load_regs_stops_at_refusal mode l1 e l2 c rest b :
  reg_data mode = l1 ++ e :: l2 ->
  reg_data_size mode = ARRAY_SIZE (reg_data mode) ->
  c <> 3 ->
  i2c_replies b = repeat Full (List.length l1) ++ Code c :: rest ->
  fst (ov2710_load_regs mode b) = - EIO /\
  i2c_replies (snd (ov2710_load_regs mode b)) = rest /\
  trace (snd (ov2710_load_regs mode b)) =
    trace b ++ map (fun r => reg_write_event r 3) l1 ++ [reg_write_event e c].
Proof.
  intros Hdata Hsize Hc Hb. unfold ov2710_load_regs.
  rewrite Hsize, firstn_array_size, Hdata.
  apply load_regs_from_stops with (rest := rest); assumption.
Qed.

Lemma ov2710_load_regs_stops_at_refusal_witness :
  let mode := ov2710_mode_init_data in
  let l1 := firstn 6 (reg_data mode) in
  let e := RV 0x3712 0x0c in
  let l2 := skipn 7 (reg_data mode) in
  let b := nak_after 6 in
  reg_data mode = l1 ++ e :: l2 /\
  reg_data_size mode = ARRAY_SIZE (reg_data mode) /\
  - EIO <> 3 /\
  i2c_replies b = repeat Full (List.length l1) ++ Code (- EIO) :: [] /\
  fst (ov2710_load_regs mode b) = - EIO /\
  i2c_replies (snd (ov2710_load_regs mode b)) = [] /\
  trace (snd (ov2710_load_regs mode b)) =
    trace b ++ map (fun r => reg_write_event r 3) l1
            ++ [reg_write_event e (- EIO)].
Proof.
  cbv zeta.
  split; [reflexivity | ]. split; [reflexivity | ].
  split; [discriminate | ]. split; [reflexivity | ].
  apply (ov2710_load_regs_stops_at_refusal ov2710_mode_init_data
           (firstn 6 (reg_data ov2710_mode_init_data)) (RV 0x3712 0x0c)
           (skipn 7 (reg_data ov2710_mode_init_data)) (- EIO) [] (nak_after 6));
    [reflexivity | reflexivity | discriminate | reflexivity].
Defined.

(** X3: when the stream-enable write of [ov2710_resume] is refused on a sensor
    that was streaming, the driver writes stream-disable, clears
    [is_streaming] and returns the error. *)
Theorem ov2710_resume_failure_clears_streaming sensor b :
  is_streaming sensor = true ->
  next_reply 3 b <> 3 ->
  let r := ov2710_resume sensor b in
  fst r = (- EIO, set_is_streaming false sensor) /\
  exists ret,
    trace (snd r) = trace b ++ [EvI2cSend [0x30; 0x08; 0xbf] (next_reply 3 b);
                                EvI2cSend [0x30; 0x08; 0x40] ret].
Proof.
  intros Hs Hnak. cbv zeta.
  assert (Hrun : ov2710_resume sensor b =
                 (- EIO, set_is_streaming false sensor,
                  snd (ov2710_stream_disable (snd (ov2710_stream_enable b))))).
  { unfold ov2710_resume. rewrite Hs. cbv [Bind Ret].
    pose proof (ov2710_write_reg_fst OV2710_REG_STREAM_CTRL
                  (Z.lnot OV2710_REG_STREAM_CTRL_SLEEP) b) as Hf.
    unfold ov2710_stream_enable.
    destruct (ov2710_write_reg OV2710_REG_STREAM_CTRL
                (Z.lnot OV2710_REG_STREAM_CTRL_SLEEP) b) as [ret b1].
    cbn [fst snd] in *.
    destruct (Z.eqb_spec (next_reply 3 b) 3); [contradiction | ].
    subst ret. change (- EIO <? 0) with true. cbv beta iota.
    destruct (ov2710_stream_disable b1). reflexivity. }
  rewrite Hrun. cbn [fst snd]. split; [reflexivity | ].
  unfold ov2710_stream_disable, ov2710_stream_enable.
  eexists. rewrite !ov2710_write_reg_trace, <- app_assoc. reflexivity.
Qed.

Lemma ov2710_resume_failure_clears_streaming_witness :
  let r := ov2710_resume streaming_sensor (nak_after 0) in
  is_streaming streaming_sensor = true /\
  next_reply 3 (nak_after 0) <> 3 /\
  fst r = (- EIO, set_is_streaming false streaming_sensor) /\
  exists ret,
    trace (snd r) =
      trace (nak_after 0)
      ++ [EvI2cSend [0x30; 0x08; 0xbf] (next_reply 3 (nak_after 0));
          EvI2cSend [0x30; 0x08; 0x40] ret].
Proof.
  cbv zeta. split; [reflexivity | ]. split; [discriminate | ].
  apply (ov2710_resume_failure_clears_streaming streaming_sensor (nak_after 0));
    [reflexivity | discriminate].
Defined.

(** X4: [ov2710_suspend] never reports a bus error: it returns 0 whether or not
    the stream-disable write it issues on a streaming sensor went through,
    and issues nothing on a sensor that is not streaming. *)
Theorem ov2710_suspend_always_succeeds sensor b :
  fst (ov2710_suspend sensor b) = 0 /\
  trace (snd (ov2710_suspend sensor b)) =
    trace b ++ (if is_streaming sensor
                then [EvI2cSend [0x30; 0x08; 0x40] (next_reply 3 b)]
                else []).
Proof.
  unfold ov2710_suspend. cbv [Bind Ret].
  destruct (is_streaming sensor).
  - unfold ov2710_stream_disable.
    pose proof (ov2710_write_reg_trace OV2710_REG_STREAM_CTRL
                  OV2710_REG_STREAM_CTRL_SLEEP b) as Ht.
    destruct (ov2710_write_reg OV2710_REG_STREAM_CTRL
                OV2710_REG_STREAM_CTRL_SLEEP b) as [ret b1].
    cbn [fst snd] in *. split; [reflexivity | exact Ht].
  - cbn [fst snd]. rewrite app_nil_r. split; reflexivity.
Qed.

(** * Further properties of the sensor driver *)

(** ** Registers: what is written is what is read *)

Lemma be_join_2 v : u8 (Z.shiftr v 8) * 256 + u8 v = v mod 65536.
Proof.
  rewrite Z.shiftr_div_pow2 by lia. unfold u8. change (2 ^ 8) with 256.
  Z.div_mod_to_equations. lia.
Qed.

Lemma be_join_3 v :
  (u8 (Z.shiftr v 16) * 256 + u8 (Z.shiftr v 8)) * 256 + u8 v = v mod 16777216.
Proof.
  rewrite !Z.shiftr_div_pow2 by lia. unfold u8. change (2 ^ 8) with 256.
  change (2 ^ 16) with 65536.
  Z.div_mod_to_equations. lia.
Qed.

Lemma be_join_4 v :
  ((u8 (Z.shiftr v 24) * 256 + u8 (Z.shiftr v 16)) * 256 + u8 (Z.shiftr v 8)) * 256
  + u8 v = v mod 4294967296.
Proof.
  rewrite !Z.shiftr_div_pow2 by lia. unfold u8. change (2 ^ 8) with 256.
  change (2 ^ 16) with 65536. change (2 ^ 24) with 16777216.
  Z.div_mod_to_equations. lia.
Qed.

Lemma get_unaligned_be_bytes n v :
  (1 <= n <= 4)%nat ->
  get_unaligned_be (be_bytes n v) = v mod 2 ^ (8 * Z.of_nat n).
Proof.
  intros Hn.
  assert (Hcases : n = 1%nat \/ n = 2%nat \/ n = 3%nat \/ n = 4%nat) by lia.
  destruct Hcases as [-> | [-> | [-> | ->] ] ].
  - change (get_unaligned_be (be_bytes 1 v)) with (0 * 256 + u8 (Z.shiftr v 0)).
    rewrite Z.shiftr_0_r. reflexivity.
  - change (get_unaligned_be (be_bytes 2 v))
      with ((0 * 256 + u8 (Z.shiftr v 8)) * 256 + u8 (Z.shiftr v 0)).
    rewrite Z.shiftr_0_r. apply be_join_2.
  - change (get_unaligned_be (be_bytes 3 v))
      with (((0 * 256 + u8 (Z.shiftr v 16)) * 256 + u8 (Z.shiftr v 8)) * 256
            + u8 (Z.shiftr v 0)).
    rewrite Z.shiftr_0_r. apply be_join_3.
  - change (get_unaligned_be (be_bytes 4 v))
      with ((((0 * 256 + u8 (Z.shiftr v 24)) * 256 + u8 (Z.shiftr v 16)) * 256
             + u8 (Z.shiftr v 8)) * 256 + u8 (Z.shiftr v 0)).
    rewrite Z.shiftr_0_r. apply be_join_4.
Qed.

Lemma u8_idem x : u8 (u8 x) = u8 x.
Proof. apply u8_small, u8_range. Qed.

Lemma map_u8_be_bytes n v : map u8 (be_bytes n v) = be_bytes n v.
Proof.
  induction n as [ | n IH]; cbn [be_bytes map]; [reflexivity | ].
  rewrite u8_idem, IH. reflexivity.
Qed.

Lemma length_be_bytes n v : List.length (be_bytes n v) = n.
Proof. induction n as [ | n IH]; cbn [be_bytes List.length]; congruence. Qed.

(** A burst stored at [addr] leaves the registers below [addr] alone. *)
Lemma store_bytes_below payload : forall addr r a,
  a < addr -> store_bytes addr payload r a = r a.
Proof.
  induction payload as [ | x rest IH]; intros addr r a Ha; cbn [store_bytes].
  - reflexivity.
  - rewrite IH by lia. destruct (Z.eqb_spec a addr); [lia | reflexivity].
Qed.

(** ... and the registers past its end. *)
Lemma store_bytes_above payload : forall addr r a,
  addr + Z.of_nat (List.length payload) <= a -> store_bytes addr payload r a = r a.
Proof.
  induction payload as [ | x rest IH]; intros addr r a Ha; cbn [store_bytes].
  - reflexivity.
  - cbn [List.length] in Ha. rewrite IH by lia.
    destruct (Z.eqb_spec a addr); [lia | reflexivity].
Qed.

(** Reading back the registers a burst went to gives the burst. *)
Lemma fetch_store_bytes payload : forall addr r,
  fetch_bytes (List.length payload) addr (store_bytes addr payload r)
    = map u8 payload.
Proof.
  induction payload as [ | x rest IH]; intros addr r;
    cbn [List.length fetch_bytes store_bytes map].
  - reflexivity.
  - rewrite store_bytes_below by lia. rewrite Z.eqb_refl, IH. reflexivity.
Qed.

Lemma u8_u32 x : u8 (u32 x) = u8 x.
Proof.
  apply Z.bits_inj'. intros i Hi. destruct (Z.ltb_spec i 8).
  - rewrite !u8_testbit, u32_testbit by lia. reflexivity.
  - unfold u8. change 256 with (2 ^ 8).
    rewrite !Z.mod_pow2_bits_high by lia. reflexivity.
Qed.

(** What a register write of [len] bytes puts on the wire and returns. *)
Lemma ov2710_write_reg_len_run reg len v b :
  1 <= len <= 4 ->
  let buf := [u8 (Z.shiftr (u16 reg) 8); u8 (u16 reg)]
             ++ be_bytes (Z.to_nat len) v in
  let r := next_reply (len + 2) b in
  let b1 := set_i2c_replies (tl (i2c_replies b)) b in
  __ov2710_write_reg reg len v b =
    (if r =? len + 2 then 0 else - EIO,
     emit (EvI2cSend buf r)
          (if r =? len + 2 then set_regs (latch buf (regs b1)) b1 else b1)).
Proof.
  intros Hlen. cbv zeta.
  assert (Hlast : u8 (u32 (Z.shiftl (u32 v) 0)) = u8 v).
  { rewrite Z.shiftl_0_r, !u8_u32. reflexivity. }
  assert (Hcases : len = 1 \/ len = 2 \/ len = 3 \/ len = 4) by lia.
  destruct Hcases as [-> | [-> | [-> | ->] ] ];
    unfold __ov2710_write_reg; cbv [Bind Ret i2c_master_send].
  - change (4 <? 1) with false. change (1 + 2) with 3.
    change (8 * (4 - 1)) with 24. change (Z.to_nat 3) with 3%nat.
    change (Z.to_nat 1) with 1%nat. cbv iota.
    cbn [put_unaligned_be16 put_unaligned_be32 app firstn be_bytes Z.of_nat Z.mul].
    rewrite (payload_byte v 24 24) by lia.
    change (24 - 24) with 0.
    destruct (next_reply 3 b =? 3); reflexivity.
  - change (4 <? 2) with false. change (2 + 2) with 4.
    change (8 * (4 - 2)) with 16. change (Z.to_nat 4) with 4%nat.
    change (Z.to_nat 2) with 2%nat. cbv iota.
    cbn [put_unaligned_be16 put_unaligned_be32 app firstn be_bytes Z.of_nat
         Pos.of_succ_nat Z.mul Pos.mul].
    rewrite (payload_byte v 16 24), (payload_byte v 16 16) by lia.
    change (24 - 16) with 8. change (16 - 16) with 0.
    destruct (next_reply 4 b =? 4); reflexivity.
  - change (4 <? 3) with false. change (3 + 2) with 5.
    change (8 * (4 - 3)) with 8. change (Z.to_nat 5) with 5%nat.
    change (Z.to_nat 3) with 3%nat. cbv iota.
    cbn [put_unaligned_be16 put_unaligned_be32 app firstn be_bytes Z.of_nat
         Pos.of_succ_nat Pos.succ Z.mul Pos.mul].
    rewrite (payload_byte v 8 24), (payload_byte v 8 16), (payload_byte v 8 8)
      by lia.
    change (24 - 8) with 16. change (16 - 8) with 8. change (8 - 8) with 0.
    destruct (next_reply 5 b =? 5); reflexivity.
  - change (4 <? 4) with false. change (4 + 2) with 6.
    change (8 * (4 - 4)) with 0. change (Z.to_nat 6) with 6%nat.
    change (Z.to_nat 4) with 4%nat. cbv iota.
    cbn [put_unaligned_be16 put_unaligned_be32 app firstn be_bytes Z.of_nat
         Pos.of_succ_nat Pos.succ Z.mul Pos.mul].
    rewrite (payload_byte v 0 24), (payload_byte v 0 16), (payload_byte v 0 8)
      by lia.
    rewrite Hlast.
    change (24 - 0) with 24. change (16 - 0) with 16. change (8 - 0) with 8.
    destruct (next_reply 6 b =? 6); reflexivity.
Qed.

(** What a register read of [len] bytes puts on the wire and brings back. *)
Lemma ov2710_read_reg_len_run reg len b :
  len <= 4 ->
  let r := next_reply 2 b in
  __ov2710_read_reg reg len b =
    (if r =? 2
     then (0, get_unaligned_be (fetch_bytes (Z.to_nat len) (u16 reg) (regs b)))
     else (- EIO, 0),
     emit (EvI2cTransfer (read_msgs reg len) r)
          (set_i2c_replies (tl (i2c_replies b)) b)).
Proof.
  intros Hlen. cbv zeta. unfold __ov2710_read_reg, read_msgs.
  destruct (Z.ltb_spec 4 len); [lia | ].
  cbv [Bind Ret i2c_transfer ARRAY_SIZE List.length msg_buf msg_flags msg_len].
  change (Z.of_nat 2) with 2. cbv iota beta.
  change (I2C_M_RD =? I2C_M_RD) with true.
  rewrite addr_bytes_join by apply u16_range.
  destruct (next_reply 2 b =? 2); cbn [negb andb]; reflexivity.
Qed.

(** A register write of [len] bytes on a bus that acknowledges everything:
    it succeeds, the [len] registers from [reg] on hold the bytes of the
    value, and no other register has changed. *)
Lemma ov2710_write_reg_len_acked reg len v b :
  1 <= len <= 4 ->
  i2c_replies b = [] ->
  exists b',
    __ov2710_write_reg reg len v b = (0, b') /\
    i2c_replies b' = [] /\
    fetch_bytes (Z.to_nat len) (u16 reg) (regs b') = be_bytes (Z.to_nat len) v /\
    (forall a, a < u16 reg \/ u16 reg + len <= a -> regs b' a = regs b a).
Proof.
  intros Hlen Hb. rewrite ov2710_write_reg_len_run by exact Hlen. cbv zeta.
  unfold next_reply. rewrite Hb. rewrite Z.eqb_refl.
  eexists. split; [reflexivity | ].
  cbn [i2c_replies regs emit set_regs set_i2c_replies tl app latch].
  assert (Haddr : u8 (Z.shiftr (u16 reg) 8) * 256 + u8 (u16 reg) = u16 reg).
  { rewrite <- (u8_land_ff (u16 reg)). apply addr_bytes_join, u16_range. }
  rewrite Haddr. split; [reflexivity | split].
  - rewrite <- (length_be_bytes (Z.to_nat len) v) at 1.
    rewrite fetch_store_bytes. apply map_u8_be_bytes.
  - intros a [Ha | Ha].
    + apply store_bytes_below. exact Ha.
    + apply store_bytes_above. rewrite length_be_bytes. lia.
Qed.

(** A register read on such a bus decodes what the registers hold and
    changes none of them. *)
Lemma ov2710_read_reg_len_acked reg len b :
  len <= 4 ->
  i2c_replies b = [] ->
  exists b',
    __ov2710_read_reg reg len b =
      (0, get_unaligned_be (fetch_bytes (Z.to_nat len) (u16 reg) (regs b)), b') /\
    i2c_replies b' = [] /\ regs b' = regs b.
Proof.
  intros Hlen Hb. rewrite ov2710_read_reg_len_run by exact Hlen. cbv zeta.
  unfold next_reply. rewrite Hb. cbn [Z.eqb Pos.eqb].
  eexists. split; [reflexivity | ]. split; reflexivity.
Qed.

(** X5: on a bus that acknowledges every transfer, a register written with
    [__ov2710_write_reg] and read back with [__ov2710_read_reg] at the same
    address and width (1 to 4 bytes) gives the value written, cut to that
    width. *)
Theorem ov2710_reg_write_read_round_trip reg len v b :
  1 <= len <= 4 ->
  i2c_replies b = [] ->
  let w := __ov2710_write_reg reg len v b in
  fst w = 0 /\
  fst (__ov2710_read_reg reg len (snd w)) = (0, v mod 2 ^ (8 * len)).
Proof.
  intros Hlen Hb. cbv zeta.
  destruct (ov2710_write_reg_len_acked reg len v b Hlen Hb)
    as (b1 & Hw & Hb1 & Hfetch & _).
  rewrite Hw. cbn [fst snd]. split; [reflexivity | ].
  destruct (ov2710_read_reg_len_acked reg len b1 (proj2 Hlen) Hb1)
    as (b2 & Hr & _ & _).
  rewrite Hr. cbn [fst]. rewrite Hfetch.
  rewrite get_unaligned_be_bytes by lia.
  rewrite Z2Nat.id by lia. reflexivity.
Qed.

Lemma ov2710_reg_write_read_round_trip_witness :
  1 <= 2 <= 4 /\
  i2c_replies quiet_board = [] /\
  let w := __ov2710_write_reg OV2710_REG_GAIN_PK 2 0x1a5 quiet_board in
  fst w = 0 /\
  fst (__ov2710_read_reg OV2710_REG_GAIN_PK 2 (snd w)) = (0, 0x1a5 mod 2 ^ (8 * 2)).
Proof.
  split; [lia | ]. split; [reflexivity | ].
  apply (ov2710_reg_write_read_round_trip OV2710_REG_GAIN_PK 2 0x1a5 quiet_board);
    [lia | reflexivity].
Defined.

(** The read-modify-write helper on a bus that acknowledges everything. *)
Lemma ov2710_mod_reg_acked reg mask val b :
  i2c_replies b = [] ->
  exists b',
    ov2710_mod_reg reg mask val b = (0, b') /\
    i2c_replies b' = [] /\
    regs b' (u16 reg) = merged (u8 (regs b (u16 reg))) mask val /\
    (forall a, a <> u16 reg -> regs b' a = regs b a).
Proof.
  intros Hb. rewrite ov2710_mod_reg_run. cbv zeta.
  unfold next_reply at 1. rewrite Hb. cbn [Z.eqb Pos.eqb].
  rewrite ov2710_write_reg_run. cbv zeta.
  unfold next_reply. cbn [i2c_replies emit set_i2c_replies tl]. rewrite Hb.
  cbn [tl Z.eqb Pos.eqb].
  eexists. split; [reflexivity | ].
  cbn [i2c_replies regs emit set_regs set_i2c_replies latch store_bytes].
  assert (Haddr : u8 (Z.shiftr (u16 reg) 8) * 256 + u8 (u16 reg) = u16 reg).
  { rewrite <- (u8_land_ff (u16 reg)). apply addr_bytes_join, u16_range. }
  rewrite Haddr. split; [reflexivity | split].
  - rewrite Z.eqb_refl. apply u8_small, merged_range.
  - intros a Ha. destruct (Z.eqb_spec a (u16 reg)); [contradiction | reflexivity].
Qed.

(** ** Exposure and gain: what is set is what is read back *)

(** The exposure value, shifted up four bits for the register and down
    again on the way back, keeps its 20 low bits. *)
Lemma exposure_pack e :
  Z.shiftr (u32 (Z.shiftl (u32 e) 4) mod 2 ^ (8 * 3)) 4 = e mod 2 ^ 20.
Proof.
  rewrite Z.shiftr_div_pow2, Z.shiftl_mul_pow2 by lia. unfold u32.
  change (2 ^ (8 * 3)) with 16777216. change (2 ^ 4) with 16.
  change (2 ^ 20) with 1048576.
  Z.div_mod_to_equations. lia.
Qed.

(** Manual exposure on a bus that acknowledges everything. *)
Lemma ov2710_exposure_set_manual_acked sensor b :
  is_new (exposure (ctrls sensor)) = true ->
  i2c_replies b = [] ->
  exists b',
    ov2710_exposure_set sensor false b = (0, b') /\
    i2c_replies b' = [] /\
    Z.testbit (regs b' OV2710_REG_R_MANUAL) 0 = true /\
    fetch_bytes 3 OV2710_REG_EXPOSURE_PK_HIGH (regs b') =
      be_bytes 3 (u32 (Z.shiftl (u32 (cval (exposure (ctrls sensor)))) 4)).
Proof.
  intros Hnew Hb. unfold ov2710_exposure_set. cbv [Bind].
  destruct (ov2710_mod_reg_acked OV2710_REG_R_MANUAL (BIT 0) (BIT 0) b Hb)
    as (b1 & Hm & Hb1 & Hreg & _).
  rewrite Hm. rewrite Hnew. cbn [Z.ltb Z.compare orb negb].
  unfold ov2710_write_reg24.
  destruct (ov2710_write_reg_len_acked OV2710_REG_EXPOSURE_PK_HIGH
              OV2710_REG_VALUE_24BIT
              (u32 (Z.shiftl (u32 (cval (exposure (ctrls sensor)))) 4)) b1
              ltac:(unfold OV2710_REG_VALUE_24BIT; lia) Hb1)
    as (b2 & Hw & Hb2 & Hfetch & Hother).
  exists b2. split; [exact Hw | ]. split; [exact Hb2 | ]. split.
  - rewrite Hother by (right; vm_compute; discriminate).
    change OV2710_REG_R_MANUAL with (u16 OV2710_REG_R_MANUAL) at 1.
    rewrite Hreg. rewrite merged_bits by lia. reflexivity.
  - exact Hfetch.
Qed.

(** Reading the exposure back from registers that hold a shifted value. *)
Lemma ov2710_exposure_get_acked e b :
  i2c_replies b = [] ->
  fetch_bytes 3 OV2710_REG_EXPOSURE_PK_HIGH (regs b) =
    be_bytes 3 (u32 (Z.shiftl (u32 e) 4)) ->
  fst (ov2710_exposure_get b) = e mod 2 ^ 20.
Proof.
  intros Hb Hfetch.
  unfold ov2710_exposure_get, ov2710_read_reg24. cbv [Bind].
  destruct (ov2710_read_reg_len_acked OV2710_REG_EXPOSURE_PK_HIGH
              OV2710_REG_VALUE_24BIT b
              ltac:(unfold OV2710_REG_VALUE_24BIT; lia) Hb)
    as (b2 & Hr & _ & _).
  rewrite Hr. cbn [Z.eqb negb Ret fst].
  change (Z.to_nat OV2710_REG_VALUE_24BIT) with 3%nat.
  change (u16 OV2710_REG_EXPOSURE_PK_HIGH) with OV2710_REG_EXPOSURE_PK_HIGH.
  rewrite Hfetch. rewrite get_unaligned_be_bytes by lia.
  apply exposure_pack.
Qed.

(** X6: on a bus that acknowledges every transfer, [ov2710_exposure_set]
    in manual mode with a new exposure value returns 0 and sets the
    manual-exposure bit of R_MANUAL, and [ov2710_exposure_get] then returns
    the 20 low bits of that value. *)
Theorem ov2710_exposure_set_get_round_trip sensor b :
  is_new (exposure (ctrls sensor)) = true ->
  i2c_replies b = [] ->
  let w := ov2710_exposure_set sensor false b in
  fst w = 0 /\
  Z.testbit (regs (snd w) OV2710_REG_R_MANUAL) 0 = true /\
  fst (ov2710_exposure_get (snd w)) = cval (exposure (ctrls sensor)) mod 2 ^ 20.
Proof.
  intros Hnew Hb. cbv zeta.
  destruct (ov2710_exposure_set_manual_acked sensor b Hnew Hb)
    as (b1 & Hs & Hb1 & Hbit & Hfetch).
  rewrite Hs. cbn [fst snd]. split; [reflexivity | ]. split; [exact Hbit | ].
  apply ov2710_exposure_get_acked; assumption.
Qed.

Lemma ov2710_exposure_set_get_round_trip_witness :
  is_new (exposure (ctrls manual_exposure_sensor)) = true /\
  i2c_replies quiet_board = [] /\
  let w := ov2710_exposure_set manual_exposure_sensor false quiet_board in
  fst w = 0 /\
  Z.testbit (regs (snd w) OV2710_REG_R_MANUAL) 0 = true /\
  fst (ov2710_exposure_get (snd w)) =
    cval (exposure (ctrls manual_exposure_sensor)) mod 2 ^ 20.
Proof.
  split; [reflexivity | ]. split; [reflexivity | ].
  apply (ov2710_exposure_set_get_round_trip manual_exposure_sensor quiet_board);
    reflexivity.
Defined.

(** Manual gain on a bus that acknowledges everything. *)
Lemma ov2710_gain_set_manual_acked sensor b :
  is_new (gain (ctrls sensor)) = true ->
  i2c_replies b = [] ->
  exists b',
    ov2710_gain_set sensor false b = (0, b') /\
    i2c_replies b' = [] /\
    Z.testbit (regs b' OV2710_REG_R_MANUAL) 1 = true /\
    fetch_bytes 2 OV2710_REG_GAIN_PK (regs b') =
      be_bytes 2 (u32 (cval (gain (ctrls sensor)))).
Proof.
  intros Hnew Hb. unfold ov2710_gain_set. cbv [Bind].
  destruct (ov2710_mod_reg_acked OV2710_REG_R_MANUAL (BIT 1) (BIT 1) b Hb)
    as (b1 & Hm & Hb1 & Hreg & _).
  rewrite Hm. rewrite Hnew. cbn [Z.ltb Z.compare orb negb].
  unfold ov2710_write_reg16.
  destruct (ov2710_write_reg_len_acked OV2710_REG_GAIN_PK
              OV2710_REG_VALUE_16BIT (u32 (cval (gain (ctrls sensor)))) b1
              ltac:(unfold OV2710_REG_VALUE_16BIT; lia) Hb1)
    as (b2 & Hw & Hb2 & Hfetch & Hother).
  exists b2. rewrite Hw. split; [reflexivity | ]. split; [exact Hb2 | ]. split.
  - rewrite Hother by (left; vm_compute; reflexivity).
    change OV2710_REG_R_MANUAL with (u16 OV2710_REG_R_MANUAL) at 1.
    rewrite Hreg. rewrite merged_bits by lia. reflexivity.
  - exact Hfetch.
Qed.

(** X7: with auto gain off and a new gain value, setting the gain control
    on a powered sensor whose bus acknowledges every transfer returns 0
    and sets the manual-gain bit, and refreshing the control with
    [ov2710_g_volatile_ctrl] then stores the 16 low bits of that value in
    the control. *)
Theorem ov2710_gain_control_round_trip beyond sensor v b :
  is_enabled sensor = true ->
  cval (auto_gain (ctrls sensor)) = 0 ->
  is_new (gain (ctrls sensor)) = true ->
  i2c_replies b = [] ->
  let w := ov2710_s_ctrl beyond sensor V4L2_CID_GAIN v b in
  let r := ov2710_g_volatile_ctrl sensor V4L2_CID_GAIN (snd w) in
  fst w = (0, sensor) /\
  Z.testbit (regs (snd w) OV2710_REG_R_MANUAL) 1 = true /\
  fst (fst r) = 0 /\
  cval (gain (ctrls (snd (fst r)))) = cval (gain (ctrls sensor)) mod 2 ^ 16.
Proof.
  intros Hen Hauto Hnew Hb. cbv zeta.
  unfold ov2710_s_ctrl, ov2710_g_volatile_ctrl. rewrite Hen, Hauto.
  cbn [negb notnot Z.eqb]. cbv [Bind].
  destruct (ov2710_gain_set_manual_acked sensor b Hnew Hb)
    as (b1 & Hs & Hb1 & Hbit & Hfetch).
  change (notnot 0) with false. rewrite Hs. cbn [Ret fst snd].
  split; [reflexivity | ]. split; [exact Hbit | ].
  unfold ov2710_gain_get, ov2710_read_reg16. cbv [Bind].
  destruct (ov2710_read_reg_len_acked OV2710_REG_GAIN_PK
              OV2710_REG_VALUE_16BIT b1
              ltac:(unfold OV2710_REG_VALUE_16BIT; lia) Hb1)
    as (b2 & Hr & _ & _).
  rewrite Hr. cbn [Z.eqb negb Ret].
  change (Z.to_nat OV2710_REG_VALUE_16BIT) with 2%nat.
  change (u16 OV2710_REG_GAIN_PK) with OV2710_REG_GAIN_PK.
  rewrite Hfetch. rewrite get_unaligned_be_bytes by lia.
  change (8 * Z.of_nat 2) with 16.
  assert (Hv : u32 (cval (gain (ctrls sensor))) mod 2 ^ 16
               = cval (gain (ctrls sensor)) mod 2 ^ 16).
  { unfold u32. change (2 ^ 16) with 65536. Z.div_mod_to_equations. lia. }
  rewrite Hv.
  destruct (Z.ltb_spec (cval (gain (ctrls sensor)) mod 2 ^ 16) 0) as [Hneg | _].
  - pose proof (Z.mod_pos_bound (cval (gain (ctrls sensor))) (2 ^ 16)). lia.
  - cbn [fst snd ctrls set_ctrls gain set_gain_val cval]. split; reflexivity.
Qed.

Lemma ov2710_gain_control_round_trip_witness :
  is_enabled manual_gain_sensor = true /\
  cval (auto_gain (ctrls manual_gain_sensor)) = 0 /\
  is_new (gain (ctrls manual_gain_sensor)) = true /\
  i2c_replies quiet_board = [] /\
  let w := ov2710_s_ctrl (fun _ => 0) manual_gain_sensor V4L2_CID_GAIN 0x123
             quiet_board in
  let r := ov2710_g_volatile_ctrl manual_gain_sensor V4L2_CID_GAIN (snd w) in
  fst w = (0, manual_gain_sensor) /\
  Z.testbit (regs (snd w) OV2710_REG_R_MANUAL) 1 = true /\
  fst (fst r) = 0 /\
  cval (gain (ctrls (snd (fst r)))) =
    cval (gain (ctrls manual_gain_sensor)) mod 2 ^ 16.
Proof.
  split; [reflexivity | ]. split; [reflexivity | ].
  split; [reflexivity | ]. split; [reflexivity | ].
  apply (ov2710_gain_control_round_trip (fun _ => 0) manual_gain_sensor 0x123
           quiet_board);
    reflexivity.
Defined.

(** X8: on a powered sensor, a refresh of the gain or exposure control
    whose register read the bus refuses returns -EIO and leaves the stored
    control values as they were. *)
Theorem ov2710_g_volatile_ctrl_read_failure sensor id c rest b :
  is_enabled sensor = true ->
  id = V4L2_CID_GAIN \/ id = V4L2_CID_EXPOSURE ->
  i2c_replies b = Code c :: rest ->
  c <> 2 ->
  fst (ov2710_g_volatile_ctrl sensor id b) = (- EIO, sensor).
Proof.
  intros Hen Hid Hb Hc. unfold ov2710_g_volatile_ctrl. rewrite Hen.
  cbn [negb].
  destruct Hid as [-> | ->]; cbv [Bind];
    unfold ov2710_gain_get, ov2710_exposure_get, ov2710_read_reg16,
      ov2710_read_reg24; cbv [Bind];
    rewrite ov2710_read_reg_len_run
      by (unfold OV2710_REG_VALUE_16BIT, OV2710_REG_VALUE_24BIT; lia);
    cbv zeta; unfold next_reply; rewrite Hb; cbn [reply_value];
    destruct (Z.eqb_spec c 2); try contradiction; reflexivity.
Qed.

Lemma ov2710_g_volatile_ctrl_read_failure_witness :
  is_enabled manual_gain_sensor = true /\
  (V4L2_CID_EXPOSURE = V4L2_CID_GAIN \/ V4L2_CID_EXPOSURE = V4L2_CID_EXPOSURE) /\
  i2c_replies (nak_after 0) = Code (- EIO) :: [] /\
  - EIO <> 2 /\
  fst (ov2710_g_volatile_ctrl manual_gain_sensor V4L2_CID_EXPOSURE (nak_after 0))
    = (- EIO, manual_gain_sensor).
Proof.
  split; [reflexivity | ]. split; [right; reflexivity | ].
  split; [reflexivity | ]. split; [discriminate | ].
  apply (ov2710_g_volatile_ctrl_read_failure manual_gain_sensor V4L2_CID_EXPOSURE
           (- EIO) [] (nak_after 0));
    [reflexivity | right; reflexivity | reflexivity | discriminate].
Defined.

(** ** Committing a mode on a bus that acknowledges everything *)

Lemma written_ext l : forall r r' a,
  (forall x, r x = r' x) -> written l r a = written l r' a.
Proof.
  induction l as [ | e rest IH]; intros r r' a H.
  - apply H.
  - cbn [written]. apply IH. intros x. rewrite H. reflexivity.
Qed.

(** The loader leaves in the registers what the entries say, later entries
    over earlier ones. *)
Lemma load_regs_from_acked_regs l : forall ret0 b a,
  i2c_replies b = [] ->
  regs (snd (load_regs_from l ret0 b)) a = written l (regs b) a.
Proof.
  induction l as [ | e rest IH]; intros ret0 b a Hb.
  - reflexivity.
  - cbn [load_regs_from written]. unfold Bind at 1.
    pose proof (ov2710_write_reg_run (reg_addr e) (val e) b) as Hrun.
    cbv zeta in Hrun. unfold next_reply in Hrun. rewrite Hb in Hrun.
    cbn [Z.eqb Pos.eqb tl] in Hrun. rewrite Hrun.
    cbn [Z.eqb negb].
    rewrite IH by reflexivity.
    apply written_ext. intros x.
    cbn [regs emit set_regs set_i2c_replies latch store_bytes].
    assert (Haddr : u8 (Z.shiftr (u16 (reg_addr e)) 8) * 256 + u8 (u16 (reg_addr e))
                    = u16 (reg_addr e)).
    { rewrite <- (u8_land_ff (u16 (reg_addr e))). apply addr_bytes_join, u16_range. }
    rewrite Haddr. reflexivity.
Qed.

(** Gain and exposure programming in either mode: it succeeds, the bus
    stays quiet, and in auto mode only the one bit of R_MANUAL changes. *)
Lemma ov2710_gain_set_acked sensor auto b :
  i2c_replies b = [] ->
  exists b',
    ov2710_gain_set sensor auto b = (0, b') /\
    i2c_replies b' = [] /\
    (auto = true ->
     regs b' OV2710_REG_R_MANUAL =
       merged (u8 (regs b OV2710_REG_R_MANUAL)) (BIT 1) 0 /\
     forall a, a <> OV2710_REG_R_MANUAL -> regs b' a = regs b a).
Proof.
  intros Hb. unfold ov2710_gain_set. cbv [Bind].
  destruct (ov2710_mod_reg_acked OV2710_REG_R_MANUAL (BIT 1)
              (if auto then 0 else BIT 1) b Hb) as (b1 & Hm & Hb1 & Hreg & Hother).
  rewrite Hm. cbn [Z.ltb Z.compare].
  destruct auto.
  - cbn [orb]. exists b1. split; [reflexivity | ]. split; [exact Hb1 | ].
    intros _. split; [exact Hreg | exact Hother].
  - cbn [orb]. destruct (is_new (gain (ctrls sensor))); cbn [negb].
    + unfold ov2710_write_reg16.
      destruct (ov2710_write_reg_len_acked OV2710_REG_GAIN_PK
                  OV2710_REG_VALUE_16BIT (u32 (cval (gain (ctrls sensor)))) b1
                  ltac:(unfold OV2710_REG_VALUE_16BIT; lia) Hb1)
        as (b2 & Hw & Hb2 & _).
      rewrite Hw. exists b2. split; [reflexivity | ]. split; [exact Hb2 | ].
      intros H. discriminate H.
    + exists b1. split; [reflexivity | ]. split; [exact Hb1 | ].
      intros H. discriminate H.
Qed.

Lemma ov2710_exposure_set_acked sensor auto b :
  i2c_replies b = [] ->
  exists b',
    ov2710_exposure_set sensor auto b = (0, b') /\
    i2c_replies b' = [] /\
    (auto = true ->
     regs b' OV2710_REG_R_MANUAL =
       merged (u8 (regs b OV2710_REG_R_MANUAL)) (BIT 0) 0 /\
     forall a, a <> OV2710_REG_R_MANUAL -> regs b' a = regs b a).
Proof.
  intros Hb. unfold ov2710_exposure_set. cbv [Bind].
  destruct (ov2710_mod_reg_acked OV2710_REG_R_MANUAL (BIT 0)
              (if auto then 0 else BIT 0) b Hb) as (b1 & Hm & Hb1 & Hreg & Hother).
  rewrite Hm. cbn [Z.ltb Z.compare].
  destruct auto.
  - cbn [orb]. exists b1. split; [reflexivity | ]. split; [exact Hb1 | ].
    intros _. split; [exact Hreg | exact Hother].
  - cbn [orb]. destruct (is_new (exposure (ctrls sensor))); cbn [negb].
    + unfold ov2710_write_reg24.
      destruct (ov2710_write_reg_len_acked OV2710_REG_EXPOSURE_PK_HIGH
                  OV2710_REG_VALUE_24BIT
                  (u32 (Z.shiftl (u32 (cval (exposure (ctrls sensor)))) 4)) b1
                  ltac:(unfold OV2710_REG_VALUE_24BIT; lia) Hb1)
        as (b2 & Hw & Hb2 & _).
      rewrite Hw. exists b2. split; [reflexivity | ]. split; [exact Hb2 | ].
      intros H. discriminate H.
    + exists b1. split; [reflexivity | ]. split; [exact Hb1 | ].
      intros H. discriminate H.
Qed.

(** The whole commit: the registers end as the mode's table leaves them,
    except the two auto bits of R_MANUAL, which are cleared for the
    controls that are in auto mode. *)
Lemma ov2710_mode_set_acked sensor b :
  i2c_replies b = [] ->
  exists r0 b',
    ov2710_mode_set sensor b = (0, set_mode_pending_changes false sensor, b') /\
    i2c_replies b' = [] /\
    (forall a, a <> OV2710_REG_R_MANUAL ->
       regs b' a =
         written (firstn (Z.to_nat (reg_data_size (current_mode sensor)))
                         (reg_data (current_mode sensor))) r0 a) /\
    (forall i, 0 <= i < 8 ->
       Z.testbit (regs b' OV2710_REG_R_MANUAL) i =
         if (i =? 1) && negb (cval (auto_gain (ctrls sensor)) =? 0) then false
         else if (i =? 0) && (cval (auto_exp (ctrls sensor)) =? V4L2_EXPOSURE_AUTO)
              then false
              else Z.testbit
                     (written (firstn (Z.to_nat (reg_data_size (current_mode sensor)))
                                      (reg_data (current_mode sensor))) r0
                              OV2710_REG_R_MANUAL) i).
Proof.
  intros Hb. unfold ov2710_mode_set. cbv [Bind].
  destruct (ov2710_gain_set_acked sensor false b Hb) as (b1 & Hg & Hb1 & _).
  rewrite Hg. cbn [Z.ltb Z.compare].
  destruct (ov2710_exposure_set_acked sensor false b1 Hb1) as (b2 & He & Hb2 & _).
  rewrite He. cbn [Z.ltb Z.compare].
  exists (regs b2).
  unfold ov2710_load_regs.
  set (T := firstn (Z.to_nat (reg_data_size (current_mode sensor)))
                   (reg_data (current_mode sensor))).
  destruct (load_regs_from_acked T 0 b2 Hb2) as (Hl1 & Hl2 & _).
  pose proof (fun a => load_regs_from_acked_regs T 0 b2 a Hb2) as Hl3.
  destruct (load_regs_from T 0 b2) as [r3 b3]. cbn [fst snd] in Hl1, Hl2, Hl3.
  assert (Hr3 : r3 = 0) by (rewrite Hl1; destruct T; reflexivity).
  clear Hl1. subst r3. cbn [Z.ltb Z.compare].
  destruct (Z.eqb_spec (cval (auto_gain (ctrls sensor))) 0) as [Hag | Hag];
    cbn [negb].
  - (* manual gain *)
    cbv [Ret]. cbn [Z.ltb Z.compare].
    destruct (Z.eqb_spec (cval (auto_exp (ctrls sensor))) V4L2_EXPOSURE_AUTO)
      as [Hae | Hae].
    + destruct (ov2710_exposure_set_acked sensor true b3 Hl2)
        as (b5 & He5 & Hb5 & Hx).
      destruct (Hx eq_refl) as (Hreg5 & Hoth5).
      rewrite He5. cbn [Z.ltb Z.compare].
      exists b5. split; [reflexivity | ]. split; [exact Hb5 | ]. split.
      * intros a Ha. rewrite Hoth5 by exact Ha. apply Hl3.
      * intros i Hi. rewrite Hreg5, merged_bits, u8_testbit by exact Hi.
        rewrite andb_false_r. cbn [andb]. rewrite andb_true_r.
        rewrite Hl3.
        assert (Hbit : Z.testbit (BIT 0) i = (i =? 0)).
        { assert (Hc : i = 0 \/ i = 1 \/ i = 2 \/ i = 3 \/ i = 4 \/ i = 5
                       \/ i = 6 \/ i = 7) by lia.
          repeat (destruct Hc as [-> | Hc]; [reflexivity | ]). subst i.
          reflexivity. }
        rewrite Hbit. destruct (i =? 0); [ | reflexivity].
        apply Z.testbit_0_l.
    + exists b3. split; [reflexivity | ]. split; [exact Hl2 | ]. split.
      * intros a _. apply Hl3.
      * intros i _. rewrite !andb_false_r. apply f_equal2; [apply Hl3 | reflexivity].
  - (* auto gain *)
    destruct (ov2710_gain_set_acked sensor true b3 Hl2) as (b4 & Hg4 & Hb4 & Hx4).
    destruct (Hx4 eq_refl) as (Hreg4 & Hoth4).
    rewrite Hg4. cbn [Z.ltb Z.compare].
    assert (Hbit1 : forall i, 0 <= i < 8 -> Z.testbit (BIT 1) i = (i =? 1)).
    { intros i Hi.
      assert (Hc : i = 0 \/ i = 1 \/ i = 2 \/ i = 3 \/ i = 4 \/ i = 5
                   \/ i = 6 \/ i = 7) by lia.
      repeat (destruct Hc as [-> | Hc]; [reflexivity | ]). subst i. reflexivity. }
    destruct (Z.eqb_spec (cval (auto_exp (ctrls sensor))) V4L2_EXPOSURE_AUTO)
      as [Hae | Hae].
    + destruct (ov2710_exposure_set_acked sensor true b4 Hb4)
        as (b5 & He5 & Hb5 & Hx).
      destruct (Hx eq_refl) as (Hreg5 & Hoth5).
      rewrite He5. cbn [Z.ltb Z.compare].
      exists b5. split; [reflexivity | ]. split; [exact Hb5 | ]. split.
      * intros a Ha. rewrite Hoth5, Hoth4 by exact Ha. apply Hl3.
      * intros i Hi. rewrite Hreg5, merged_bits, u8_testbit by exact Hi.
        rewrite Hreg4, merged_bits, u8_testbit by exact Hi.
        rewrite Hbit1 by exact Hi. rewrite !andb_true_r. rewrite Hl3.
        assert (Hbit : Z.testbit (BIT 0) i = (i =? 0)).
        { assert (Hc : i = 0 \/ i = 1 \/ i = 2 \/ i = 3 \/ i = 4 \/ i = 5
                       \/ i = 6 \/ i = 7) by lia.
          repeat (destruct Hc as [-> | Hc]; [reflexivity | ]). subst i.
          reflexivity. }
        rewrite Hbit. rewrite Z.testbit_0_l.
        destruct (i =? 0), (i =? 1); reflexivity.
    + cbv [Ret]. cbn [Z.ltb Z.compare].
      exists b4. split; [reflexivity | ]. split; [exact Hb4 | ]. split.
      * intros a Ha. rewrite Hoth4 by exact Ha. apply Hl3.
      * intros i Hi. rewrite Hreg4, merged_bits, u8_testbit by exact Hi.
        rewrite Hbit1 by exact Hi. rewrite !andb_true_r, andb_false_r.
        rewrite Hl3, Z.testbit_0_l. destruct (i =? 1); reflexivity.
Qed.

(** Both tables of the catalog end by zeroing the exposure and gain
    registers and by writing 0x17 to R_MANUAL. *)
Lemma catalog_tables_tail m r0 :
  In m ov2710_mode_data ->
  let T := firstn (Z.to_nat (reg_data_size m)) (reg_data m) in
  written T r0 OV2710_REG_GAIN_PK = 0 /\
  written T r0 (OV2710_REG_GAIN_PK + 1) = 0 /\
  written T r0 OV2710_REG_EXPOSURE_PK_HIGH = 0 /\
  written T r0 (OV2710_REG_EXPOSURE_PK_HIGH + 1) = 0 /\
  written T r0 (OV2710_REG_EXPOSURE_PK_HIGH + 1 + 1) = 0 /\
  written T r0 OV2710_REG_R_MANUAL = 0x17.
Proof.
  intros [<- | [<- | []]]; vm_compute; repeat split.
Qed.

(** X9: a mode commit on a bus that acknowledges every transfer, for either
    mode of the catalog, returns 0 and clears the pending flag; since the
    mode's table is loaded after the manual gain and exposure have been
    written, and zeroes their registers, both read back as 0 afterwards
    whatever the controls hold; the manual bits of R_MANUAL end set exactly
    for the controls that are not in auto mode. *)
Theorem ov2710_mode_set_table_overrides_gain_and_exposure sensor b :
  In (current_mode sensor) ov2710_mode_data ->
  i2c_replies b = [] ->
  let w := ov2710_mode_set sensor b in
  fst w = (0, set_mode_pending_changes false sensor) /\
  fst (ov2710_gain_get (snd w)) = 0 /\
  fst (ov2710_exposure_get (snd w)) = 0 /\
  Z.testbit (regs (snd w) OV2710_REG_R_MANUAL) 1 =
    (cval (auto_gain (ctrls sensor)) =? 0) /\
  Z.testbit (regs (snd w) OV2710_REG_R_MANUAL) 0 =
    negb (cval (auto_exp (ctrls sensor)) =? V4L2_EXPOSURE_AUTO).
Proof.
  intros Hin Hb. cbv zeta.
  destruct (ov2710_mode_set_acked sensor b Hb) as (r0 & b' & Hm & Hb' & Hregs & Hbits).
  destruct (catalog_tables_tail (current_mode sensor) r0 Hin)
    as (Hg0 & Hg1 & He0 & He1 & He2 & Hman).
  rewrite Hm. cbn [fst snd]. split; [reflexivity | ].
  split; [ | split; [ | split] ].
  - unfold ov2710_gain_get, ov2710_read_reg16. cbv [Bind].
    destruct (ov2710_read_reg_len_acked OV2710_REG_GAIN_PK OV2710_REG_VALUE_16BIT b'
                ltac:(unfold OV2710_REG_VALUE_16BIT; lia) Hb') as (b2 & Hr & _ & _).
    rewrite Hr. cbn [Z.eqb negb Ret fst].
    change (Z.to_nat OV2710_REG_VALUE_16BIT) with 2%nat.
    change (u16 OV2710_REG_GAIN_PK) with OV2710_REG_GAIN_PK.
    cbn [fetch_bytes].
    rewrite !Hregs by (vm_compute; discriminate).
    rewrite Hg0, Hg1. reflexivity.
  - unfold ov2710_exposure_get, ov2710_read_reg24. cbv [Bind].
    destruct (ov2710_read_reg_len_acked OV2710_REG_EXPOSURE_PK_HIGH
                OV2710_REG_VALUE_24BIT b'
                ltac:(unfold OV2710_REG_VALUE_24BIT; lia) Hb') as (b2 & Hr & _ & _).
    rewrite Hr. cbn [Z.eqb negb Ret fst].
    change (Z.to_nat OV2710_REG_VALUE_24BIT) with 3%nat.
    change (u16 OV2710_REG_EXPOSURE_PK_HIGH) with OV2710_REG_EXPOSURE_PK_HIGH.
    cbn [fetch_bytes].
    rewrite !Hregs by (vm_compute; discriminate).
    rewrite He0, He1, He2. reflexivity.
  - rewrite Hbits by lia. rewrite Hman. cbn [Z.eqb Pos.eqb andb].
    destruct (cval (auto_gain (ctrls sensor)) =? 0); reflexivity.
  - rewrite Hbits by lia. rewrite Hman. cbn [Z.eqb Pos.eqb andb].
    destruct (cval (auto_exp (ctrls sensor)) =? V4L2_EXPOSURE_AUTO); reflexivity.
Qed.

Lemma ov2710_mode_set_table_overrides_gain_and_exposure_witness :
  In (current_mode manual_gain_sensor) ov2710_mode_data /\
  i2c_replies quiet_board = [] /\
  let w := ov2710_mode_set manual_gain_sensor quiet_board in
  fst w = (0, set_mode_pending_changes false manual_gain_sensor) /\
  fst (ov2710_gain_get (snd w)) = 0 /\
  fst (ov2710_exposure_get (snd w)) = 0 /\
  Z.testbit (regs (snd w) OV2710_REG_R_MANUAL) 1 =
    (cval (auto_gain (ctrls manual_gain_sensor)) =? 0) /\
  Z.testbit (regs (snd w) OV2710_REG_R_MANUAL) 0 =
    negb (cval (auto_exp (ctrls manual_gain_sensor)) =? V4L2_EXPOSURE_AUTO).
Proof.
  split; [right; left; reflexivity | ]. split; [reflexivity | ].
  apply (ov2710_mode_set_table_overrides_gain_and_exposure
           manual_gain_sensor quiet_board);
    [right; left; reflexivity | reflexivity].
Defined.

(** ** Test pattern, stream control, flips *)

Lemma bit_of_byte (P : Z -> Prop) :
  P 0 -> P 1 -> P 2 -> P 3 -> P 4 -> P 5 -> P 6 -> P 7 ->
  forall i, 0 <= i < 8 -> P i.
Proof.
  intros H0 H1 H2 H3 H4 H5 H6 H7 i Hi.
  assert (Hc : i = 0 \/ i = 1 \/ i = 2 \/ i = 3 \/ i = 4 \/ i = 5 \/ i = 6 \/ i = 7)
    by lia.
  repeat (destruct Hc as [-> | Hc]; [assumption | ]). subst i. assumption.
Qed.

(** X10: on a bus that acknowledges every transfer,
    [ov2710_test_pattern_set] returns 0 and changes register ISP_CTRL00
    only: value 0 clears bit 7 and keeps the seven other bits; any other
    value sets bit 7, puts the two low bits of [value - 1] in bits 1 and 0
    and keeps bits 2 to 6. *)
Theorem ov2710_test_pattern_set_bits value b :
  i2c_replies b = [] ->
  let w := ov2710_test_pattern_set value b in
  fst w = 0 /\
  (forall i, 0 <= i < 8 ->
     Z.testbit (regs (snd w) OV2710_REG_ISP_CTRL00) i =
       if i =? 7 then negb (value =? 0)
       else if (i <? 2) && negb (value =? 0) then Z.testbit (value - 1) i
            else Z.testbit (regs b OV2710_REG_ISP_CTRL00) i) /\
  (forall a, a <> OV2710_REG_ISP_CTRL00 -> regs (snd w) a = regs b a).
Proof.
  intros Hb. cbv zeta. unfold ov2710_test_pattern_set.
  assert (Hb7 : forall i, 0 <= i < 8 -> Z.testbit (BIT 7) i = (i =? 7))
    by (apply bit_of_byte; reflexivity).
  assert (Hb3 : forall i, 0 <= i < 8 -> Z.testbit 0x03 i = (i <? 2))
    by (apply bit_of_byte; reflexivity).
  destruct (Z.eqb_spec value 0) as [Hv | Hv]; cbn [negb].
  - destruct (ov2710_mod_reg_acked OV2710_REG_ISP_CTRL00 (BIT 7) 0 b Hb)
      as (b1 & Hm & _ & Hreg & Hother).
    rewrite Hm. cbn [fst snd]. split; [reflexivity | ]. split; [ | exact Hother].
    intros i Hi.
    change OV2710_REG_ISP_CTRL00 with (u16 OV2710_REG_ISP_CTRL00) at 1.
    rewrite Hreg, merged_bits, u8_testbit, Hb7 by exact Hi.
    rewrite andb_false_r, Z.testbit_0_l. reflexivity.
  - cbv [Bind].
    destruct (ov2710_mod_reg_acked OV2710_REG_ISP_CTRL00 0x03 (value - 1) b Hb)
      as (b1 & Hm1 & Hb1 & Hreg1 & Hother1).
    rewrite Hm1. cbn [Z.ltb Z.compare].
    destruct (ov2710_mod_reg_acked OV2710_REG_ISP_CTRL00 (BIT 7) (BIT 7) b1 Hb1)
      as (b2 & Hm2 & _ & Hreg2 & Hother2).
    rewrite Hm2. cbn [Z.ltb Z.compare Ret fst snd].
    split; [reflexivity | ]. split.
    + intros i Hi.
      change OV2710_REG_ISP_CTRL00 with (u16 OV2710_REG_ISP_CTRL00) at 1.
      rewrite Hreg2, merged_bits, u8_testbit, Hb7 by exact Hi.
      rewrite Hreg1, merged_bits, u8_testbit, Hb3 by exact Hi.
      rewrite andb_true_r.
      destruct (Z.eqb_spec i 7) as [-> | _]; reflexivity.
    + intros a Ha. rewrite Hother2, Hother1 by exact Ha. reflexivity.
Qed.

Lemma ov2710_test_pattern_set_bits_witness :
  i2c_replies quiet_board = [] /\
  let w := ov2710_test_pattern_set 3 quiet_board in
  fst w = 0 /\
  (forall i, 0 <= i < 8 ->
     Z.testbit (regs (snd w) OV2710_REG_ISP_CTRL00) i =
       if i =? 7 then negb (3 =? 0)
       else if (i <? 2) && negb (3 =? 0) then Z.testbit (3 - 1) i
            else Z.testbit (regs quiet_board OV2710_REG_ISP_CTRL00) i) /\
  (forall a, a <> OV2710_REG_ISP_CTRL00 -> regs (snd w) a = regs quiet_board a).
Proof.
  split; [reflexivity | ].
  apply (ov2710_test_pattern_set_bits 3 quiet_board). reflexivity.
Defined.

(** X11: the byte [ov2710_stream_enable] writes to the stream-control
    register is the complement of the sleep bit cut to 8 bits: on a bus
    that acknowledges the write the register then has the sleep bit clear
    and every other bit set, the software-reset bit included;
    [ov2710_stream_disable] leaves exactly the sleep bit. *)
Theorem ov2710_stream_ctrl_values b :
  i2c_replies b = [] ->
  let on := regs (snd (ov2710_stream_enable b)) OV2710_REG_STREAM_CTRL in
  let off := regs (snd (ov2710_stream_disable b)) OV2710_REG_STREAM_CTRL in
  on = 255 - OV2710_REG_STREAM_CTRL_SLEEP /\
  Z.land on OV2710_REG_STREAM_CTRL_RESET = OV2710_REG_STREAM_CTRL_RESET /\
  off = OV2710_REG_STREAM_CTRL_SLEEP.
Proof.
  intros Hb. cbv zeta. unfold ov2710_stream_enable, ov2710_stream_disable.
  rewrite !ov2710_write_reg_run. cbv zeta. unfold next_reply. rewrite Hb.
  cbn [Z.eqb Pos.eqb snd regs emit set_regs set_i2c_replies latch store_bytes].
  repeat split.
Qed.

Lemma ov2710_stream_ctrl_values_witness :
  i2c_replies quiet_board = [] /\
  let on := regs (snd (ov2710_stream_enable quiet_board)) OV2710_REG_STREAM_CTRL in
  let off := regs (snd (ov2710_stream_disable quiet_board)) OV2710_REG_STREAM_CTRL in
  on = 255 - OV2710_REG_STREAM_CTRL_SLEEP /\
  Z.land on OV2710_REG_STREAM_CTRL_RESET = OV2710_REG_STREAM_CTRL_RESET /\
  off = OV2710_REG_STREAM_CTRL_SLEEP.
Proof.
  split; [reflexivity | ].
  apply (ov2710_stream_ctrl_values quiet_board). reflexivity.
Defined.

Lemma land_bit x k :
  0 <= k -> Z.land x (2 ^ k) = if Z.testbit x k then 2 ^ k else 0.
Proof.
  intros Hk. apply Z.bits_inj'. intros n Hn.
  rewrite Z.land_spec, Z.pow2_bits_eqb by exact Hk.
  destruct (Z.eqb_spec k n) as [-> | Hne].
  - destruct (Z.testbit x n); cbn [andb].
    + rewrite Z.pow2_bits_eqb by exact Hn. rewrite Z.eqb_refl. reflexivity.
    + rewrite Z.testbit_0_l. reflexivity.
  - rewrite andb_false_r. destruct (Z.testbit x k).
    + rewrite Z.pow2_bits_eqb by exact Hk.
      destruct (Z.eqb_spec k n); [contradiction | reflexivity].
    + rewrite Z.testbit_0_l. reflexivity.
Qed.

(** The index looks at bit 3 of FORMAT2 and bit 2 of FORMAT1. *)
Lemma hv_flip_values format1 format2 :
  hv_flip format1 format2 =
    (if Z.testbit format2 3 then 8 else 0) + (if Z.testbit format1 2 then 4 else 0).
Proof.
  unfold hv_flip. change (Z.shiftl (BIT 2) 1) with (2 ^ 3).
  change (BIT 2) with (2 ^ 2). rewrite !land_bit by lia.
  destruct (Z.testbit format2 3), (Z.testbit format1 2); reflexivity.
Qed.

Lemma ov2710_bayer_order_acked beyond sensor b :
  i2c_replies b = [] ->
  exists b',
    ov2710_bayer_order beyond sensor b =
      (0,
       set_fmt_field
         (set_code (bayer_code beyond
                      (hv_flip (u8 (regs b OV2710_REG_FORMAT1))
                               (u8 (regs b OV2710_REG_FORMAT2))))
                   (fmt sensor)) sensor,
       b') /\
    i2c_replies b' = [] /\ regs b' = regs b.
Proof.
  intros Hb. unfold ov2710_bayer_order. cbv [Bind].
  rewrite ov2710_read_reg_run. cbv zeta. unfold next_reply at 1 2. rewrite Hb.
  cbn [Z.eqb Pos.eqb Z.ltb Z.compare].
  rewrite ov2710_read_reg_run. cbv zeta. unfold next_reply.
  cbn [i2c_replies emit set_i2c_replies tl Z.eqb Pos.eqb Z.ltb Z.compare Ret].
  eexists. split; [reflexivity | ]. split; reflexivity.
Qed.

(** The shape the four flip functions share: one bit-2 update of a format
    register, then the Bayer-order lookup on what the registers hold. *)
Lemma ov2710_flip_acked beyond reg v sensor b :
  i2c_replies b = [] ->
  exists b1 b2,
    (ret <- ov2710_mod_reg reg (BIT 2) v ;;
     if ret <? 0 then Ret (ret, sensor) else ov2710_bayer_order beyond sensor) b =
      (0,
       set_fmt_field
         (set_code (bayer_code beyond
                      (hv_flip (u8 (regs b1 OV2710_REG_FORMAT1))
                               (u8 (regs b1 OV2710_REG_FORMAT2))))
                   (fmt sensor)) sensor,
       b2) /\
    regs b1 (u16 reg) = merged (u8 (regs b (u16 reg))) (BIT 2) v /\
    (forall a, a <> u16 reg -> regs b1 a = regs b a) /\
    regs b2 = regs b1.
Proof.
  intros Hb. cbv [Bind].
  destruct (ov2710_mod_reg_acked reg (BIT 2) v b Hb)
    as (b1 & Hm & Hb1 & Hreg & Hother).
  rewrite Hm. cbn [Z.ltb Z.compare].
  destruct (ov2710_bayer_order_acked beyond sensor b1 Hb1) as (b2 & Ho & _ & Hregs).
  exists b1, b2. rewrite Ho. auto.
Qed.

(** X12: on a bus that acknowledges every transfer, the index
    [ov2710_vflip_enable] looks up in the four-entry Bayer-order table is
    computed from the format registers as they are after the call and is
    at least 4, the size of the table: the code it stores is not an entry
    of the table but whatever lies past it at that index.
    [ov2710_vflip_disable], when bit 3 of FORMAT2 is clear, looks up index
    0 and reports the BGGR order, whatever lies past the table. *)
Theorem ov2710_vflip_bayer_index beyond sensor b :
  i2c_replies b = [] ->
  (let w := ov2710_vflip_enable beyond sensor b in
   let idx := hv_flip (u8 (regs (snd w) OV2710_REG_FORMAT1))
                      (u8 (regs (snd w) OV2710_REG_FORMAT2)) in
   ARRAY_SIZE ov2710_hv_flip_bayer_order <= idx /\
   fst w = (0, set_fmt_field (set_code (beyond idx) (fmt sensor)) sensor)) /\
  (Z.testbit (regs b OV2710_REG_FORMAT2) 3 = false ->
   fst (ov2710_vflip_disable beyond sensor b) =
     (0, set_fmt_field (set_code MEDIA_BUS_FMT_SBGGR10_1X10 (fmt sensor)) sensor)).
Proof.
  intros Hb. split.
  - cbv zeta. unfold ov2710_vflip_enable.
    destruct (ov2710_flip_acked beyond OV2710_REG_FORMAT1 (BIT 2) sensor b Hb)
      as (b1 & b2 & Hrun & Hreg & _ & Hregs).
    rewrite Hrun. cbn [fst snd]. rewrite Hregs.
    rewrite hv_flip_values. rewrite !u8_testbit by lia.
    change OV2710_REG_FORMAT1 with (u16 OV2710_REG_FORMAT1).
    rewrite Hreg, merged_bits by lia.
    change (Z.testbit (BIT 2) 2) with true. cbv iota.
    change (ARRAY_SIZE ov2710_hv_flip_bayer_order) with 4.
    destruct (Z.testbit _ 3); (split; [lia | reflexivity]).
  - intros Hbit. unfold ov2710_vflip_disable.
    destruct (ov2710_flip_acked beyond OV2710_REG_FORMAT1 (BIT 0) sensor b Hb)
      as (b1 & b2 & Hrun & Hreg & Hother & _).
    rewrite Hrun. cbn [fst]. rewrite hv_flip_values. rewrite !u8_testbit by lia.
    rewrite (Hother OV2710_REG_FORMAT2) by (vm_compute; discriminate).
    rewrite Hbit.
    change OV2710_REG_FORMAT1 with (u16 OV2710_REG_FORMAT1).
    rewrite Hreg, merged_bits by lia.
    reflexivity.
Qed.

Lemma ov2710_vflip_bayer_index_witness :
  let beyond := fun i : Z => 9646339 in
  i2c_replies quiet_board = [] /\
  (let w := ov2710_vflip_enable beyond powered_sensor quiet_board in
   let idx := hv_flip (u8 (regs (snd w) OV2710_REG_FORMAT1))
                      (u8 (regs (snd w) OV2710_REG_FORMAT2)) in
   ARRAY_SIZE ov2710_hv_flip_bayer_order <= idx /\
   fst w = (0, set_fmt_field (set_code (beyond idx) (fmt powered_sensor))
                             powered_sensor)) /\
  (Z.testbit (regs quiet_board OV2710_REG_FORMAT2) 3 = false ->
   fst (ov2710_vflip_disable beyond powered_sensor quiet_board) =
     (0, set_fmt_field (set_code MEDIA_BUS_FMT_SBGGR10_1X10 (fmt powered_sensor))
                       powered_sensor)).
Proof.
  cbv zeta. split; [reflexivity | ].
  apply (ov2710_vflip_bayer_index (fun _ => 9646339) powered_sensor quiet_board).
  reflexivity.
Defined.

(** X13: the Bayer-order lookup reads bit 3 of FORMAT2 where the horizontal
    flip is bit 2.  On a bus that acknowledges every transfer and a board
    where the lookup stays inside the table (bit 2 of FORMAT1 and bit 3 of
    FORMAT2 clear), [ov2710_hflip_enable] and [ov2710_hflip_disable] both
    return 0 and both report the BGGR order, entry 0 of the table, although
    they leave FORMAT2 with bit 2 set and clear respectively. *)
Theorem ov2710_hflip_does_not_reach_bayer_order beyond sensor b :
  i2c_replies b = [] ->
  Z.testbit (regs b OV2710_REG_FORMAT1) 2 = false ->
  Z.testbit (regs b OV2710_REG_FORMAT2) 3 = false ->
  let on := ov2710_hflip_enable beyond sensor b in
  let off := ov2710_hflip_disable beyond sensor b in
  fst on =
    (0, set_fmt_field (set_code MEDIA_BUS_FMT_SBGGR10_1X10 (fmt sensor)) sensor) /\
  fst off = fst on /\
  Z.testbit (regs (snd on) OV2710_REG_FORMAT2) 2 = true /\
  Z.testbit (regs (snd off) OV2710_REG_FORMAT2) 2 = false.
Proof.
  intros Hb H1 H2. cbv zeta. unfold ov2710_hflip_enable, ov2710_hflip_disable.
  destruct (ov2710_flip_acked beyond OV2710_REG_FORMAT2 (BIT 2) sensor b Hb)
    as (b1 & b2 & Hrun & Hreg & Hother & Hregs).
  destruct (ov2710_flip_acked beyond OV2710_REG_FORMAT2 (BIT 0) sensor b Hb)
    as (b1' & b2' & Hrun' & Hreg' & Hother' & Hregs').
  rewrite Hrun, Hrun'. cbn [fst snd]. rewrite Hregs, Hregs'.
  change (u16 OV2710_REG_FORMAT2) with OV2710_REG_FORMAT2 in *.
  assert (Hidx : hv_flip (u8 (regs b1 OV2710_REG_FORMAT1))
                         (u8 (regs b1 OV2710_REG_FORMAT2)) = 0).
  { rewrite hv_flip_values. rewrite !u8_testbit by lia.
    rewrite (Hother OV2710_REG_FORMAT1) by (vm_compute; discriminate).
    rewrite Hreg, merged_bits by lia. cbv iota.
    change (Z.testbit (BIT 2) 3) with false. cbv iota.
    rewrite u8_testbit by lia. rewrite H1, H2. reflexivity. }
  assert (Hidx' : hv_flip (u8 (regs b1' OV2710_REG_FORMAT1))
                          (u8 (regs b1' OV2710_REG_FORMAT2)) = 0).
  { rewrite hv_flip_values. rewrite !u8_testbit by lia.
    rewrite (Hother' OV2710_REG_FORMAT1) by (vm_compute; discriminate).
    rewrite Hreg', merged_bits by lia. cbv iota.
    change (Z.testbit (BIT 2) 3) with false. cbv iota.
    rewrite u8_testbit by lia. rewrite H1, H2. reflexivity. }
  rewrite Hidx, Hidx'.
  split; [reflexivity | ]. split; [reflexivity | ]. split.
  - rewrite Hreg, merged_bits by lia. reflexivity.
  - rewrite Hreg', merged_bits by lia. reflexivity.
Qed.

Lemma ov2710_hflip_does_not_reach_bayer_order_witness :
  let beyond := fun i : Z => 9646339 in
  i2c_replies quiet_board = [] /\
  Z.testbit (regs quiet_board OV2710_REG_FORMAT1) 2 = false /\
  Z.testbit (regs quiet_board OV2710_REG_FORMAT2) 3 = false /\
  let on := ov2710_hflip_enable beyond powered_sensor quiet_board in
  let off := ov2710_hflip_disable beyond powered_sensor quiet_board in
  fst on =
    (0, set_fmt_field (set_code MEDIA_BUS_FMT_SBGGR10_1X10 (fmt powered_sensor))
                      powered_sensor) /\
  fst off = fst on /\
  Z.testbit (regs (snd on) OV2710_REG_FORMAT2) 2 = true /\
  Z.testbit (regs (snd off) OV2710_REG_FORMAT2) 2 = false.
Proof.
  cbv zeta. split; [reflexivity | ]. split; [reflexivity | ].
  split; [reflexivity | ].
  apply (ov2710_hflip_does_not_reach_bayer_order (fun _ => 9646339)
           powered_sensor quiet_board); reflexivity.
Defined.

(** ** Formats and frame sizes *)

(** X14: an ACTIVE format request on pad 0 of a sensor that is not
    streaming, for which the size search finds a mode, returns 0, makes
    that mode current and marks a change pending; the format handed back
    has the mode's size, the caller's field, and the sensor's own media bus
    code and colorspace whatever the caller asked for; [ov2710_get_fmt]
    then reports that same format. *)
Theorem ov2710_set_fmt_then_get_fmt api find sensor cfg req mode :
  pad req = 0 ->
  is_streaming sensor = false ->
  which req <> V4L2_SUBDEV_FORMAT_TRY ->
  find ov2710_mode_data (fmt_width (format req)) (fmt_height (format req))
    = Some mode ->
  let r := ov2710_set_fmt api find sensor cfg req in
  let sensor' := snd (fst r) in
  fst (fst r) = 0 /\
  current_mode sensor' = mode /\
  mode_pending_changes sensor' = true /\
  format (snd r) =
    {| fmt_width := width mode; fmt_height := height mode;
       code := code (fmt sensor); field := field (format req);
       colorspace := colorspace (fmt sensor) |} /\
  ov2710_get_fmt api sensor' cfg req = (0, snd r).
Proof.
  intros Hpad Hstr Hwhich Hfind. cbv zeta.
  unfold ov2710_set_fmt, ov2710_get_fmt.
  rewrite Hpad, Hstr, Hfind. cbn [Z.eqb negb].
  destruct (Z.eqb_spec (which req) V4L2_SUBDEV_FORMAT_TRY) as [E | _];
    [contradiction | ].
  cbn [fst snd current_mode mode_pending_changes set_mode_pending_changes
       set_fmt_field set_current_mode format fmt which pad].
  repeat split.
Qed.

Lemma ov2710_set_fmt_then_get_fmt_witness :
  pad (wanted_720p 0) = 0 /\
  is_streaming powered_sensor = false /\
  which (wanted_720p 0) <> V4L2_SUBDEV_FORMAT_TRY /\
  first_mode ov2710_mode_data (fmt_width (format (wanted_720p 0)))
             (fmt_height (format (wanted_720p 0)))
    = Some (nth 0 ov2710_mode_data ov2710_mode_init_data) /\
  let mode := nth 0 ov2710_mode_data ov2710_mode_init_data in
  let r := ov2710_set_fmt true first_mode powered_sensor no_try (wanted_720p 0) in
  let sensor' := snd (fst r) in
  fst (fst r) = 0 /\
  current_mode sensor' = mode /\
  mode_pending_changes sensor' = true /\
  format (snd r) =
    {| fmt_width := width mode; fmt_height := height mode;
       code := code (fmt powered_sensor); field := field (format (wanted_720p 0));
       colorspace := colorspace (fmt powered_sensor) |} /\
  ov2710_get_fmt true sensor' no_try (wanted_720p 0) = (0, snd r).
Proof.
  split; [reflexivity | ]. split; [reflexivity | ].
  split; [discriminate | ]. split; [reflexivity | ].
  apply (ov2710_set_fmt_then_get_fmt true first_mode powered_sensor no_try
           (wanted_720p 0) (nth 0 ov2710_mode_data ov2710_mode_init_data));
    [reflexivity | reflexivity | discriminate | reflexivity].
Defined.

(** X15: [ov2710_enum_frame_size] reads the unsigned index into an [int]:
    it accepts exactly the indices 0 and 1 (an index of 2^31 or more turns
    negative and is refused like one of 2 or more), with -EINVAL and the
    structure untouched otherwise; an accepted index gets one discrete
    size, minimum equal to maximum, that of the catalog entry. *)
Theorem ov2710_enum_frame_size_indices fse :
  0 <= fse_index fse < 2 ^ 32 ->
  let r := ov2710_enum_frame_size fse in
  (fst r = 0 <-> fse_index fse < 2) /\
  (fst r <> 0 -> r = (- EINVAL, fse)) /\
  (fst r = 0 ->
   exists m,
     nth_error ov2710_mode_data (Z.to_nat (fse_index fse)) = Some m /\
     min_width (snd r) = width m /\ max_width (snd r) = width m /\
     min_height (snd r) = height m /\ max_height (snd r) = height m).
Proof.
  intros Hidx. cbv zeta. unfold ov2710_enum_frame_size, OV2710_MODE_MAX.
  change (2 ^ 32) with 4294967296 in Hidx.
  assert (Hs : s32 (fse_index fse) =
               if fse_index fse <? 2147483648 then fse_index fse
               else fse_index fse - 4294967296).
  { unfold s32. destruct (Z.ltb_spec (fse_index fse) 2147483648);
      Z.div_mod_to_equations; lia. }
  rewrite Hs.
  destruct (Z.ltb_spec (fse_index fse) 2147483648) as [Hlow | Hhigh].
  - destruct (Z.leb_spec 2 (fse_index fse)) as [Hbig | Hsmall]; cbn [orb].
    + cbn [fst]. unfold EINVAL. split; [split; [discriminate | lia] | ].
      split; [reflexivity | discriminate].
    + destruct (Z.ltb_spec (fse_index fse) 0) as [Hneg | _]; [lia | ].
      assert (Hc : fse_index fse = 0 \/ fse_index fse = 1) by lia.
      destruct Hc as [-> | ->]; cbn [Z.to_nat Pos.to_nat Pos.iter_op Nat.add
                                      nth_error ov2710_mode_data fst snd];
        (split; [split; [lia | reflexivity] | ]);
        (split; [intros H; contradiction H; reflexivity | ]);
        intros _; eexists; (split; [reflexivity | ]); repeat split.
  - destruct (Z.leb_spec 2 (fse_index fse - 4294967296)) as [Hbig | Hsmall];
      [lia | ].
    destruct (Z.ltb_spec (fse_index fse - 4294967296) 0) as [_ | Hpos]; [ | lia].
    cbn [orb fst]. unfold EINVAL. split; [split; [discriminate | lia] | ].
    split; [reflexivity | discriminate].
Qed.

Lemma ov2710_enum_frame_size_indices_witness :
  let fse := {| fse_index := 1; min_width := 0; max_width := 0;
                min_height := 0; max_height := 0 |} in
  0 <= fse_index fse < 2 ^ 32 /\
  let r := ov2710_enum_frame_size fse in
  (fst r = 0 <-> fse_index fse < 2) /\
  (fst r <> 0 -> r = (- EINVAL, fse)) /\
  (fst r = 0 ->
   exists m,
     nth_error ov2710_mode_data (Z.to_nat (fse_index fse)) = Some m /\
     min_width (snd r) = width m /\ max_width (snd r) = width m /\
     min_height (snd r) = height m /\ max_height (snd r) = height m).
Proof.
  split; [cbn; lia | ].
  apply (ov2710_enum_frame_size_indices
           {| fse_index := 1; min_width := 0; max_width := 0;
              min_height := 0; max_height := 0 |}).
  cbn. lia.
Defined.

(** ** Power on, power off *)

(** Reduces what the kernel services have done to a board whose reply
    lists are known. *)
Ltac board_step :=
  cbv zeta; unfold next_reply;
  cbn [regulator_replies clk_replies i2c_replies supplies_on xvclk_on
       regs reset_gpio is_enabled
       emit set_regs set_i2c_replies set_regulator_replies
       set_clk_replies set_supplies_on set_xvclk_on set_reset_line
       set_is_enabled
       hd tl Z.eqb Pos.eqb Z.ltb Z.compare negb fst snd].

(** X16: on a board where the regulators, the clock and the bus all answer
    with success, [ov2710_power_on] of an unpowered sensor returns 0, marks
    it enabled, takes one reference on the supplies and one on the clock
    and leaves the stream-control register at the sleep value;
    [ov2710_power_off] then gives both references back and returns the
    sensor record to what it was. *)
Theorem ov2710_power_on_then_off_balance sensor b :
  is_enabled sensor = false ->
  i2c_replies b = [] ->
  regulator_replies b = [] ->
  clk_replies b = [] ->
  let on := ov2710_power_on sensor b in
  let off := ov2710_power_off (snd (fst on)) (snd on) in
  fst (fst on) = 0 /\
  is_enabled (snd (fst on)) = true /\
  supplies_on (snd on) = supplies_on b + 1 /\
  xvclk_on (snd on) = xvclk_on b + 1 /\
  regs (snd on) OV2710_REG_STREAM_CTRL = OV2710_REG_STREAM_CTRL_SLEEP /\
  fst off = (0, sensor) /\
  supplies_on (snd off) = supplies_on b /\
  xvclk_on (snd off) = xvclk_on b.
Proof.
  intros Hen Hb Hreg Hclk. cbv zeta.
  destruct sensor as [gpio pend en str c f fi cm].
  destruct b as [r i2c rr cr sup clk rst tr].
  cbn [is_enabled i2c_replies regulator_replies clk_replies] in Hen, Hb, Hreg, Hclk.
  subst en i2c rr cr.
  unfold ov2710_power_on, ov2710_power_off, ov2710_power_down, ov2710_power_up,
    ov2710_stream_enable, ov2710_stream_disable.
  cbn [is_enabled reset_gpio].
  destruct gpio as [line | ];
    cbv [Bind Ret regulator_bulk_enable regulator_bulk_disable clk_prepare_enable
         clk_disable_unprepare gpiod_set_value usleep_range log];
    board_step; repeat (rewrite ov2710_write_reg_run; board_step);
    (split; [reflexivity | ]); (split; [reflexivity | ]);
    (split; [reflexivity | ]); (split; [reflexivity | ]);
    (split; [reflexivity | ]); (split; [reflexivity | ]);
    split; lia.
Qed.

Lemma ov2710_power_on_then_off_balance_witness :
  is_enabled probed_sensor = false /\
  i2c_replies quiet_board = [] /\
  regulator_replies quiet_board = [] /\
  clk_replies quiet_board = [] /\
  let on := ov2710_power_on probed_sensor quiet_board in
  let off := ov2710_power_off (snd (fst on)) (snd on) in
  fst (fst on) = 0 /\
  is_enabled (snd (fst on)) = true /\
  supplies_on (snd on) = supplies_on quiet_board + 1 /\
  xvclk_on (snd on) = xvclk_on quiet_board + 1 /\
  regs (snd on) OV2710_REG_STREAM_CTRL = OV2710_REG_STREAM_CTRL_SLEEP /\
  fst off = (0, probed_sensor) /\
  supplies_on (snd off) = supplies_on quiet_board /\
  xvclk_on (snd off) = xvclk_on quiet_board.
Proof.
  split; [reflexivity | ]. split; [reflexivity | ].
  split; [reflexivity | ]. split; [reflexivity | ].
  apply (ov2710_power_on_then_off_balance probed_sensor quiet_board); reflexivity.
Defined.

Lemma ov2710_power_on_acked sensor b :
  is_enabled sensor = false ->
  i2c_replies b = [] ->
  regulator_replies b = [] ->
  clk_replies b = [] ->
  exists b',
    ov2710_power_on sensor b = (0, set_is_enabled true sensor, b') /\
    i2c_replies b' = [].
Proof.
  intros Hen Hb Hreg Hclk.
  destruct b as [r i2c rr cr sup clk rst tr].
  cbn [i2c_replies regulator_replies clk_replies] in Hb, Hreg, Hclk.
  subst i2c rr cr.
  unfold ov2710_power_on, ov2710_power_down, ov2710_power_up,
    ov2710_stream_enable, ov2710_stream_disable.
  rewrite Hen.
  destruct (reset_gpio sensor) as [line | ];
    cbv [Bind Ret regulator_bulk_enable clk_prepare_enable gpiod_set_value
         usleep_range log];
    board_step; repeat (rewrite ov2710_write_reg_run; board_step);
    eexists; split; reflexivity.
Qed.

Lemma catalog_tables_stream_ctrl m r0 :
  In m ov2710_mode_data ->
  written (firstn (Z.to_nat (reg_data_size m)) (reg_data m)) r0
          OV2710_REG_STREAM_CTRL = 0x02.
Proof.
  intros [<- | [<- | []]]; vm_compute; reflexivity.
Qed.





(** X17: [ov2710_s_power] switching on an unpowered sensor, when every
    regulator, clock and bus call succeeds and the control handler has
    nothing to apply, returns 0 with the sensor enabled and no mode change
    pending; the init table and the current mode's table (either mode of
    the catalog) have been loaded after the power-on sequence put the
    sensor to sleep, and their last entry leaves the stream-control
    register at 0x02, sleep bit clear, while [is_streaming] is still
    false. *)
Theorem ov2710_s_power_on_leaves_sleep_bit_clear handler sensor on b :
  (forall s b0, handler s b0 = (0, s, b0)) ->
  on <> 0 ->
  is_enabled sensor = false ->
  is_streaming sensor = false ->
  In (current_mode sensor) ov2710_mode_data ->
  i2c_replies b = [] ->
  regulator_replies b = [] ->
  clk_replies b = [] ->
  let r := ov2710_s_power handler sensor on b in
  fst r = (0, set_mode_pending_changes false (set_is_enabled true sensor)) /\
  is_streaming (snd (fst r)) = false /\
  regs (snd r) OV2710_REG_STREAM_CTRL = 0x02 /\
  Z.land (regs (snd r) OV2710_REG_STREAM_CTRL) OV2710_REG_STREAM_CTRL_SLEEP = 0.
Proof.
  intros Hh Hon Hen Hstr Hin Hb Hreg Hclk. cbv zeta.
  unfold ov2710_s_power. cbv [Bind].
  destruct (Z.eqb_spec on 0) as [E | _]; [contradiction | ]. cbn [negb].
  destruct (ov2710_power_on_acked sensor b Hen Hb Hreg Hclk) as (b1 & Hp & Hb1).
  rewrite Hp. cbn [Z.eqb andb]. rewrite Hh. cbn [Z.ltb Z.compare].
  unfold ov2710_mode_restore, ov2710_load_regs. cbv [Bind].
  set (T0 := firstn (Z.to_nat (reg_data_size ov2710_mode_init_data))
                    (reg_data ov2710_mode_init_data)).
  destruct (load_regs_from_acked T0 0 b1 Hb1) as (Hl1 & Hl2 & _).
  destruct (load_regs_from T0 0 b1) as [r2 b2]. cbn [fst snd] in Hl1, Hl2.
  change (match T0 with [] => 0 | _ :: _ => 0 end) with 0 in Hl1. subst r2.
  cbn [Z.ltb Z.compare].
  destruct (ov2710_mode_set_acked (set_is_enabled true sensor) b2 Hl2)
    as (r0 & b3 & Hm & _ & Hregs & _).
  rewrite Hm. cbn [fst snd].
  assert (Hctl : regs b3 OV2710_REG_STREAM_CTRL = 0x02).
  { rewrite Hregs by (vm_compute; discriminate).
    apply (catalog_tables_stream_ctrl (current_mode sensor) r0 Hin). }
  split; [reflexivity | ]. split; [exact Hstr | ].
  split; [exact Hctl | ]. rewrite Hctl. reflexivity.
Qed.

Lemma ov2710_s_power_on_leaves_sleep_bit_clear_witness :
  let handler := fun s : ov2710_dev => (Ret (0, s) : M (Z * ov2710_dev)) in
  (forall s b0, handler s b0 = (0, s, b0)) /\
  1 <> 0 /\
  is_enabled probed_sensor = false /\
  is_streaming probed_sensor = false /\
  In (current_mode probed_sensor) ov2710_mode_data /\
  i2c_replies quiet_board = [] /\
  regulator_replies quiet_board = [] /\
  clk_replies quiet_board = [] /\
  let r := ov2710_s_power handler probed_sensor 1 quiet_board in
  fst r = (0, set_mode_pending_changes false (set_is_enabled true probed_sensor)) /\
  is_streaming (snd (fst r)) = false /\
  regs (snd r) OV2710_REG_STREAM_CTRL = 0x02 /\
  Z.land (regs (snd r) OV2710_REG_STREAM_CTRL) OV2710_REG_STREAM_CTRL_SLEEP = 0.
Proof.
  cbv zeta.
  split; [intros s b0; reflexivity | ]. split; [discriminate | ].
  split; [reflexivity | ]. split; [reflexivity | ].
  split; [right; left; reflexivity | ].
  split; [reflexivity | ]. split; [reflexivity | ]. split; [reflexivity | ].
  apply (ov2710_s_power_on_leaves_sleep_bit_clear
           (fun s : ov2710_dev => Ret (0, s)) probed_sensor 1 quiet_board);
    [intros s b0; reflexivity | discriminate | reflexivity | reflexivity
    | right; left; reflexivity | reflexivity | reflexivity | reflexivity].
Defined.

(** ** The exposure control, and the code a format request keeps *)

(** X18: [ov2710_s_ctrl] for the exposure control passes
    [!!ctrls->auto_exp->val] as the auto flag, and V4L2_EXPOSURE_AUTO is 0:
    on a powered sensor with a new exposure value and a bus that
    acknowledges everything, the call returns 0 and, when the auto-exposure
    control says MANUAL, clears the manual bit of R_MANUAL and writes no
    exposure; when it says AUTO, sets the manual bit and writes the
    exposure, which then reads back. *)
Theorem ov2710_s_ctrl_exposure_follows_raw_flag beyond sensor v b :
  is_enabled sensor = true ->
  is_new (exposure (ctrls sensor)) = true ->
  i2c_replies b = [] ->
  let w := ov2710_s_ctrl beyond sensor V4L2_CID_EXPOSURE v b in
  fst w = (0, sensor) /\
  (cval (auto_exp (ctrls sensor)) = V4L2_EXPOSURE_MANUAL ->
   Z.testbit (regs (snd w) OV2710_REG_R_MANUAL) 0 = false /\
   forall a, a <> OV2710_REG_R_MANUAL -> regs (snd w) a = regs b a) /\
  (cval (auto_exp (ctrls sensor)) = V4L2_EXPOSURE_AUTO ->
   Z.testbit (regs (snd w) OV2710_REG_R_MANUAL) 0 = true /\
   fst (ov2710_exposure_get (snd w)) = cval (exposure (ctrls sensor)) mod 2 ^ 20).
Proof.
  intros Hen Hnew Hb. cbv zeta. unfold ov2710_s_ctrl. rewrite Hen.
  cbn [negb]. cbv [Bind].
  destruct (ov2710_exposure_set_acked sensor
              (notnot (cval (auto_exp (ctrls sensor)))) b Hb)
    as (b1 & Hs & Hb1 & Hauto).
  rewrite Hs. cbn [Ret fst snd]. split; [reflexivity | ]. split.
  - intros Hman. rewrite Hman in Hauto, Hs.
    destruct (Hauto eq_refl) as (Hreg & Hother).
    split; [ | exact Hother].
    rewrite Hreg, merged_bits by lia. reflexivity.
  - intros Hae. rewrite Hae in Hs. change (notnot V4L2_EXPOSURE_AUTO) with false in Hs.
    destruct (ov2710_exposure_set_manual_acked sensor b Hnew Hb)
      as (b1' & Hs' & Hb1' & Hbit & Hfetch).
    rewrite Hs in Hs'. injection Hs' as <-.
    split; [exact Hbit | ]. apply ov2710_exposure_get_acked; assumption.
Qed.

Lemma ov2710_s_ctrl_exposure_follows_raw_flag_witness :
  is_enabled manual_exposure_sensor = true /\
  is_new (exposure (ctrls manual_exposure_sensor)) = true /\
  i2c_replies quiet_board = [] /\
  let w := ov2710_s_ctrl (fun _ => 0) manual_exposure_sensor V4L2_CID_EXPOSURE
             0x2a5 quiet_board in
  fst w = (0, manual_exposure_sensor) /\
  (cval (auto_exp (ctrls manual_exposure_sensor)) = V4L2_EXPOSURE_MANUAL ->
   Z.testbit (regs (snd w) OV2710_REG_R_MANUAL) 0 = false /\
   forall a, a <> OV2710_REG_R_MANUAL -> regs (snd w) a = regs quiet_board a) /\
  (cval (auto_exp (ctrls manual_exposure_sensor)) = V4L2_EXPOSURE_AUTO ->
   Z.testbit (regs (snd w) OV2710_REG_R_MANUAL) 0 = true /\
   fst (ov2710_exposure_get (snd w)) =
     cval (exposure (ctrls manual_exposure_sensor)) mod 2 ^ 20).
Proof.
  split; [reflexivity | ]. split; [reflexivity | ]. split; [reflexivity | ].
  apply (ov2710_s_ctrl_exposure_follows_raw_flag (fun _ => 0)
           manual_exposure_sensor 0x2a5
           quiet_board); reflexivity.
Defined.

(** X19: whatever the request and however [ov2710_set_fmt] ends, the sensor
    keeps its media bus code and colorspace and its streaming and power
    state, so [ov2710_enum_mbus_code] enumerates the same code before and
    after; the caller's code is never taken over. *)
Theorem ov2710_set_fmt_keeps_code api find sensor cfg req code_pad code_index :
  let sensor' := snd (fst (ov2710_set_fmt api find sensor cfg req)) in
  code (fmt sensor') = code (fmt sensor) /\
  colorspace (fmt sensor') = colorspace (fmt sensor) /\
  is_streaming sensor' = is_streaming sensor /\
  is_enabled sensor' = is_enabled sensor /\
  ov2710_enum_mbus_code sensor' code_pad code_index =
    ov2710_enum_mbus_code sensor code_pad code_index.
Proof.
  cbv zeta. unfold ov2710_set_fmt, ov2710_enum_mbus_code.
  destruct (negb (pad req =? 0)); [repeat split | ].
  destruct (is_streaming sensor) eqn:Hs; [cbn [fst snd]; rewrite Hs; repeat split | ].
  destruct (find ov2710_mode_data _ _) as [mode | ]; [ | cbn [fst snd]; rewrite Hs; repeat split].
  destruct (which req =? V4L2_SUBDEV_FORMAT_TRY).
  - destruct api; cbn [fst snd]; rewrite Hs; repeat split.
  - cbn [fst snd fmt code colorspace is_streaming is_enabled
         set_mode_pending_changes set_fmt_field set_current_mode].
    rewrite Hs. repeat split.
Qed.

(** * Power sequencing of the panel and the bridge *)

Ltac rig_step :=
  cbv [Rig.Then Rig.Pure Rig.gpiod_set_value Rig.gpiod_set_value_cansleep
       Rig.gpiod_direction_output Rig.regulator_enable Rig.regulator_disable
       Rig.mdelay Rig.msleep Rig.on_bus];
  cbn [Rig.bus Rig.level Rig.held Rig.enable_replies Rig.direction_replies
       Rig.history Rig.note Rig.heard Rig.set_level Rig.add_held
       Rig.set_enable_replies Rig.set_direction_replies fst snd].

Ltac panel_step :=
  repeat (progress (rig_step;
    cbn [Wuxga.enabled Wuxga.suspended Wuxga.prepared Wuxga.set_enabled
         Wuxga.set_suspended Wuxga.set_prepared Wuxga.gpios Wuxga.client
         Wuxga.init_regs Wuxga.ninit_regs Wuxga.supply negb])).

Ltac split_lines :=
  repeat match goal with
         | |- context [String.eqb ?a ?b] => destruct (String.eqb_spec a b)
         end;
  try reflexivity; try congruence.

(** X20: [wuxga_i2c_probe] leaves [suspended] and [enabled] false, and
    [wuxga_resume] does nothing unless [suspended] is set: the first
    [wuxga_drm_enable] after the probe returns 0 and marks the panel
    enabled without driving a line or sending anything, the init table
    included, and so does every enable until a disable has come
    between. *)
Theorem wuxga_drm_enable_after_probe_sends_nothing wait err0 d r :
  Wuxga.enabled d = false ->
  Wuxga.suspended d = false ->
  let on := Wuxga.wuxga_drm_enable wait err0 d r in
  on = (0, Wuxga.set_enabled true d, r) /\
  Wuxga.wuxga_drm_enable wait err0 (snd (fst on)) (snd on) = on.
Proof.
  intros Hen Hsus. cbv zeta.
  assert (H : Wuxga.wuxga_drm_enable wait err0 d r
              = (0, Wuxga.set_enabled true d, r)).
  { unfold Wuxga.wuxga_drm_enable, Wuxga.wuxga_resume. rewrite Hen, Hsus.
    reflexivity. }
  rewrite H. split; reflexivity.
Qed.

Lemma wuxga_drm_enable_after_probe_sends_nothing_witness :
  let d := probed_panel [Wuxga.RS 0x0002 0x0001] in
  let r := rig_on quiet_board in
  Wuxga.enabled d = false /\
  Wuxga.suspended d = false /\
  let on := Wuxga.wuxga_drm_enable 0 0 d r in
  on = (0, Wuxga.set_enabled true d, r) /\
  Wuxga.wuxga_drm_enable 0 0 (snd (fst on)) (snd on) = on.
Proof.
  cbv zeta. split; [reflexivity | ]. split; [reflexivity | ].
  apply (wuxga_drm_enable_after_probe_sends_nothing 0 0
           (probed_panel [Wuxga.RS 0x0002 0x0001]) (rig_on quiet_board));
    reflexivity.
Defined.

(** Bus programs only add to the board's trace. *)
Lemma skipn_length_app {A} (l1 l2 : list A) :
  skipn (List.length l1) (l1 ++ l2) = l2.
Proof. induction l1 as [ | x l1 IH]; [reflexivity | exact IH]. Qed.

Lemma wuxga_transfer_loop_extends more : forall retry msg b,
  exists l, trace (snd (Wuxga.transfer_loop more retry msg b)) = trace b ++ l.
Proof.
  induction more as [ | more IH]; intros retry msg b;
    cbn [Wuxga.transfer_loop]; cbv [Bind Ret i2c_transfer]; cbv zeta;
    destruct (_ <? 0); try (eexists; reflexivity);
    destruct (_ <=? _); try (eexists; reflexivity).
  match goal with
  | |- context [Wuxga.transfer_loop more ?r ?m ?b1] =>
      destruct (IH r m b1) as [l Hl]; rewrite Hl
  end.
  rewrite trace_emit. cbn [trace set_i2c_replies]. rewrite <- app_assoc.
  eexists. reflexivity.
Qed.

Lemma wuxga_write_table_from_extends wait client l : forall err b,
  exists t, trace (snd (Wuxga.write_table_from wait client l err b)) = trace b ++ t.
Proof.
  induction l as [ | r rest IH]; intros err b.
  - exists []. cbn. rewrite app_nil_r. reflexivity.
  - rewrite wuxga_write_table_from_cons.
    assert (Hw : exists t, trace (snd (Wuxga.wuxga_write_reg client (Wuxga.addr r)
                                          (Wuxga.data r) b)) = trace b ++ t).
    { unfold Wuxga.wuxga_write_reg. destruct (adapter client); cbn [negb].
      - apply wuxga_transfer_loop_extends.
      - exists []. cbn. rewrite app_nil_r. reflexivity. }
    destruct Hw as [t1 Ht1].
    destruct (Wuxga.wuxga_write_reg client (Wuxga.addr r) (Wuxga.data r) b)
      as [e b1].
    cbn [snd] in Ht1.
    destruct (negb (e =? 0)); [exists t1; exact Ht1 | ].
    match goal with
    | |- context [Wuxga.write_table_from wait client rest ?e0 ?b2] =>
        destruct (IH e0 b2) as [t2 Ht2]; rewrite Ht2
    end.
    destruct (Wuxga.addr r =? wait).
    + rewrite trace_emit, Ht1, <- !app_assoc. eexists. reflexivity.
    + rewrite Ht1, <- app_assoc. eexists. reflexivity.
Qed.

(** X21: a disable of an enabled panel followed by an enable, whatever the
    bus answers: both return 0 and the panel record is back as it was.
    The disable drives the four power lines low in the order PD2, PX0,
    PC6, PBB3, sleeps 85 ms and leaves the bus alone.  The enable drives
    them high in the opposite order with its delays; only then does it
    send the wake messages and whatever the table player sends, and after
    the last of that traffic it waits 35 ms. *)
Theorem wuxga_disable_enable_cycle wait err0 d r :
  Wuxga.enabled d = true ->
  Wuxga.suspended d = false ->
  let off := Wuxga.wuxga_drm_disable d r in
  let on := Wuxga.wuxga_drm_enable wait err0 (snd (fst off)) (snd off) in
  fst (fst off) = 0 /\
  Rig.bus (snd off) = Rig.bus r /\
  fst on = (0, d) /\
  Rig.history (snd off) =
    Rig.history r ++
    [Rig.PinSet (Wuxga.gpios d Wuxga.TEGRA_GPIO_PD2) 0;
     Rig.PinSet (Wuxga.gpios d Wuxga.TEGRA_GPIO_PX0) 0;
     Rig.PinSet (Wuxga.gpios d Wuxga.TEGRA_GPIO_PC6) 0;
     Rig.PinSet (Wuxga.gpios d Wuxga.TEGRA_GPIO_PBB3) 0;
     Rig.Msleep 85] /\
  (exists table_traffic,
     let traffic :=
       EvI2cTransfer Wuxga.wake_msgs (next_reply 2 (Rig.bus r))
       :: table_traffic in
     trace (Rig.bus (snd on)) = trace (Rig.bus r) ++ traffic /\
     Rig.history (snd on) =
       Rig.history (snd off) ++
       [Rig.PinSet (Wuxga.gpios d Wuxga.TEGRA_GPIO_PBB3) 1;
        Rig.PinSet (Wuxga.gpios d Wuxga.TEGRA_GPIO_PC6) 1;
        Rig.Mdelay 10;
        Rig.PinSet (Wuxga.gpios d Wuxga.TEGRA_GPIO_PX0) 1;
        Rig.Mdelay 10;
        Rig.PinSet (Wuxga.gpios d Wuxga.TEGRA_GPIO_PD2) 1;
        Rig.Msleep 10] ++
       map Rig.Bus traffic ++
       [Rig.Mdelay 35]) /\
  (forall id, In id panel_power_lines ->
     Rig.level (snd off) (Wuxga.gpios d id) = 0 /\
     Rig.level (snd on) (Wuxga.gpios d id) = 1).
Proof.
  intros Hen Hsus. cbv zeta.
  destruct d as [cl lines sus regs0 n sup prep en].
  cbn [Wuxga.enabled Wuxga.suspended] in Hen, Hsus. subst en sus.
  unfold Wuxga.wuxga_drm_disable, Wuxga.wuxga_suspend,
    Wuxga.wuxga_drm_enable, Wuxga.wuxga_resume, Wuxga.wuxga_resume_gpios.
  panel_step.
  unfold i2c_transfer. cbn [List.length Wuxga.wake_msgs Z.of_nat
                            Pos.of_succ_nat Pos.succ].
  panel_step.
  set (b1 := emit (EvI2cTransfer Wuxga.wake_msgs (next_reply 2 (Rig.bus r)))
                  (set_i2c_replies (tl (i2c_replies (Rig.bus r))) (Rig.bus r))).
  assert (Hb1 : trace b1 =
                trace (Rig.bus r)
                ++ [EvI2cTransfer Wuxga.wake_msgs (next_reply 2 (Rig.bus r))])
    by reflexivity.
  unfold Wuxga.wuxga_write_table.
  destruct (wuxga_write_table_from_extends wait cl
              (firstn (Z.to_nat n) regs0) err0 b1) as [t Ht].
  destruct (Wuxga.write_table_from wait cl (firstn (Z.to_nat n) regs0) err0 b1)
    as [e2 b2].
  cbn [snd] in Ht. panel_step.
  split; [reflexivity | ]. split; [reflexivity | ]. split; [reflexivity | ].
  split; [rewrite <- !app_assoc; reflexivity | ].
  split.
  { exists t. split.
    - rewrite Ht, Hb1, <- app_assoc. reflexivity.
    - rewrite Ht, !skipn_length_app. rewrite Hb1, skipn_length_app.
      cbn [map]. rewrite <- !app_assoc. reflexivity. }
  intros id Hin. cbn in Hin.
  destruct Hin as [<- | [<- | [<- | [<- | []]]]]; split; split_lines.
Qed.

Lemma wuxga_disable_enable_cycle_witness :
  let d := lit_panel [Wuxga.RS 0x0002 0x0001] in
  let r := rig_on (nak_after 0) in
  Wuxga.enabled d = true /\
  Wuxga.suspended d = false /\
  let off := Wuxga.wuxga_drm_disable d r in
  let on := Wuxga.wuxga_drm_enable 0 0 (snd (fst off)) (snd off) in
  fst (fst off) = 0 /\
  Rig.bus (snd off) = Rig.bus r /\
  fst on = (0, d) /\
  Rig.history (snd off) =
    Rig.history r ++
    [Rig.PinSet (Wuxga.gpios d Wuxga.TEGRA_GPIO_PD2) 0;
     Rig.PinSet (Wuxga.gpios d Wuxga.TEGRA_GPIO_PX0) 0;
     Rig.PinSet (Wuxga.gpios d Wuxga.TEGRA_GPIO_PC6) 0;
     Rig.PinSet (Wuxga.gpios d Wuxga.TEGRA_GPIO_PBB3) 0;
     Rig.Msleep 85] /\
  (exists table_traffic,
     let traffic :=
       EvI2cTransfer Wuxga.wake_msgs (next_reply 2 (Rig.bus r))
       :: table_traffic in
     trace (Rig.bus (snd on)) = trace (Rig.bus r) ++ traffic /\
     Rig.history (snd on) =
       Rig.history (snd off) ++
       [Rig.PinSet (Wuxga.gpios d Wuxga.TEGRA_GPIO_PBB3) 1;
        Rig.PinSet (Wuxga.gpios d Wuxga.TEGRA_GPIO_PC6) 1;
        Rig.Mdelay 10;
        Rig.PinSet (Wuxga.gpios d Wuxga.TEGRA_GPIO_PX0) 1;
        Rig.Mdelay 10;
        Rig.PinSet (Wuxga.gpios d Wuxga.TEGRA_GPIO_PD2) 1;
        Rig.Msleep 10] ++
       map Rig.Bus traffic ++
       [Rig.Mdelay 35]) /\
  (forall id, In id panel_power_lines ->
     Rig.level (snd off) (Wuxga.gpios d id) = 0 /\
     Rig.level (snd on) (Wuxga.gpios d id) = 1).
Proof.
  cbv zeta. split; [reflexivity | ]. split; [reflexivity | ].
  apply (wuxga_disable_enable_cycle 0 0 (lit_panel [Wuxga.RS 0x0002 0x0001])
           (rig_on (nak_after 0))); reflexivity.
Defined.

(** X22: an enable of a suspended panel bound to an adapter, on a bus that
    acknowledges every transfer, sends the two wake messages and then the
    whole init table: every entry four times over, each delay entry
    followed by its sleep. *)
Theorem wuxga_drm_enable_plays_table wait err0 d r :
  Wuxga.enabled d = false ->
  Wuxga.suspended d = true ->
  Wuxga.client d = wired ->
  i2c_replies (Rig.bus r) = [] ->
  let on := Wuxga.wuxga_drm_enable wait err0 d r in
  fst on = (0, Wuxga.set_enabled true (Wuxga.set_suspended false d)) /\
  trace (Rig.bus (snd on)) =
    trace (Rig.bus r)
    ++ EvI2cTransfer Wuxga.wake_msgs 2
    :: flat_map (wuxga_entry_events wait)
                (firstn (Z.to_nat (Wuxga.ninit_regs d)) (Wuxga.init_regs d)).
Proof.
  intros Hen Hsus Hcl Hb. cbv zeta.
  unfold Wuxga.wuxga_drm_enable, Wuxga.wuxga_resume, Wuxga.wuxga_resume_gpios.
  rewrite Hen, Hsus, Hcl. panel_step.
  unfold i2c_transfer at 1 2. unfold next_reply. rewrite Hb.
  cbn [List.length Wuxga.wake_msgs Z.of_nat Pos.of_succ_nat Pos.succ tl].
  panel_step.
  unfold Wuxga.wuxga_write_table.
  match goal with
  | |- context [Wuxga.write_table_from ?w wired ?l ?e ?b] =>
      destruct (wuxga_write_table_from_acked w l e b eq_refl) as (_ & _ & Ht);
      destruct (Wuxga.write_table_from w wired l e b) as [e2 b2]
  end.
  cbn [fst snd] in Ht. panel_step. split; [reflexivity | ].
  rewrite Ht. rewrite trace_emit. rewrite <- app_assoc. reflexivity.
Qed.

Lemma wuxga_drm_enable_plays_table_witness :
  let d := Wuxga.set_suspended true
             (probed_panel [Wuxga.RS 0x0002 0x0001; Wuxga.RS 0 5]) in
  let r := rig_on quiet_board in
  Wuxga.enabled d = false /\
  Wuxga.suspended d = true /\
  Wuxga.client d = wired /\
  i2c_replies (Rig.bus r) = [] /\
  let on := Wuxga.wuxga_drm_enable 0 0 d r in
  fst on = (0, Wuxga.set_enabled true (Wuxga.set_suspended false d)) /\
  trace (Rig.bus (snd on)) =
    trace (Rig.bus r)
    ++ EvI2cTransfer Wuxga.wake_msgs 2
    :: flat_map (wuxga_entry_events 0)
                (firstn (Z.to_nat (Wuxga.ninit_regs d)) (Wuxga.init_regs d)).
Proof.
  cbv zeta. split; [reflexivity | ]. split; [reflexivity | ].
  split; [reflexivity | ]. split; [reflexivity | ].
  apply (wuxga_drm_enable_plays_table 0 0
           (Wuxga.set_suspended true
              (probed_panel [Wuxga.RS 0x0002 0x0001; Wuxga.RS 0 5]))
           (rig_on quiet_board)); reflexivity.
Defined.

(** X23: a prepare of an unprepared panel whose line and regulator calls
    succeed, followed by an unprepare: both return 0, the prepare takes one
    reference on the supply with the LDO line high, the unprepare gives it
    back and drives the line low, and the panel record is as it was. *)
Theorem wuxga_prepare_unprepare_balance d r :
  Wuxga.prepared d = false ->
  Rig.direction_replies r = [] ->
  Rig.enable_replies r = [] ->
  let line := Wuxga.gpios d Wuxga.TEGRA_GPIO_PU5 in
  let p := Wuxga.wuxga_drm_prepare d r in
  let u := Wuxga.wuxga_drm_unprepare (snd (fst p)) (snd p) in
  fst p = (0, Wuxga.set_prepared true d) /\
  Rig.held (snd p) (Wuxga.supply d) = Rig.held r (Wuxga.supply d) + 1 /\
  Rig.level (snd p) line = 1 /\
  fst u = (0, d) /\
  (forall s, Rig.held (snd u) s = Rig.held r s) /\
  Rig.level (snd u) line = 0 /\
  Rig.history (snd u) =
    Rig.history r ++
    [Rig.PinDirectionOutput line 1 0; Rig.Mdelay 5;
     Rig.SupplyEnable (Wuxga.supply d) 0; Rig.Msleep 20;
     Rig.SupplyDisable (Wuxga.supply d); Rig.PinSet line 0].
Proof.
  intros Hprep Hdir Hen. cbv zeta.
  destruct d as [cl lines sus regs0 n sup prep en].
  cbn [Wuxga.prepared] in Hprep. subst prep.
  unfold Wuxga.wuxga_drm_prepare, Wuxga.wuxga_drm_unprepare.
  panel_step. rewrite Hdir.
  cbn [hd tl Z.eqb Z.ltb Z.compare]. panel_step. rewrite Hen.
  cbn [hd tl Z.eqb Z.ltb Z.compare]. panel_step.
  split; [reflexivity | ]. split; [rewrite String.eqb_refl; reflexivity | ].
  split; [rewrite String.eqb_refl; reflexivity | ].
  split; [reflexivity | ]. split.
  { intros s. destruct (String.eqb s sup); lia. }
  split; [rewrite String.eqb_refl; reflexivity | ].
  rewrite <- !app_assoc. reflexivity.
Qed.

Lemma wuxga_prepare_unprepare_balance_witness :
  let d := probed_panel [] in
  let r := rig_on quiet_board in
  Wuxga.prepared d = false /\
  Rig.direction_replies r = [] /\
  Rig.enable_replies r = [] /\
  let line := Wuxga.gpios d Wuxga.TEGRA_GPIO_PU5 in
  let p := Wuxga.wuxga_drm_prepare d r in
  let u := Wuxga.wuxga_drm_unprepare (snd (fst p)) (snd p) in
  fst p = (0, Wuxga.set_prepared true d) /\
  Rig.held (snd p) (Wuxga.supply d) = Rig.held r (Wuxga.supply d) + 1 /\
  Rig.level (snd p) line = 1 /\
  fst u = (0, d) /\
  (forall s, Rig.held (snd u) s = Rig.held r s) /\
  Rig.level (snd u) line = 0 /\
  Rig.history (snd u) =
    Rig.history r ++
    [Rig.PinDirectionOutput line 1 0; Rig.Mdelay 5;
     Rig.SupplyEnable (Wuxga.supply d) 0; Rig.Msleep 20;
     Rig.SupplyDisable (Wuxga.supply d); Rig.PinSet line 0].
Proof.
  cbv zeta. split; [reflexivity | ]. split; [reflexivity | ].
  split; [reflexivity | ].
  apply (wuxga_prepare_unprepare_balance (probed_panel []) (rig_on quiet_board));
    reflexivity.
Defined.

(** X24: when [regulator_enable] fails in [wuxga_drm_prepare], the call
    returns its error with the panel still unprepared and no reference
    taken, but the LDO line it had switched to output high stays high: the
    function does not drive it back, and [wuxga_drm_unprepare], finding
    the panel unprepared, does nothing. *)
Theorem wuxga_prepare_failure_leaves_line_high d r c rest :
  Wuxga.prepared d = false ->
  Rig.direction_replies r = [] ->
  Rig.enable_replies r = c :: rest ->
  c < 0 ->
  let line := Wuxga.gpios d Wuxga.TEGRA_GPIO_PU5 in
  let p := Wuxga.wuxga_drm_prepare d r in
  fst p = (c, d) /\
  Rig.level (snd p) line = 1 /\
  (forall s, Rig.held (snd p) s = Rig.held r s) /\
  Wuxga.wuxga_drm_unprepare d (snd p) = (0, d, snd p).
Proof.
  intros Hprep Hdir Hen Hc. cbv zeta.
  unfold Wuxga.wuxga_drm_prepare, Wuxga.wuxga_drm_unprepare.
  rewrite Hprep. panel_step. rewrite Hdir.
  cbn [hd tl Z.eqb Z.ltb Z.compare]. panel_step. rewrite Hen.
  cbn [hd tl Z.eqb Z.ltb Z.compare]. panel_step.
  destruct (Z.ltb_spec c 0) as [_ | Hge]; [ | lia].
  destruct (Z.eqb_spec c 0) as [H0 | _]; [lia | ].
  panel_step.
  split; [reflexivity | ]. split; [rewrite String.eqb_refl; reflexivity | ].
  split; reflexivity.
Qed.

Lemma wuxga_prepare_failure_leaves_line_high_witness :
  let d := probed_panel [] in
  let r := Rig.set_enable_replies [- EIO] (rig_on quiet_board) in
  Wuxga.prepared d = false /\
  Rig.direction_replies r = [] /\
  Rig.enable_replies r = - EIO :: [] /\
  - EIO < 0 /\
  let line := Wuxga.gpios d Wuxga.TEGRA_GPIO_PU5 in
  let p := Wuxga.wuxga_drm_prepare d r in
  fst p = (- EIO, d) /\
  Rig.level (snd p) line = 1 /\
  (forall s, Rig.held (snd p) s = Rig.held r s) /\
  Wuxga.wuxga_drm_unprepare d (snd p) = (0, d, snd p).
Proof.
  cbv zeta. split; [reflexivity | ]. split; [reflexivity | ].
  split; [reflexivity | ]. split; [reflexivity | ].
  apply (wuxga_prepare_failure_leaves_line_high (probed_panel [])
           (Rig.set_enable_replies [- EIO] (rig_on quiet_board)) (- EIO) []);
    reflexivity.
Defined.

Ltac bridge_step :=
  repeat (progress (rig_step;
    cbn [Bridge.client Bridge.vdd Bridge.vddio Bridge.power_gpio
         Bridge.lvds_gpio Bridge.ldo_gpio Bridge.init_regs Bridge.ninit_regs
         Bridge.set_if_present pin_events negb hd tl app])).

(** X25: when the second regulator, vddio, fails to enable,
    [mipi_bridge_enable] stops there: vdd keeps the reference just taken
    and the LDO line stays high, nothing is sent on the bus and no other
    line is driven. *)
Theorem mipi_bridge_enable_vddio_failure err0 d r c rest :
  Rig.enable_replies r = 0 :: c :: rest ->
  c <> 0 ->
  let r' := snd (Bridge.mipi_bridge_enable err0 d r) in
  Rig.bus r' = Rig.bus r /\
  Rig.history r' =
    Rig.history r ++ pin_events (Bridge.ldo_gpio d) 1 ++
    [Rig.Mdelay 20; Rig.SupplyEnable (Bridge.vdd d) 0;
     Rig.SupplyEnable (Bridge.vddio d) c] /\
  Rig.held r' (Bridge.vdd d) = Rig.held r (Bridge.vdd d) + 1 /\
  (forall s, s <> Bridge.vdd d -> Rig.held r' s = Rig.held r s) /\
  (forall l, Some l <> Bridge.ldo_gpio d -> Rig.level r' l = Rig.level r l) /\
  (forall l, Some l = Bridge.ldo_gpio d -> Rig.level r' l = 1).
Proof.
  intros Hen Hc. cbv zeta. unfold Bridge.mipi_bridge_enable.
  destruct d as [cl vdd vddio pw lv ldo regs0 n].
  destruct ldo as [ldo | ]; bridge_step; rewrite Hen; bridge_step;
    cbn [Z.eqb]; bridge_step;
    (destruct (Z.eqb_spec c 0) as [E | _]; [contradiction | ]);
    bridge_step;
    (split; [reflexivity | ]);
    (split; [rewrite <- ?app_assoc; reflexivity | ]);
    (split; [rewrite String.eqb_refl; reflexivity | ]);
    (split; [intros s Hs; destruct (String.eqb_spec s vdd);
             [contradiction | reflexivity] | ]);
    split; intros l Hl.
  - destruct (String.eqb_spec l ldo); [congruence | reflexivity].
  - injection Hl as ->. rewrite String.eqb_refl. reflexivity.
  - reflexivity.
  - discriminate Hl.
Qed.

Lemma mipi_bridge_enable_vddio_failure_witness :
  let r := Rig.set_enable_replies [0; - EIO] (rig_on quiet_board) in
  let d := probed_bridge in
  Rig.enable_replies r = 0 :: - EIO :: [] /\
  - EIO <> 0 /\
  let r' := snd (Bridge.mipi_bridge_enable 0 d r) in
  Rig.bus r' = Rig.bus r /\
  Rig.history r' =
    Rig.history r ++ pin_events (Bridge.ldo_gpio d) 1 ++
    [Rig.Mdelay 20; Rig.SupplyEnable (Bridge.vdd d) 0;
     Rig.SupplyEnable (Bridge.vddio d) (- EIO)] /\
  Rig.held r' (Bridge.vdd d) = Rig.held r (Bridge.vdd d) + 1 /\
  (forall s, s <> Bridge.vdd d -> Rig.held r' s = Rig.held r s) /\
  (forall l, Some l <> Bridge.ldo_gpio d -> Rig.level r' l = Rig.level r l) /\
  (forall l, Some l = Bridge.ldo_gpio d -> Rig.level r' l = 1).
Proof.
  cbv zeta. split; [reflexivity | ]. split; [discriminate | ].
  apply (mipi_bridge_enable_vddio_failure 0 probed_bridge
           (Rig.set_enable_replies [0; - EIO] (rig_on quiet_board)) (- EIO) []);
    [reflexivity | discriminate].
Defined.

(** X26: when both regulators enable, [mipi_bridge_enable] followed by
    [mipi_bridge_disable] leaves every regulator with the enable count it
    had, whatever the bus answered in between; every optional line the
    board has is high after the enable and low after the disable. *)
Theorem mipi_bridge_enable_disable_balance err0 d r :
  Rig.enable_replies r = [] ->
  let r1 := snd (Bridge.mipi_bridge_enable err0 d r) in
  let r2 := snd (Bridge.mipi_bridge_disable d r1) in
  (forall s, Rig.held r2 s = Rig.held r s) /\
  (forall l, In (Some l) (bridge_lines d) ->
     Rig.level r1 l = 1 /\ Rig.level r2 l = 0).
Proof.
  intros Hen. cbv zeta.
  set (r1 := snd (Bridge.mipi_bridge_enable err0 d r)).
  assert (H1 : (forall s, Rig.held r1 s =
                  Rig.held r s + (if String.eqb s (Bridge.vdd d) then 1 else 0)
                  + (if String.eqb s (Bridge.vddio d) then 1 else 0)) /\
               (forall l, In (Some l) (bridge_lines d) -> Rig.level r1 l = 1)).
  { subst r1. unfold Bridge.mipi_bridge_enable, bridge_lines.
    destruct d as [cl vdd vddio pw lv ldo regs0 n].
    destruct ldo as [ldo | ], lv as [lv | ], pw as [pw | ];
      repeat (progress (bridge_step; rewrite ?Hen; cbn [Z.eqb]));
      match goal with
      | |- context [i2c_transfer ?m ?b] => destruct (i2c_transfer m b) as [t b1]
      end;
      bridge_step;
      match goal with
      | |- context [Bridge.bridge_write_table ?c ?l ?k ?e ?b] =>
          destruct (Bridge.bridge_write_table c l k e b) as [e2 b2]
      end;
      bridge_step;
      (split;
       [ intros s; destruct (String.eqb s vddio), (String.eqb s vdd); lia
       | intros l Hl; cbn [In] in Hl;
         repeat match goal with
                | H : _ \/ _ |- _ => destruct H as [H | H]
                | H : Some _ = Some _ |- _ => injection H as <-
                | H : None = Some _ |- _ => discriminate H
                | H : False |- _ => contradiction
                end;
         split_lines ]). }
  destruct H1 as [Hheld Hlevel]. clearbody r1.
  unfold Bridge.mipi_bridge_disable.
  split.
  - intros s. pose proof (Hheld s) as Hs.
    destruct d as [cl vdd vddio pw lv ldo regs0 n].
    cbn [Bridge.vdd Bridge.vddio] in Hs.
    destruct ldo as [ldo | ], lv as [lv | ], pw as [pw | ];
      bridge_step;
      destruct (String.eqb s vddio), (String.eqb s vdd); lia.
  - intros l Hl. split; [apply Hlevel; exact Hl | ].
    unfold bridge_lines in Hl.
    destruct d as [cl vdd vddio pw lv ldo regs0 n].
    cbn [Bridge.ldo_gpio Bridge.lvds_gpio Bridge.power_gpio In] in Hl.
    destruct ldo as [ldo | ], lv as [lv | ], pw as [pw | ];
      bridge_step;
      repeat match goal with
             | H : _ \/ _ |- _ => destruct H as [H | H]
             | H : Some _ = Some _ |- _ => injection H as <-
             | H : None = Some _ |- _ => discriminate H
             | H : False |- _ => contradiction
             end;
      split_lines.
Qed.

Lemma mipi_bridge_enable_disable_balance_witness :
  let r := rig_on (nak_after 2) in
  let d := probed_bridge in
  Rig.enable_replies r = [] /\
  let r1 := snd (Bridge.mipi_bridge_enable 0 d r) in
  let r2 := snd (Bridge.mipi_bridge_disable d r1) in
  (forall s, Rig.held r2 s = Rig.held r s) /\
  (forall l, In (Some l) (bridge_lines d) ->
     Rig.level r1 l = 1 /\ Rig.level r2 l = 0).
Proof.
  cbv zeta. split; [reflexivity | ].
  apply (mipi_bridge_enable_disable_balance 0 probed_bridge
           (rig_on (nak_after 2))). reflexivity.
Defined.

(** X27: on a bridge bound to an adapter whose regulators enable and whose
    bus acknowledges every transfer, [mipi_bridge_enable] raises the LDO
    line, waits 20 ms, enables vdd then vddio, waits 10 ms, raises the lvds
    and power lines and waits 10 ms; only then does it send the two wake
    messages and its whole table, each delay entry slept before it is sent
    and every entry sent four times; after the last transfer it waits
    35 ms. *)
Theorem mipi_bridge_enable_plays_table err0 d r :
  Bridge.client d = wired ->
  Rig.enable_replies r = [] ->
  i2c_replies (Rig.bus r) = [] ->
  let r' := snd (Bridge.mipi_bridge_enable err0 d r) in
  let traffic :=
    EvI2cTransfer Bridge.wake_msgs 2
    :: flat_map bridge_entry_events
                (firstn (Z.to_nat (Bridge.ninit_regs d)) (Bridge.init_regs d)) in
  trace (Rig.bus r') = trace (Rig.bus r) ++ traffic /\
  Rig.history r' =
    Rig.history r ++ pin_events (Bridge.ldo_gpio d) 1 ++
    [Rig.Mdelay 20; Rig.SupplyEnable (Bridge.vdd d) 0;
     Rig.SupplyEnable (Bridge.vddio d) 0; Rig.Mdelay 10] ++
    pin_events (Bridge.lvds_gpio d) 1 ++ pin_events (Bridge.power_gpio d) 1 ++
    [Rig.Mdelay 10] ++
    map Rig.Bus traffic ++
    [Rig.Mdelay 35].
Proof.
  intros Hcl Hen Hb. cbv zeta. unfold Bridge.mipi_bridge_enable.
  destruct d as [cl vdd vddio pw lv ldo regs0 n].
  cbn [Bridge.client] in Hcl. subst cl.
  destruct ldo as [ldo | ], lv as [lv | ], pw as [pw | ];
    repeat (progress (bridge_step; rewrite ?Hen; cbn [Z.eqb]));
    unfold i2c_transfer at 1 2; unfold next_reply; rewrite Hb;
    cbn [List.length Bridge.wake_msgs Z.of_nat Pos.of_succ_nat Pos.succ tl];
    bridge_step;
    unfold Bridge.bridge_write_table;
    match goal with
    | |- context [Bridge.write_table_from wired ?l ?e ?b] =>
        destruct (bridge_write_table_from_acked l e b eq_refl) as (_ & _ & Ht);
        destruct (Bridge.write_table_from wired l e b) as [e2 b2]
    end;
    cbn [fst snd] in Ht; bridge_step;
    rewrite Ht, !trace_emit; cbn [trace set_i2c_replies];
    rewrite !skipn_length_app;
    (split;
     [ rewrite <- app_assoc; reflexivity
     | cbn [map app]; rewrite <- ?app_assoc; reflexivity ]).
Qed.

Lemma mipi_bridge_enable_plays_table_witness :
  let r := rig_on quiet_board in
  let d := probed_bridge in
  Bridge.client d = wired /\
  Rig.enable_replies r = [] /\
  i2c_replies (Rig.bus r) = [] /\
  let r' := snd (Bridge.mipi_bridge_enable 0 d r) in
  let traffic :=
    EvI2cTransfer Bridge.wake_msgs 2
    :: flat_map bridge_entry_events
                (firstn (Z.to_nat (Bridge.ninit_regs d)) (Bridge.init_regs d)) in
  trace (Rig.bus r') = trace (Rig.bus r) ++ traffic /\
  Rig.history r' =
    Rig.history r ++ pin_events (Bridge.ldo_gpio d) 1 ++
    [Rig.Mdelay 20; Rig.SupplyEnable (Bridge.vdd d) 0;
     Rig.SupplyEnable (Bridge.vddio d) 0; Rig.Mdelay 10] ++
    pin_events (Bridge.lvds_gpio d) 1 ++ pin_events (Bridge.power_gpio d) 1 ++
    [Rig.Mdelay 10] ++
    map Rig.Bus traffic ++
    [Rig.Mdelay 35].
Proof.
  cbv zeta. split; [reflexivity | ]. split; [reflexivity | ].
  split; [reflexivity | ].
  apply (mipi_bridge_enable_plays_table 0 probed_bridge (rig_on quiet_board));
    reflexivity.
Defined.

(** * Probe-time behaviour *)

(** X28: [ov2710_check_id] returns 0 whatever [ov2710_power_on] returned:
    on an unpowered sensor whose regulators fail to enable it still
    reports success, with the sensor left unpowered and nothing sent on the
    bus; when the power-on succeeds the sensor is left enabled. *)
Theorem ov2710_check_id_hides_power_failure sensor b :
  is_enabled sensor = false ->
  let r := ov2710_check_id sensor b in
  fst (fst r) = 0 /\
  snd r = snd (ov2710_power_on sensor b) /\
  (hd 0 (regulator_replies b) < 0 ->
   snd (fst r) = sensor /\ i2c_replies (snd r) = i2c_replies b /\
   supplies_on (snd r) = supplies_on b) /\
  (fst (fst (ov2710_power_on sensor b)) = 0 -> is_enabled (snd (fst r)) = true).
Proof.
  intros Hen. cbv zeta. unfold ov2710_check_id. cbv [Bind Ret].
  pose proof (ov2710_power_on_result sensor b Hen) as Hres. cbv zeta in Hres.
  assert (Hreg : hd 0 (regulator_replies b) < 0 ->
                 ov2710_power_on sensor b =
                   (hd 0 (regulator_replies b), sensor,
                    emit (EvRegulatorBulkEnable (hd 0 (regulator_replies b)))
                         (set_regulator_replies (tl (regulator_replies b)) b))).
  { intros Hneg. unfold ov2710_power_on. rewrite Hen.
    cbv [Bind regulator_bulk_enable].
    destruct (Z.ltb_spec (hd 0 (regulator_replies b)) 0) as [_ | Hge]; [ | lia].
    destruct (Z.eqb_spec (hd 0 (regulator_replies b)) 0) as [E | _]; [lia | ].
    reflexivity. }
  destruct (ov2710_power_on sensor b) as [[ret s1] b1]. cbn [fst snd] in *.
  split; [reflexivity | ]. split; [reflexivity | ]. split.
  - intros Hneg. specialize (Hreg Hneg). injection Hreg as _ -> ->.
    repeat split.
  - intros Hret. destruct Hres as [[_ ->] | [Hlt _]]; [reflexivity | lia].
Qed.

Lemma ov2710_check_id_hides_power_failure_witness :
  let b := set_regulator_replies [- EIO] quiet_board in
  is_enabled probed_sensor = false /\
  let r := ov2710_check_id probed_sensor b in
  fst (fst r) = 0 /\
  snd r = snd (ov2710_power_on probed_sensor b) /\
  (hd 0 (regulator_replies b) < 0 ->
   snd (fst r) = probed_sensor /\ i2c_replies (snd r) = i2c_replies b /\
   supplies_on (snd r) = supplies_on b) /\
  (fst (fst (ov2710_power_on probed_sensor b)) = 0 ->
   is_enabled (snd (fst r)) = true).
Proof.
  cbv zeta. split; [reflexivity | ].
  apply (ov2710_check_id_hides_power_failure probed_sensor
           (set_regulator_replies [- EIO] quiet_board)). reflexivity.
Defined.

(** X29: with a client that has no adapter, both table players give up at
    the first entry with -ENODEV and without a single transfer; the
    bridge's player, which sleeps before it writes, has by then slept the
    delay of a first entry whose address is 0. *)
Theorem write_table_without_adapter wait r1 rest1 r2 rest2 nregs err0 b :
  0 < nregs ->
  Wuxga.wuxga_write_table wait unwired (r1 :: rest1) nregs err0 b = (- ENODEV, b) /\
  Bridge.bridge_write_table unwired (r2 :: rest2) nregs err0 b =
    (- ENODEV,
     if Bridge.addr r2 =? 0 then emit (EvMsleep (Bridge.data r2)) b else b).
Proof.
  intros Hn. unfold Wuxga.wuxga_write_table, Bridge.bridge_write_table.
  assert (Hf : forall A (x : A) l, firstn (Z.to_nat nregs) (x :: l)
                 = x :: firstn (Nat.pred (Z.to_nat nregs)) l).
  { intros A x l. destruct (Z.to_nat nregs) eqn:E; [lia | reflexivity]. }
  rewrite !Hf. split.
  - rewrite wuxga_write_table_from_cons. reflexivity.
  - rewrite bridge_write_table_from_cons. cbv zeta.
    destruct (Bridge.addr r2 =? 0); reflexivity.
Qed.

Lemma write_table_without_adapter_witness :
  0 < 2 /\
  Wuxga.wuxga_write_table 0 unwired [Wuxga.RS 0x0002 0x0001; Wuxga.RS 0 5] 2 0
    quiet_board = (- ENODEV, quiet_board) /\
  Bridge.bridge_write_table unwired [Bridge.RS 0 5; Bridge.RS 0x0002 0] 2 0
    quiet_board =
    (- ENODEV,
     if Bridge.addr (Bridge.RS 0 5) =? 0
     then emit (EvMsleep (Bridge.data (Bridge.RS 0 5))) quiet_board
     else quiet_board).
Proof.
  split; [lia | ].
  apply (write_table_without_adapter 0 (Wuxga.RS 0x0002 0x0001) [Wuxga.RS 0 5]
           (Bridge.RS 0 5) [Bridge.RS 0x0002 0] 2 0 quiet_board). lia.
Defined.

(** * A whole streaming session *)

(** X30: on a bus that acknowledges every transfer, starting the stream on
    a sensor that is not streaming returns 0 and sets [is_streaming]; a
    pending mode change has been committed by then and its flag is
    cleared; the stream-control register holds the complement of the sleep
    bit.  Stopping the stream then returns 0, clears [is_streaming] and
    leaves the register at the sleep value, with the mode still
    committed. *)
Theorem ov2710_s_stream_session sensor enable b :
  enable <> 0 ->
  is_streaming sensor = false ->
  i2c_replies b = [] ->
  let on := ov2710_s_stream sensor enable b in
  let off := ov2710_s_stream (snd (fst on)) 0 (snd on) in
  fst on = (0, set_is_streaming true (set_mode_pending_changes false sensor)) /\
  regs (snd on) OV2710_REG_STREAM_CTRL = 255 - OV2710_REG_STREAM_CTRL_SLEEP /\
  fst off = (0, set_is_streaming false (set_mode_pending_changes false sensor)) /\
  regs (snd off) OV2710_REG_STREAM_CTRL = OV2710_REG_STREAM_CTRL_SLEEP.
Proof.
  intros Hen Hstr Hb. cbv zeta.
  assert (Hnn : notnot enable = true).
  { unfold notnot. destruct (Z.eqb_spec enable 0); [contradiction | reflexivity]. }
  assert (Hcommit : exists b1,
            (if true && mode_pending_changes sensor
             then ov2710_mode_set sensor else Ret (0, sensor)) b =
              (0, set_mode_pending_changes false sensor, b1) /\
            i2c_replies b1 = []).
  { cbn [andb]. destruct (mode_pending_changes sensor) eqn:Hpend.
    - destruct (ov2710_mode_set_acked sensor b Hb) as (r0 & b1 & Hm & Hb1 & _).
      exists b1. split; assumption.
    - exists b. split; [ | exact Hb].
      destruct sensor. cbn in Hpend. subst. reflexivity. }
  destruct Hcommit as (b1 & Hc & Hb1).
  assert (Hon : exists b2,
            ov2710_s_stream sensor enable b =
              (0, set_is_streaming true (set_mode_pending_changes false sensor),
               b2) /\
            i2c_replies b2 = [] /\
            regs b2 OV2710_REG_STREAM_CTRL = 255 - OV2710_REG_STREAM_CTRL_SLEEP).
  { unfold ov2710_s_stream. rewrite Hstr, Hnn. cbn [Bool.eqb].
    unfold Bind at 1. rewrite Hc. cbn [Z.ltb Z.compare].
    unfold Bind at 1. unfold ov2710_stream_enable.
    rewrite ov2710_write_reg_run. cbv zeta. unfold next_reply. rewrite Hb1.
    cbn [Z.eqb Pos.eqb Ret tl].
    eexists. split; [reflexivity | ]. split; reflexivity. }
  destruct Hon as (b2 & Hon & Hb2 & Hreg2).
  rewrite Hon. cbn [fst snd].
  split; [reflexivity | ]. split; [exact Hreg2 | ].
  assert (Hoff : exists b3,
            ov2710_s_stream
              (set_is_streaming true (set_mode_pending_changes false sensor))
              0 b2 =
              (0, set_is_streaming false (set_mode_pending_changes false sensor),
               b3) /\
            regs b3 OV2710_REG_STREAM_CTRL = OV2710_REG_STREAM_CTRL_SLEEP).
  { unfold ov2710_s_stream. cbn [is_streaming set_is_streaming].
    change (notnot 0) with false. cbn [Bool.eqb andb].
    unfold Bind at 1. cbn [Ret Z.ltb Z.compare].
    unfold Bind at 1. unfold ov2710_stream_disable.
    rewrite ov2710_write_reg_run. cbv zeta. unfold next_reply. rewrite Hb2.
    cbn [Z.eqb Pos.eqb Ret tl].
    destruct sensor. eexists. split; reflexivity. }
  destruct Hoff as (b3 & Hoff & Hreg3).
  rewrite Hoff. cbn [fst snd]. split; [reflexivity | exact Hreg3].
Qed.

Lemma ov2710_s_stream_session_witness :
  1 <> 0 /\
  is_streaming powered_sensor = false /\
  i2c_replies quiet_board = [] /\
  let on := ov2710_s_stream powered_sensor 1 quiet_board in
  let off := ov2710_s_stream (snd (fst on)) 0 (snd on) in
  fst on = (0, set_is_streaming true
                 (set_mode_pending_changes false powered_sensor)) /\
  regs (snd on) OV2710_REG_STREAM_CTRL = 255 - OV2710_REG_STREAM_CTRL_SLEEP /\
  fst off = (0, set_is_streaming false
                  (set_mode_pending_changes false powered_sensor)) /\
  regs (snd off) OV2710_REG_STREAM_CTRL = OV2710_REG_STREAM_CTRL_SLEEP.
Proof.
  split; [discriminate | ]. split; [reflexivity | ]. split; [reflexivity | ].
  apply (ov2710_s_stream_session powered_sensor 1 quiet_board);
    [discriminate | reflexivity | reflexivity].
Defined.
